(** * Travel Day Counter: a shallow embedding of [TDC.py]

    The development follows the class [TravelDayCounter] of [TDC.py]:
    the visit-history builder [create_visit_history], the derived tables
    [create_country2percent] and [create_country2rank], the constructor
    [__init__] with its home/abroad roll-up, and [shortened_table].

    Conventions of the embedding.
    - Python [int] is [Z]; Python [str] is [string] (ASCII text: a
      statement about when a date fails to parse assumes [Py.isascii]).
    - A Python [dict] keeps its keys in insertion order; it is an
      association list with unique keys, new keys appended at the end.
      A [defaultdict] is the same list with a look-up that inserts the
      default value under a missing key.
    - An exception is a value of [exn]; code that may raise lives in the
      error monad [result].  [int] raises [ValueError]; [date] raises
      [OverflowError] for a number beyond the C [int]s and [ValueError]
      for a field out of range.
    - [datetime.date] is a record of year, month and day; the dates that
      exist are those the checked constructor [date] accepts ([Date.valid]);
      [date.today()] is a parameter of every function that reads the clock.
    - Floating-point values are not interpreted: a [pyfloat] records the
      expression the source evaluates (true division, product, [round]). *)

From Stdlib Require Import ZArith List String Ascii Bool Lia QArith Sorted Permutation.
Import ListNotations.
Local Open Scope string_scope.
Local Open Scope list_scope.
Local Open Scope Z_scope.

#[local] Arguments Z.add : simpl never.
#[local] Arguments Z.sub : simpl never.
#[local] Arguments Z.mul : simpl never.

(* ================================================================== *)
(** * Part I: definitions *)
(* ================================================================== *)

(** ** Exceptions and the error monad *)

Inductive exn : Type :=
| ValueError
| OverflowError
| ZeroDivisionError
| KeyError.

Inductive result (A : Type) : Type :=
| Ok (a : A)
| Raise (e : exn).
Arguments Ok {A} a.
Arguments Raise {A} e.

Definition bind {A B : Type} (r : result A) (k : A -> result B) : result B :=
  match r with
  | Ok a => k a
  | Raise e => Raise e
  end.

Notation "x <- r ;; k" := (bind r (fun x => k))
  (at level 61, r at next level, right associativity).
Notation "' p <- r ;; k" := (bind r (fun x => let p := x in k))
  (at level 61, p pattern, r at next level, right associativity).

(** ** Python built-ins on strings and integers *)

Module Py.

(** [s.split(sep)] for a one-character separator: the pieces between the
    separators, empty pieces included; never the empty list. *)
Fixpoint split (sep : ascii) (s : string) : list string :=
  match s with
  | EmptyString => [EmptyString]
  | String c s' =>
      if Ascii.eqb c sep then EmptyString :: split sep s'
      else match split sep s' with
           | [] => [String c EmptyString]
           | h :: t => String c h :: t
           end
  end.

(** [a, b, c = xs]: unpacking into three names raises [ValueError] unless
    [xs] has exactly three items. *)
Definition unpack3 (xs : list string) : result (string * string * string) :=
  match xs with
  | [a; b; c] => Ok (a, b, c)
  | _ => Raise ValueError
  end.

(** White space as [int()] skips it around the literal of an ASCII
    string: tab, line feed, vertical tab, form feed, carriage return and
    space. *)
Definition is_space (c : ascii) : bool :=
  let n := nat_of_ascii c in
  (((9 <=? n) && (n <=? 13)) || (n =? 32))%nat.

Definition is_digit (c : ascii) : bool :=
  let n := nat_of_ascii c in ((48 <=? n) && (n <=? 57))%nat.

Definition digit_value (c : ascii) : Z := Z.of_nat (nat_of_ascii c) - 48.

Fixpoint lstrip (s : string) : string :=
  match s with
  | EmptyString => EmptyString
  | String c s' => if is_space c then lstrip s' else s
  end.

Fixpoint rstrip (s : string) : string :=
  match s with
  | EmptyString => EmptyString
  | String c s' =>
      match rstrip s' with
      | EmptyString => if is_space c then EmptyString else String c EmptyString
      | r => String c r
      end
  end.

(** The digits of a base-10 literal; single underscores are allowed
    between digits only.  [after_us] is true at the start and after an
    underscore, where a digit must follow. *)
Fixpoint digits (s : string) (acc : Z) (after_us : bool) : option Z :=
  match s with
  | EmptyString => if after_us then None else Some acc
  | String c s' =>
      if is_digit c then digits s' (10 * acc + digit_value c) false
      else if Ascii.eqb c "_"%char then
             if after_us then None else digits s' acc true
           else None
  end.

(** The number of digit characters of a literal (underscores and the
    sign do not count), and the default limit on it
    ([sys.get_int_max_str_digits()]). *)
Fixpoint count_digits (s : string) : Z :=
  match s with
  | EmptyString => 0
  | String c s' => (if is_digit c then 1 else 0) + count_digits s'
  end.

Definition MAX_STR_DIGITS : Z := 4300.

(** [int(s)] for a string: optional white space, optional sign, decimal
    digits, optional white space; anything else is a [ValueError], and so
    is a literal of more than [MAX_STR_DIGITS] digits.
    This is [int] on ASCII text ([isascii]); outside it Python also reads
    the white space and the decimal digits of other scripts, which is not
    part of the model: there [int] below always raises. *)
Definition int (s : string) : result Z :=
  let body := rstrip (lstrip s) in
  let signed :=
    match body with
    | String "+" r => (1, r)
    | String "-" r => (-1, r)
    | _ => (1, body)
    end in
  match digits (snd signed) 0 true with
  | Some n =>
      if MAX_STR_DIGITS <? count_digits (snd signed) then Raise ValueError
      else Ok (fst signed * n)
  | None => Raise ValueError
  end.

(** [s.isascii()]: every character is below 128. *)
Fixpoint isascii (s : string) : bool :=
  match s with
  | EmptyString => true
  | String c s' => (nat_of_ascii c <? 128)%nat && isascii s'
  end.

(** [str(n)] for an integer: decimal digits, a minus sign when negative. *)
Fixpoint str_pos_fuel (fuel : nat) (n : Z) (acc : string) : string :=
  match fuel with
  | O => acc
  | S fuel' =>
      let acc' := String (ascii_of_nat (Z.to_nat (48 + n mod 10))) acc in
      if n / 10 =? 0 then acc' else str_pos_fuel fuel' (n / 10) acc'
  end.

Definition str (n : Z) : string :=
  if n <? 0
  then String "-" (str_pos_fuel (S (Z.to_nat (Z.log2 (- n)))) (- n) EmptyString)
  else str_pos_fuel (S (Z.to_nat (Z.log2 n))) n EmptyString.

(** [sum(xs)] over integers. *)
Definition sum (xs : list Z) : Z := fold_left Z.add xs 0.

End Py.

(** ** Floating-point expressions, kept symbolic *)

Inductive pyfloat : Type :=
| FDiv (a b : Z)                  (* a / b, true division, b <> 0 *)
| FMul (x : pyfloat) (k : Z)      (* x * k *)
| FRound (x : pyfloat) (nd : Z).  (* round(x, nd) *)

(** The text [str(x) + suffix] for a float [x]. *)
Record float_text : Type := FloatText { ft_value : pyfloat; ft_suffix : string }.

(** [a / b] on integers: [ZeroDivisionError] when [b] is zero. *)
Definition truediv (a b : Z) : result pyfloat :=
  if b =? 0 then Raise ZeroDivisionError else Ok (FDiv a b).

(** ** [datetime.date] *)

Module Date.

Record t : Type := mk { year : Z; month : Z; day : Z }.

Definition MINYEAR : Z := 1.
Definition MAXYEAR : Z := 9999.

Definition is_leap (y : Z) : bool :=
  (y mod 4 =? 0) && (negb (y mod 100 =? 0) || (y mod 400 =? 0)).

(** Days before January 1st of year [y]. *)
Definition days_before_year (y : Z) : Z :=
  let y' := y - 1 in y' * 365 + y' / 4 - y' / 100 + y' / 400.

Definition DAYS_IN_MONTH (m : Z) : Z :=
  match m with
  | 1 => 31 | 2 => 28 | 3 => 31 | 4 => 30 | 5 => 31 | 6 => 30
  | 7 => 31 | 8 => 31 | 9 => 30 | 10 => 31 | 11 => 30 | 12 => 31
  | _ => -1
  end.

Definition days_in_month (y m : Z) : Z :=
  if (m =? 2) && is_leap y then 29 else DAYS_IN_MONTH m.

Definition DAYS_BEFORE_MONTH (m : Z) : Z :=
  match m with
  | 1 => 0 | 2 => 31 | 3 => 59 | 4 => 90 | 5 => 120 | 6 => 151
  | 7 => 181 | 8 => 212 | 9 => 243 | 10 => 273 | 11 => 304 | 12 => 334
  | _ => -1
  end.

(** Days in year [y] before the first day of month [m]. *)
Definition days_before_month (y m : Z) : Z :=
  DAYS_BEFORE_MONTH m + (if (2 <? m) && is_leap y then 1 else 0).

Definition ymd2ord (y m d : Z) : Z :=
  days_before_year y + days_before_month y m + d.

(** The field check of the constructor. *)
Definition check_date_fields (y m d : Z) : bool :=
  (MINYEAR <=? y) && (y <=? MAXYEAR) &&
  (1 <=? m) && (m <=? 12) &&
  (1 <=? d) && (d <=? days_in_month y m).

(** The arguments of the constructor are read as C [int]s. *)
Definition fits_c_int (z : Z) : bool :=
  (-2147483648 <=? z) && (z <=? 2147483647).

(** [date(y, m, d)]: [OverflowError] when an argument does not fit a C
    [int], [ValueError] when a field is out of range. *)
Definition date (y m d : Z) : result t :=
  if fits_c_int y && fits_c_int m && fits_c_int d then
    if check_date_fields y m d then Ok (mk y m d) else Raise ValueError
  else Raise OverflowError.

Definition valid (x : t) : Prop :=
  check_date_fields (year x) (month x) (day x) = true.

(** [x.toordinal()]: January 1st of year 1 is day 1. *)
Definition toordinal (x : t) : Z := ymd2ord (year x) (month x) (day x).

(** [(x - y).days]. *)
Definition sub_days (x y : t) : Z := toordinal x - toordinal y.

(** [x <= y]: dates compare as the triples (year, month, day). *)
Definition leb (x y : t) : bool :=
  (year x <? year y) ||
  ((year x =? year y) &&
   ((month x <? month y) || ((month x =? month y) && (day x <=? day y)))).

Definition le (x y : t) : Prop := leb x y = true.

End Date.

(** ** Insertion-ordered dictionaries with string keys *)

Module Dict.
Section Dict.
Context {V : Type}.

Definition t : Type := list (string * V).

Definition empty : t := [].

(** [d.get(k)]: the value under [k], if any. *)
Fixpoint get (d : t) (k : string) : option V :=
  match d with
  | [] => None
  | (k', v) :: d' => if String.eqb k' k then Some v else get d' k
  end.

(** [k in d]. *)
Definition mem (d : t) (k : string) : bool :=
  match get d k with Some _ => true | None => false end.

(** [d[k] = v]: an existing key keeps its place, a new key goes last. *)
Fixpoint set (d : t) (k : string) (v : V) : t :=
  match d with
  | [] => [(k, v)]
  | (k', v') :: d' =>
      if String.eqb k' k then (k', v) :: d' else (k', v') :: set d' k v
  end.

(** [d[k]] on a plain dict: [KeyError] when [k] is missing. *)
Definition getitem (d : t) (k : string) : result V :=
  match get d k with Some v => Ok v | None => Raise KeyError end.

(** [d[k]] on a [defaultdict] with default [dflt]: a missing key is
    inserted with the default; the dictionary after the look-up is the
    second component. *)
Definition getitem_default (dflt : V) (d : t) (k : string) : V * t :=
  match get d k with
  | Some v => (v, d)
  | None => (dflt, set d k dflt)
  end.

Definition keys (d : t) : list string := map fst d.
Definition values (d : t) : list V := map snd d.
Definition items (d : t) : list (string * V) := d.
Definition len (d : t) : Z := Z.of_nat (List.length d).

(** The representation invariant: no key occurs twice. *)
Definition wf (d : t) : Prop := NoDup (keys d).

End Dict.
Arguments t V : clear implicits.
End Dict.

(** ** The input table *)

(** A row of the CSV file read by [pd.read_csv]: the columns [DATE]
    ([yyyy-mm-dd] text) and [ENTERED] (country code).  The data frame is
    the list of its rows; [df[col][i]] raises [KeyError] past the end. *)
Record Row : Type := mkRow { DATE : string; ENTERED : string }.

Definition DataFrame : Type := list Row.

(** [y, m, d = s.split('-'); date(int(y), int(m), int(d))], keeping the
    year text [y], which the builder uses as a dictionary key. *)
Definition parse_date (s : string) : result (string * Date.t) :=
  '(y, m, d) <- Py.unpack3 (Py.split "-" s) ;;
  yi <- Py.int y ;;
  mi <- Py.int m ;;
  di <- Py.int d ;;
  dt <- Date.date yi mi di ;;
  Ok (y, dt).

(** ** [create_visit_history] *)

Record history : Type := mkHistory {
  country2days : Dict.t Z;
  country2firstvisit : Dict.t Date.t;
  country2lastvisit : Dict.t Date.t;
  visityear2countries : Dict.t (list string)
}.

Definition empty_history : history :=
  mkHistory Dict.empty Dict.empty Dict.empty Dict.empty.

(** [c in l] for a list of strings. *)
Definition list_mem (c : string) (l : list string) : bool :=
  existsb (String.eqb c) l.

(** [if country not in v[y]: v[y].append(country)] on the
    [defaultdict(list)]. *)
Definition add_year (v : Dict.t (list string)) (y country : string)
  : Dict.t (list string) :=
  let '(l, v1) := Dict.getitem_default [] v y in
  if list_mem country l then v1 else Dict.set v1 y (l ++ [country])%list.

(** One turn of the loop, after the two dates are known. *)
Definition visit (h : history) (country entry_y : string) (entry_date : Date.t)
    (depart_y : string) (departure_date : Date.t) : history :=
  let delta := Date.sub_days departure_date entry_date in
  let '(old, c2d) := Dict.getitem_default 0 (country2days h) country in
  let c2d := Dict.set c2d country (old + delta) in
  let c2l := Dict.set (country2lastvisit h) country departure_date in
  let c2f :=
    if Dict.mem (country2firstvisit h) country then country2firstvisit h
    else Dict.set (country2firstvisit h) country entry_date in
  let v := add_year (visityear2countries h) entry_y country in
  let v := add_year v depart_y country in
  mkHistory c2d c2f c2l v.

(** The loop [for i in range(entry_count)]: the departure date is the
    date of the next row; at the last row the look-up raises [KeyError],
    and the handler takes today's date. *)
Fixpoint visit_rows (rows : DataFrame) (today : Date.t) (h : history)
  : result history :=
  match rows with
  | [] => Ok h
  | r :: rest =>
      '(entry_y, entry_date) <- parse_date (DATE r) ;;
      '(depart_y, departure_date) <-
        match rest with
        | r' :: _ => parse_date (DATE r')
        | [] => Ok (Py.str (Date.year today), today)
        end ;;
      visit_rows rest today
        (visit h (ENTERED r) entry_y entry_date depart_y departure_date)
  end.

Definition create_visit_history (source : DataFrame) (today : Date.t)
  : result history :=
  visit_rows source today empty_history.

(** ** [create_country2percent] *)

(** [str(round((days/total_days)*100, 1))+'%']. *)
Definition percent_text (days total_days : Z) : result float_text :=
  q <- truediv days total_days ;;
  Ok (FloatText (FRound (FMul q 100) 1) "%").

Fixpoint percent_loop (items : list (string * Z)) (total_days : Z)
    (country2percent : Dict.t float_text) : result (Dict.t float_text) :=
  match items with
  | [] => Ok country2percent
  | (country, days) :: rest =>
      p <- percent_text days total_days ;;
      percent_loop rest total_days (Dict.set country2percent country p)
  end.

Definition create_country2percent (country2days : Dict.t Z)
  : result (Dict.t float_text) :=
  let total_days := Py.sum (Dict.values country2days) in
  percent_loop (Dict.items country2days) total_days Dict.empty.

(** ** [create_country2rank] *)

(** [current_max_days] starts as [float('inf')] and then holds integers. *)
Inductive number : Type :=
| Inf
| Int (n : Z).

(** [days < m] for an integer [days]. *)
Definition int_lt (days : Z) (m : number) : bool :=
  match m with
  | Inf => true
  | Int n => days <? n
  end.

(** [sorted(items, key=lambda x: x[1], reverse=True)]: a stable sort,
    largest value first, items of equal value in their original order. *)
Fixpoint insert_desc (x : string * Z) (l : list (string * Z))
  : list (string * Z) :=
  match l with
  | [] => [x]
  | y :: l' => if snd x <? snd y then y :: insert_desc x l' else x :: l
  end.

Fixpoint sorted_desc (l : list (string * Z)) : list (string * Z) :=
  match l with
  | [] => []
  | x :: l' => insert_desc x (sorted_desc l')
  end.

Record rank_state : Type := mkRank {
  country2rank : Dict.t Z;
  current_rank : Z;
  current_max_days : number;
  rank_diff : Z
}.

Definition rank_init : rank_state := mkRank Dict.empty 0 Inf 0.

Definition rank_step (st : rank_state) (item : string * Z) : rank_state :=
  let '(country, days) := item in
  if int_lt days (current_max_days st) then
    let r := current_rank st + rank_diff st + 1 in
    mkRank (Dict.set (country2rank st) country r) r (Int days) 0
  else
    mkRank (Dict.set (country2rank st) country (current_rank st))
           (current_rank st) (current_max_days st) (rank_diff st + 1).

Definition create_country2rank (country2days : Dict.t Z) : Dict.t Z :=
  let sorted_c2d := sorted_desc (Dict.items country2days) in
  country2rank (fold_left rank_step sorted_c2d rank_init).

(** ** [day_count] and [shortened_table] *)

Definition day_count (start_date : string) (today : Date.t) : result Z :=
  '(_, start) <- parse_date start_date ;;
  Ok (Date.sub_days today start).

Definition shortened_table (country2days : Dict.t Z) (threshold : Z)
  : result (Dict.t Z * Z * float_text) :=
  let shortened_c2d :=
    filter (fun it : string * Z => threshold <=? snd it) (Dict.items country2days) in
  let rest_days :=
    Py.sum (filter (fun day => day <? threshold) (Dict.values country2days)) in
  q <- truediv rest_days (Py.sum (Dict.values country2days)) ;;
  Ok (shortened_c2d, rest_days, FloatText (FRound (FMul q 100) 1) "%").

(** ** The constructor [__init__] *)

(** The fields of the configuration file that the computation reads. *)
Record Config : Type := mkConfig {
  home_code : string;
  residency_begin : string
}.

(** The attributes of the object once [__init__] has returned. *)
Record TravelDayCounter : Type := mkTDC {
  self_country2days : Dict.t Z;
  self_country2percent : Dict.t float_text;
  self_country2rank : Dict.t Z;
  self_country2firstvisit : Dict.t Date.t;
  self_country2lastvisit : Dict.t Date.t;
  self_visityear2countries : Dict.t (list string);
  self_num_visited_countries : Z;
  self_days_home : Z;
  self_years_home : pyfloat;
  self_days_abroad : Z;
  self_years_abroad : pyfloat;
  self_residency_period : Z
}.

(** [sum(days for country, days in d.items() if country != home)]. *)
Definition sum_abroad (d : Dict.t Z) (home : string) : Z :=
  Py.sum (map snd (filter (fun it : string * Z => negb (String.eqb (fst it) home))
                          (Dict.items d))).

(** [__init__]: [self.country2days] is the [defaultdict] returned by the
    builder, so the look-up [self.country2days[self.home_code]] acts on
    that very object; the attribute holds it as it is after the look-up. *)
Definition __init__ (config : Config) (source : DataFrame) (today : Date.t)
  : result TravelDayCounter :=
  h <- create_visit_history source today ;;
  c2p <- create_country2percent (country2days h) ;;
  let c2r := create_country2rank (country2days h) in
  let num := Dict.len (country2days h) in
  let '(days_home, c2d) :=
    Dict.getitem_default 0 (country2days h) (home_code config) in
  yh <- truediv days_home 365 ;;
  let days_abroad := sum_abroad c2d (home_code config) in
  ya <- truediv days_abroad 365 ;;
  rp <- day_count (residency_begin config) today ;;
  Ok (mkTDC c2d c2p c2r (country2firstvisit h) (country2lastvisit h)
            (visityear2countries h) num
            days_home (FRound yh 1) days_abroad (FRound ya 1) rp).

(** ** Vocabulary of the statements *)

(** A stay is what one turn of the builder's loop works on: the country of
    row [i], its entry date with the year text, and the departure date
    with its year text. *)
Record stay : Type := mkStay {
  stay_country : string;
  entry_y : string;
  entry_date : Date.t;
  depart_y : string;
  departure_date : Date.t
}.

(** [delta.days] of a stay. *)
Definition delta_days (s : stay) : Z :=
  Date.sub_days (departure_date s) (entry_date s).

(** The stays of a table, row by row, when every date parses. *)
Fixpoint stays (rows : DataFrame) (today : Date.t) : result (list stay) :=
  match rows with
  | [] => Ok []
  | r :: rest =>
      '(ey, ed) <- parse_date (DATE r) ;;
      '(dy, dd) <-
        match rest with
        | r' :: _ => parse_date (DATE r')
        | [] => Ok (Py.str (Date.year today), today)
        end ;;
      ss <- stays rest today ;;
      Ok (mkStay (ENTERED r) ey ed dy dd :: ss)
  end.

Definition visit_stay (h : history) (s : stay) : history :=
  visit h (stay_country s) (entry_y s) (entry_date s)
        (depart_y s) (departure_date s).

Definition of_country (c : string) (s : stay) : bool :=
  String.eqb (stay_country s) c.

(** The interval lengths that count for country [c], in row order. *)
Definition intervals_of (ss : list stay) (c : string) : list Z :=
  map delta_days (filter (of_country c) ss).

(** Every date of the table parses. *)
Definition all_dates_parse (rows : DataFrame) : Prop :=
  Forall (fun r => exists p, parse_date (DATE r) = Ok p) rows.

(** Every date of the table is ASCII text. *)
Definition ascii_dates (rows : DataFrame) : Prop :=
  Forall (fun r => Py.isascii (DATE r) = true) rows.

(** The history after the loop has worked through the stays [ss]. *)
Definition built (ss : list stay) : history :=
  fold_left visit_stay ss empty_history.

(** The countries listed under year [y]: [v.get(y, [])]. *)
Definition year_list (v : Dict.t (list string)) (y : string) : list string :=
  match Dict.get v y with Some l => l | None => [] end.

(** [d.get(k, dflt)]. *)
Definition get_or {V : Type} (d : Dict.t V) (k : string) (dflt : V) : V :=
  match Dict.get d k with Some v => v | None => dflt end.

(** Number of items of [l] whose value satisfies [p]. *)
Definition count (p : Z -> bool) (l : list (string * Z)) : Z :=
  Z.of_nat (List.length (filter (fun it => p (snd it)) l)).

(** Items with strictly more days than [n], and with exactly [n] days. *)
Definition count_gt (n : Z) (l : list (string * Z)) : Z := count (fun m => n <? m) l.
Definition count_eq (n : Z) (l : list (string * Z)) : Z := count (fun m => m =? n) l.

(** Descending order of the values. *)
Definition descending (l : list (string * Z)) : Prop :=
  StronglySorted (fun a b => snd b <= snd a) l.

(** What the ranking loop has established after the items [P] of the
    sorted list: the smallest value seen is [current_max_days], the rank of
    its group is [current_rank], [rank_diff] counts the other members of
    that group, and every item seen is ranked one more than the number of
    items with more days. *)
Definition rank_inv (P : list (string * Z)) (st : rank_state) : Prop :=
  (P = [] /\ st = rank_init) \/
  (exists m c0,
      In (c0, m) P /\
      current_max_days st = Int m /\
      Forall (fun it => m <= snd it) P /\
      current_rank st = 1 + count_gt m P /\
      rank_diff st = count_eq m P - 1 /\
      forall c n, In (c, n) P ->
                  Dict.get (country2rank st) c = Some (1 + count_gt n P)).

(** The entry of the percent table for an item of the day totals. *)
Definition percent_entry (total_days : Z) (it : string * Z) : string * float_text :=
  (fst it, FloatText (FRound (FMul (FDiv (snd it) total_days) 100) 1) "%").

(** The number a float expression stands for when the arithmetic is exact
    and [round] is dropped: the value before any rounding. *)
Fixpoint unrounded (x : pyfloat) : Q :=
  match x with
  | FDiv a b => (inject_Z a / inject_Z b)%Q
  | FMul y k => (unrounded y * inject_Z k)%Q
  | FRound y _ => unrounded y
  end.

Definition Qsum (l : list Q) : Q := fold_right Qplus (0#1)%Q l.

(** Each stay ends where the next one begins; the last one ends today. *)
Fixpoint chained (ss : list stay) (today : Date.t) : Prop :=
  match ss with
  | [] => True
  | s :: ss' =>
      departure_date s =
        match ss' with
        | [] => today
        | s' :: _ => entry_date s'
        end /\
      chained ss' today
  end.

(** The year texts of a stay read back as the years of its dates, and
    both dates are valid. *)
Definition stay_ok (s : stay) : Prop :=
  Date.valid (entry_date s) /\ Date.valid (departure_date s) /\
  Py.int (entry_y s) = Ok (Date.year (entry_date s)) /\
  Py.int (depart_y s) = Ok (Date.year (departure_date s)).

(** Ascending order of dates, as [datetime.date] compares them. *)
Definition ascending (ds : list Date.t) : Prop :=
  StronglySorted Date.le ds.

(** ** Sample inputs *)

Definition sample_rows : DataFrame :=
  [mkRow "2020-01-01" "A"; mkRow "2020-06-01" "B"; mkRow "2020-12-01" "A"].

Definition sample_today : Date.t := Date.mk 2021 1 1.

Definition sample_stays : list stay :=
  [mkStay "A" "2020" (Date.mk 2020 1 1) "2020" (Date.mk 2020 6 1);
   mkStay "B" "2020" (Date.mk 2020 6 1) "2020" (Date.mk 2020 12 1);
   mkStay "A" "2020" (Date.mk 2020 12 1) "2021" (Date.mk 2021 1 1)].

(** Day totals with two tie groups. *)
Definition sample_totals : Dict.t Z :=
  [("a", 5); ("b", 7); ("c", 5); ("d", 7); ("e", 1); ("f", 9)].

(** A table whose only record is dated today. *)
Definition same_day_rows : DataFrame := [mkRow "2021-01-01" "A"].

(** A table whose second record is dated before the first. *)
Definition backwards_rows : DataFrame :=
  [mkRow "2020-06-01" "A"; mkRow "2020-01-01" "B"].

Definition backwards_stays : list stay :=
  [mkStay "A" "2020" (Date.mk 2020 6 1) "2020" (Date.mk 2020 1 1);
   mkStay "B" "2020" (Date.mk 2020 1 1) "2021" (Date.mk 2021 1 1)].

(** A table, sorted, whose record is dated after today. *)
Definition future_rows : DataFrame := [mkRow "2030-01-01" "A"].

(** A table whose second date has a year beyond the C [int]s, and whose
    third date is not a date. *)
Definition overflow_rows : DataFrame :=
  [mkRow "2020-01-01" "A"; mkRow "2147483648-01-01" "B"; mkRow "2020-xx-01" "A"].

(** Home country "B" is visited in [sample_rows]; "C" is not. *)
Definition config_home_B : Config := mkConfig "B" "2019-01-01".
Definition config_home_C : Config := mkConfig "C" "2019-01-01".

(** ** Further vocabulary *)

(** The items of a list of strings without repetition, each at the place
    of its first occurrence. *)
Definition distinct (l : list string) : list string :=
  fold_left (fun acc c => if list_mem c acc then acc else acc ++ [c]) l [].

(** The rank table as a function of the day totals: the countries in
    the order of the stable descending sort, each with one more than the
    number of countries that have more days. *)
Definition rank_table (d : Dict.t Z) : Dict.t Z :=
  map (fun it => (fst it, 1 + count_gt (snd it) d)) (sorted_desc d).

(** ** The report: what [output] writes *)

Local Open Scope string_scope.

(** The text of a printed value.  Strings, integers and dates are
    written out; the text of a float stays symbolic, as the float does. *)
Inductive piece : Type :=
| Str (s : string)            (* a string, or [str] of an integer or a date *)
| StrFloat (x : pyfloat)      (* [str(x)] for a float [x] *)
| StrIntFloat (x : pyfloat).  (* [str(int(x))] for a float [x] *)

Definition text : Type := list piece.

Definition TAB : string := String (ascii_of_nat 9) EmptyString.
Definition NL : string := String (ascii_of_nat 10) EmptyString.
Definition ESC : string := String (ascii_of_nat 27) EmptyString.

(** [sep.join(xs)]. *)
Fixpoint tjoin (sep : string) (xs : list text) : text :=
  match xs with
  | [] => []
  | [x] => x
  | x :: xs' => (x ++ Str sep :: tjoin sep xs')%list
  end.

(** The line written by [print(a, b, ...)], without the final newline. *)
Definition print (args : list text) : text := tjoin " " args.

(** A stored percentage, as text. *)
Definition text_of (p : float_text) : text := [StrFloat (ft_value p); Str (ft_suffix p)].

(** What a printing function has written, and the exception that ended
    it, if any. *)
Definition out : Type := (list text * option exn)%type.

Definition out_lines (ls : list text) : out := (ls, None).

(** One printing step after another; an exception ends the sequence. *)
Definition out_seq (a b : out) : out :=
  match snd a with
  | Some _ => a
  | None => ((fst a ++ fst b)%list, snd b)
  end.

(** [for x in l: print(f(x))], where computing the line may raise. *)
Fixpoint print_each {A : Type} (f : A -> result text) (l : list A) : out :=
  match l with
  | [] => ([], None)
  | x :: l' =>
      match f x with
      | Raise e => ([], Some e)
      | Ok line => out_seq (out_lines [line]) (print_each f l')
      end
  end.

(** [str(d)] for a date: [yyyy-mm-dd], zero-padded. *)
Definition zfill (width : nat) (s : string) : string :=
  String.concat "" (repeat "0" (width - String.length s)%nat) ++ s.

Definition isoformat (d : Date.t) : string :=
  zfill 4 (Py.str (Date.year d)) ++ "-" ++ zfill 2 (Py.str (Date.month d)) ++ "-"
  ++ zfill 2 (Py.str (Date.day d)).

(** The fields of the configuration file that the printing reads. *)
Record Display : Type := mkDisplay {
  lang : string;
  track_home : bool;
  home_name : string;
  track_residency : bool;
  residency_name : string;
  table_style : string;
  report_style : string
}.

(** [bold]. *)
Definition bold (s : string) : string := ESC ++ "[1m" ++ s ++ ESC ++ "[0m".

(** [print_header]. *)
Definition print_header (disp : Display) (t : TravelDayCounter) (today : Date.t) : out :=
  let num := Py.str (self_num_visited_countries t) in
  let day := isoformat today in
  if lang disp =? "en" then
    out_lines [print [[Str "Travel Day Counter"]];
               print [[Str (num ++ " countries visited until " ++ day ++ NL)]]]
  else if lang disp =? "ko" then
    out_lines [print [[Str "방문한 나라에 체류 기간"]];
               print [[Str (day ++ "까지 방문한 " ++ num ++ "개의 국가" ++ NL)]]]
  else if lang disp =? "ko-hanja" then
    out_lines [print [[Str "訪問한 나라에 滯留期間"]];
               print [[Str (day ++ "까지 訪問한 " ++ num ++ "個의 國家" ++ NL)]]]
  else if lang disp =? "zh" then
    out_lines [print [[Str "到訪國家停留紀錄"]];
               print [[Str ("至" ++ day ++ "已訪問" ++ num ++ "個國家" ++ NL)]]]
  else out_lines [].

(** [str(round((days/(self.days_home+self.days_abroad))*100, 1))]. *)
Definition share_text (t : TravelDayCounter) (days : Z) : result pyfloat :=
  q <- truediv days (self_days_home t + self_days_abroad t) ;;
  Ok (FRound (FMul q 100) 1).

(** [self.home_name if self.home_name else self.home_code]. *)
Definition home_label (cfg : Config) (disp : Display) : string :=
  if home_name disp =? "" then home_code cfg else home_name disp.

(** The two lines of [print_in_n_out_stats]; each is computed in full
    before it is printed. *)
Definition in_n_out_lines (cfg : Config) (disp : Display) (t : TravelDayCounter)
    (line : string -> Z -> pyfloat -> pyfloat -> text) (inside outside : string)
  : out :=
  match share_text t (self_days_home t) with
  | Raise e => ([], Some e)
  | Ok sh =>
      out_seq (out_lines [line inside (self_days_home t) (self_years_home t) sh])
        match share_text t (self_days_abroad t) with
        | Raise e => ([], Some e)
        | Ok sa => out_lines [line outside (self_days_abroad t) (self_years_abroad t) sa]
        end
  end.

(** [print_in_n_out_stats]. *)
Definition print_in_n_out_stats (cfg : Config) (disp : Display) (t : TravelDayCounter)
  : out :=
  let name := home_label cfg disp in
  if lang disp =? "en" then
    in_n_out_lines cfg disp t
      (fun side days years share =>
         print [[Str side]; [Str (name ++ ":")]; [Str (Py.str days)];
                [Str "days ("; StrFloat years; Str " years, "; StrFloat share; Str "%)"]])
      "Inside" "Outside"
  else if lang disp =? "ko" then
    in_n_out_lines cfg disp t
      (fun side days years share =>
         print [[Str name]; [Str side]; [Str (Py.str days)]; [Str "일"];
                [Str "("; StrFloat years; Str " 년, "; StrFloat share; Str "%)"]])
      "내:" "외:"
  else if lang disp =? "ko-hanja" then
    in_n_out_lines cfg disp t
      (fun side days years share =>
         print [[Str name]; [Str side]; [Str (Py.str days)]; [Str "日"];
                [Str "("; StrFloat years; Str " 年, "; StrFloat share; Str "%)"]])
      "內:" "外:"
  else if lang disp =? "zh" then
    in_n_out_lines cfg disp t
      (fun side days years share =>
         print [[Str (name ++ side)]; [Str (Py.str days)];
                [Str "天（"; StrFloat years; Str "年，"; StrFloat share; Str "%）"]])
      "內" "外"
  else out_lines [].

(** [print_residency_stats]. *)
Definition print_residency_stats (disp : Display) (t : TravelDayCounter) : out :=
  let rp := self_residency_period t in
  let years := [StrIntFloat (FDiv rp 365)] in
  let days := [Str (Py.str (rp mod 365))] in
  if lang disp =? "en" then
    out_lines [print [[Str ("Residency in " ++ residency_name disp ++ ":")]; years;
                      [Str "year(s)"]; days; [Str ("day(s)" ++ NL)]]]
  else if lang disp =? "ko" then
    out_lines [print [[Str (residency_name disp ++ "에 합법적 거주기간:")]; years;
                      [Str "년"]; days; [Str ("일" ++ NL)]]]
  else if lang disp =? "ko-hanja" then
    out_lines [print [[Str (residency_name disp ++ "에 合法的居住期間:")]; years;
                      [Str "年"]; days; [Str ("日" ++ NL)]]]
  else if lang disp =? "zh" then
    out_lines [print [[Str (residency_name disp ++ "合法居留時間")]; years;
                      [Str "年"]; days; [Str ("天" ++ NL)]]]
  else out_lines [].

(** A row of the table: the look-ups raise [KeyError] on a country that
    a table does not have. *)
Definition table_row (t : TravelDayCounter) (suffix : string) (item : string * Z)
  : result text :=
  let '(country, days) := item in
  p <- Dict.getitem (self_country2percent t) country ;;
  r <- Dict.getitem (self_country2rank t) country ;;
  f <- Dict.getitem (self_country2firstvisit t) country ;;
  l <- Dict.getitem (self_country2lastvisit t) country ;;
  Ok (tjoin TAB [[Str country]; [Str (Py.str days)]; text_of p;
                 [Str (Py.str r ++ suffix)]; [Str (isoformat f)]; [Str (isoformat l)]]).

(** The table in one language: the header line, then the rows in
    descending order of days, in full or shortened with the threshold
    of 7 days and a line for the rest. *)
Definition print_table_in (disp : Display) (t : TravelDayCounter)
    (header : list string) (suffix other : string) : out :=
  out_seq (out_lines [tjoin TAB (map (fun s => [Str s]) header)])
    (if table_style disp =? "full" then
       print_each (table_row t suffix) (sorted_desc (Dict.items (self_country2days t)))
     else if table_style disp =? "short" then
       match shortened_table (self_country2days t) 7 with
       | Raise e => ([], Some e)
       | Ok (shortened_c2d, rest_days, rest_percent) =>
           out_seq (print_each (table_row t suffix)
                               (sorted_desc (Dict.items shortened_c2d)))
                   (out_lines [tjoin TAB [[Str other]; [Str (Py.str rest_days)];
                                          text_of rest_percent]])
       end
     else out_lines []).

(** [print_table]. *)
Definition print_table (disp : Display) (t : TravelDayCounter) : out :=
  if lang disp =? "en" then
    print_table_in disp t
      ["COUNTRY"; "DAYS"; "%"; "RANK."; "FIRST VISIT"; "LAST VISIT"] "" "OTHER"
  else if lang disp =? "ko" then
    print_table_in disp t
      ["국가"; "일수"; "퍼센트"; "순위"; "처음 방문 날짜"; "마지막 방문 날짜"] "위" "기타"
  else if lang disp =? "ko-hanja" then
    print_table_in disp t
      ["國家"; "日數"; "퍼센트"; "順位"; "처음 訪問 날짜"; "마지막 訪問 날짜"] "位" "其他"
  else if lang disp =? "zh" then
    print_table_in disp t
      ["國家"; "天數"; "百分比"; "排名"; "最初訪問日"; "最近訪問日"] "" "其他"
  else out_lines [].

(** [sorted(d.items())] for the year index: pairs compare by the year
    text first and by the list of countries second. *)
Fixpoint list_compare (l1 l2 : list string) : comparison :=
  match l1, l2 with
  | [], [] => Eq
  | [], _ :: _ => Lt
  | _ :: _, [] => Gt
  | x :: l1', y :: l2' =>
      match String.compare x y with
      | Eq => list_compare l1' l2'
      | c => c
      end
  end.

Definition item_ltb (a b : string * list string) : bool :=
  match String.compare (fst a) (fst b) with
  | Lt => true
  | Gt => false
  | Eq => match list_compare (snd a) (snd b) with Lt => true | _ => false end
  end.

Fixpoint insert_asc (x : string * list string) (l : list (string * list string))
  : list (string * list string) :=
  match l with
  | [] => [x]
  | y :: l' => if item_ltb x y then x :: l else y :: insert_asc x l'
  end.

Fixpoint sorted_asc (l : list (string * list string)) : list (string * list string) :=
  match l with
  | [] => []
  | x :: l' => insert_asc x (sorted_asc l')
  end.

(** The loop of the chronological report: [seen] is
    [all_visited_countries]. *)
Fixpoint report_lines (years : list (string * list string)) (seen : list string)
  : list text :=
  match years with
  | [] => []
  | (year, country_list) :: rest =>
      let new_countries := filter (fun c => negb (list_mem c seen)) country_list in
      let line :=
        print [[Str ("[" ++ year ++ "]")];
               [Str (String.concat " "
                       (map (fun c => if list_mem c new_countries then bold c else c)
                            country_list))]] in
      line :: report_lines rest (seen ++ new_countries)%list
  end.

(** [print_report]. *)
Definition print_report (disp : Display) (t : TravelDayCounter) : out :=
  if report_style disp =? "chrono" then
    out_seq
      (if lang disp =? "en" then out_lines [print [[Str (NL ++ "Chronological Report")]]]
       else if lang disp =? "ko" then out_lines [print [[Str (NL ++ "연대순 방문 기록")]]]
       else if lang disp =? "ko-hanja" then out_lines [print [[Str (NL ++ "年代順訪問記錄")]]]
       else if lang disp =? "zh" then out_lines [print [[Str (NL ++ "年度訪問紀錄")]]]
       else out_lines [])
      (out_lines (report_lines (sorted_asc (Dict.items (self_visityear2countries t))) []))
  else out_lines [].

(** [output]. *)
Definition output (cfg : Config) (disp : Display) (t : TravelDayCounter)
    (today : Date.t) : out :=
  out_seq (print_header disp t today)
    (out_seq (if track_home disp then print_in_n_out_stats cfg disp t else out_lines [])
       (out_seq (if track_residency disp then print_residency_stats disp t
                 else out_lines [])
          (out_seq (print_table disp t) (print_report disp t)))).

(** The languages that the printing functions know. *)
Definition known_lang (l : string) : bool :=
  (l =? "en") || (l =? "ko") || (l =? "ko-hanja") || (l =? "zh").

Definition sample_display : Display :=
  mkDisplay "en" true "" true "Germany" "full" "chrono".

Local Open Scope list_scope.
Local Open Scope Z_scope.

(** The lines of the chronological report, told directly: a country is
    written in bold unless the list of an earlier line has it.
    [before] collects the lists of the earlier lines. *)
Fixpoint report_marked (years : list (string * list string)) (before : list string)
  : list text :=
  match years with
  | [] => []
  | (year, country_list) :: rest =>
      print [[Str ("[" ++ year ++ "]")%string];
             [Str (String.concat " "
                     (map (fun c => if list_mem c before then c else bold c)
                          country_list))]]
      :: report_marked rest (before ++ country_list)
  end.

(** Ascending order of the year texts: no line's year comes after the
    year of the next line. *)
Definition ascending_years (l : list (string * list string)) : Prop :=
  Sorted (fun a b => String.compare (fst a) (fst b) <> Gt) l.

(** No ['-'] in a string. *)
Fixpoint no_dash (s : string) : bool :=
  match s with
  | EmptyString => true
  | String c s' => negb (Ascii.eqb c "-"%char) && no_dash s'
  end.

(* ================================================================== *)
(** * Part II: properties *)
(* ================================================================== *)

(** ** The embedding on concrete values *)

Example split_date : Py.split "-" "2020-01-01" = ["2020"; "01"; "01"].
Proof. reflexivity. Qed.

Example split_empty_pieces : Py.split "-" "a--b-" = ["a"; ""; "b"; ""].
Proof. reflexivity. Qed.

Example int_accepts :
  Py.int "007" = Ok 7 /\ Py.int " +1_000 " = Ok 1000 /\ Py.int "-12" = Ok (-12).
Proof. repeat split; reflexivity. Qed.

Example int_rejects :
  Py.int "" = Raise ValueError /\ Py.int "1__0" = Raise ValueError /\
  Py.int "_1" = Raise ValueError /\ Py.int "2020a" = Raise ValueError.
Proof. repeat split; reflexivity. Qed.

Example str_values : Py.str 2021 = "2021" /\ Py.str 0 = "0" /\ Py.str (-45) = "-45".
Proof. repeat split; reflexivity. Qed.

Example toordinal_values :
  Date.toordinal (Date.mk 1 1 1) = 1 /\
  Date.toordinal (Date.mk 2020 1 1) = 737425 /\
  Date.sub_days (Date.mk 2020 6 1) (Date.mk 2020 1 1) = 152.
Proof. repeat split; reflexivity. Qed.

Example date_rejects :
  Date.date 2021 2 29 = Raise ValueError /\ Date.date 2020 13 1 = Raise ValueError /\
  Date.date 2020 2 29 = Ok (Date.mk 2020 2 29).
Proof. repeat split; reflexivity. Qed.

Example parse_date_values :
  parse_date "2020-06-01" = Ok ("2020", Date.mk 2020 6 1) /\
  parse_date "2020-06" = Raise ValueError /\
  parse_date "2020-06-31" = Raise ValueError.
Proof. repeat split; reflexivity. Qed.

(** Around a literal [int] skips tab to carriage return and space, and no
    other control character. *)
Example int_white_space :
  Py.int (String (ascii_of_nat 9) "7 " ++ String (ascii_of_nat 13) "")%string
    = Ok 7 /\
  Py.int ("01" ++ String (ascii_of_nat 31) "")%string = Raise ValueError /\
  Py.int (String (ascii_of_nat 28) "01") = Raise ValueError.
Proof. repeat split; reflexivity. Qed.

(** A literal of 4300 digits is read, one of 4301 is not. *)
Example int_digit_limit :
  match Py.int (string_of_list_ascii (repeat "1"%char (Z.to_nat 4300))) with
  | Ok _ => True
  | Raise _ => False
  end /\
  Py.int (string_of_list_ascii (repeat "1"%char (Z.to_nat 4301)))
    = Raise ValueError.
Proof. split; vm_compute; [exact I | reflexivity]. Qed.

(** A number that does not fit a C [int] is an [OverflowError] of [date],
    before any range check. *)
Example date_overflow :
  Date.date 2147483648 1 1 = Raise OverflowError /\
  Date.date 2147483647 1 1 = Raise ValueError /\
  Date.date 2020 13 (-2147483649) = Raise OverflowError /\
  parse_date "2147483648-01-01" = Raise OverflowError /\
  parse_date "2147483648-01-xx" = Raise ValueError /\
  parse_date ("2020-06-" ++ String (ascii_of_nat 28) "01")%string
    = Raise ValueError.
Proof. repeat split; reflexivity. Qed.

Example day_count_values :
  day_count "2019-01-01" (Date.mk 2021 1 1) = Ok 731 /\
  day_count "2021-01-02" (Date.mk 2021 1 1) = Ok (-1) /\
  day_count "99999999999-01-01" (Date.mk 2021 1 1) = Raise OverflowError /\
  day_count ("2019-01-01" ++ String (ascii_of_nat 31) "")%string
            (Date.mk 2021 1 1) = Raise ValueError.
Proof. repeat split; reflexivity. Qed.

(** Items of equal value keep their original order. *)
Example sorted_desc_stable :
  sorted_desc sample_totals =
  [("f", 9); ("b", 7); ("d", 7); ("a", 5); ("c", 5); ("e", 1)].
Proof. reflexivity. Qed.

Example rank_values :
  create_country2rank sample_totals =
  [("f", 1); ("b", 2); ("d", 2); ("a", 4); ("c", 4); ("e", 6)].
Proof. reflexivity. Qed.

(** Totals A: 10, B: 3, C: 2 with threshold 7: A is kept, the rest sums
    to 5 days out of 15. *)
Example shortened_table_values :
  shortened_table [("A", 10); ("B", 3); ("C", 2)] 7 =
  Ok ([("A", 10)], 5, FloatText (FRound (FMul (FDiv 5 15) 100) 1) "%").
Proof. reflexivity. Qed.

(** ** The error monad *)

Lemma bind_Ok_inv {A B : Type} (r : result A) (k : A -> result B) (b : B) :
  bind r k = Ok b -> exists a, r = Ok a /\ k a = Ok b.
Proof.
  destruct r as [a|e]; simpl; intros H; [eauto | discriminate].
Qed.

Ltac bind_inv H :=
  let a := fresh "a" in
  let Ha := fresh "Ha" in
  apply bind_Ok_inv in H; destruct H as (a & Ha & H); simpl in H.

(** ** Dictionaries *)

Section DictFacts.
Context {V : Type}.
Implicit Types (d : Dict.t V) (k : string) (v : V).

Lemma get_set d k v k' :
  Dict.get (Dict.set d k v) k' =
  if String.eqb k k' then Some v else Dict.get d k'.
Proof.
  induction d as [|[k0 v0] d IH]; simpl.
  - reflexivity.
  - destruct (String.eqb_spec k0 k) as [->|Hk]; simpl.
    + destruct (String.eqb_spec k k'); reflexivity.
    + rewrite IH. destruct (String.eqb_spec k0 k') as [->|]; [|reflexivity].
      destruct (String.eqb_spec k k'); [congruence | reflexivity].
Qed.

Lemma get_set_same d k v : Dict.get (Dict.set d k v) k = Some v.
Proof. rewrite get_set, String.eqb_refl. reflexivity. Qed.

Lemma get_set_other d k v k' :
  k <> k' -> Dict.get (Dict.set d k v) k' = Dict.get d k'.
Proof.
  intros H. rewrite get_set.
  destruct (String.eqb_spec k k'); [contradiction | reflexivity].
Qed.

Lemma get_None_iff d k : Dict.get d k = None <-> ~ In k (Dict.keys d).
Proof.
  induction d as [|[k0 v0] d IH]; simpl.
  - tauto.
  - destruct (String.eqb_spec k0 k) as [->|Hk].
    + split; [discriminate | intros H; exfalso; apply H; now left].
    + rewrite IH. tauto.
Qed.

Lemma get_Some_In d k v : Dict.get d k = Some v -> In (k, v) d.
Proof.
  induction d as [|[k0 v0] d IH]; simpl; [discriminate|].
  destruct (String.eqb_spec k0 k) as [->|Hk].
  - intros [= ->]. now left.
  - intros H. right. auto.
Qed.

Lemma In_get d k v : Dict.wf d -> In (k, v) d -> Dict.get d k = Some v.
Proof.
  unfold Dict.wf, Dict.keys.
  induction d as [|[k0 v0] d IH]; simpl; [tauto|].
  intros Hnd [[= -> ->]|Hin].
  - now rewrite String.eqb_refl.
  - inversion Hnd as [|? ? Hnotin Hnd']; subst.
    destruct (String.eqb_spec k0 k) as [->|Hk].
    + exfalso. apply Hnotin. apply (in_map fst) in Hin. exact Hin.
    + auto.
Qed.

(** A new key goes to the end; an old one keeps its place. *)
Lemma set_new d k v : Dict.get d k = None -> Dict.set d k v = (d ++ [(k, v)])%list.
Proof.
  induction d as [|[k0 v0] d IH]; simpl; [reflexivity|].
  destruct (String.eqb_spec k0 k); [discriminate|].
  intros H. now rewrite IH.
Qed.

Lemma keys_set_old d k v v0 :
  Dict.get d k = Some v0 -> Dict.keys (Dict.set d k v) = Dict.keys d.
Proof.
  unfold Dict.keys.
  induction d as [|[k1 v1] d IH]; simpl; [discriminate|].
  destruct (String.eqb_spec k1 k); simpl; [reflexivity|].
  intros H. now rewrite IH.
Qed.

Lemma wf_empty : Dict.wf (@Dict.empty V).
Proof. constructor. Qed.

Lemma wf_set d k v : Dict.wf d -> Dict.wf (Dict.set d k v).
Proof.
  unfold Dict.wf. intros H.
  destruct (Dict.get d k) as [v0|] eqn:E.
  - now rewrite (keys_set_old _ _ _ _ E).
  - rewrite (set_new _ _ _ E). unfold Dict.keys. rewrite map_app. simpl.
    apply NoDup_app; [exact H | repeat constructor; simpl; tauto |].
    intros x Hx [<-|[]]. apply get_None_iff in E. contradiction.
Qed.

Lemma wf_getitem_default dflt d k :
  Dict.wf d -> Dict.wf (snd (Dict.getitem_default dflt d k)).
Proof.
  unfold Dict.getitem_default. intros H.
  destruct (Dict.get d k); simpl; [exact H | now apply wf_set].
Qed.

Lemma get_getitem_default dflt d k k' :
  Dict.get (snd (Dict.getitem_default dflt d k)) k' =
  if String.eqb k k' then Some (get_or d k dflt) else Dict.get d k'.
Proof.
  unfold Dict.getitem_default, get_or.
  destruct (Dict.get d k) as [v|] eqn:E; simpl.
  - destruct (String.eqb_spec k k') as [<-|]; [exact E | reflexivity].
  - apply get_set.
Qed.

Lemma fst_getitem_default dflt d k :
  fst (Dict.getitem_default dflt d k) = get_or d k dflt.
Proof.
  unfold Dict.getitem_default, get_or. now destruct (Dict.get d k).
Qed.

Lemma mem_true_iff d k : Dict.mem d k = true <-> In k (Dict.keys d).
Proof.
  unfold Dict.mem. pose proof (get_None_iff d k) as H.
  destruct (Dict.get d k).
  - split; [intros _|reflexivity].
    destruct (in_dec string_dec k (Dict.keys d)); [assumption|].
    exfalso. assert (Some v = None) by tauto. discriminate.
  - split; [discriminate|]. intros Hin. exfalso. tauto.
Qed.

End DictFacts.

(** ** Sums *)

Lemma sum_shift (l : list Z) (a : Z) : fold_left Z.add l a = a + fold_left Z.add l 0.
Proof.
  revert a. induction l as [|x l IH]; intros a; simpl; [lia|].
  rewrite (IH (a + x)), (IH (0 + x)). lia.
Qed.

Lemma sum_nil : Py.sum [] = 0.
Proof. reflexivity. Qed.

Lemma sum_cons (x : Z) (l : list Z) : Py.sum (x :: l) = x + Py.sum l.
Proof. unfold Py.sum. simpl. apply sum_shift. Qed.

Lemma sum_app (l1 l2 : list Z) : Py.sum (l1 ++ l2) = Py.sum l1 + Py.sum l2.
Proof.
  induction l1 as [|x l1 IH]; simpl.
  - change (Py.sum []) with 0. lia.
  - rewrite !sum_cons, IH. lia.
Qed.

Lemma sum_nonneg (l : list Z) : Forall (fun x => 0 <= x) l -> 0 <= Py.sum l.
Proof.
  induction 1 as [|x l Hx _ IH]; [rewrite sum_nil; lia|].
  rewrite sum_cons. lia.
Qed.

(** ** Lists *)

Lemma existsb_false_filter {A : Type} (p : A -> bool) (l : list A) :
  existsb p l = false -> filter p l = [].
Proof.
  induction l as [|x l IH]; simpl; [reflexivity|].
  destruct (p x); simpl; [discriminate | exact IH].
Qed.

Lemma find_snoc {A : Type} (p : A -> bool) (l : list A) (x : A) :
  find p (l ++ [x]) =
  match find p l with
  | Some y => Some y
  | None => if p x then Some x else None
  end.
Proof.
  induction l as [|y l IH]; simpl; [reflexivity|].
  destruct (p y); [reflexivity | exact IH].
Qed.

Lemma list_mem_In (c : string) (l : list string) : list_mem c l = true <-> In c l.
Proof.
  unfold list_mem. rewrite existsb_exists. split.
  - intros (x & Hx & E). apply String.eqb_eq in E. now subst.
  - intros H. exists c. split; [exact H | apply String.eqb_refl].
Qed.

(** ** The builder's loop and the stays of the table *)

Lemma visit_rows_stays (rows : DataFrame) (today : Date.t) (h : history) :
  visit_rows rows today h =
  (ss <- stays rows today ;; Ok (fold_left visit_stay ss h)).
Proof.
  revert h. induction rows as [|r rest IH]; intros h; simpl; [reflexivity|].
  destruct (parse_date (DATE r)) as [[ey ed]|e]; simpl; [|reflexivity].
  destruct (match rest with
            | [] => Ok (Py.str (Date.year today), today)
            | r' :: _ => parse_date (DATE r')
            end) as [[dy dd]|e]; simpl; [|reflexivity].
  rewrite IH. destruct (stays rest today) as [ss|e]; reflexivity.
Qed.

Lemma create_visit_history_stays (rows : DataFrame) (today : Date.t) :
  create_visit_history rows today = (ss <- stays rows today ;; Ok (built ss)).
Proof. apply visit_rows_stays. Qed.

Lemma stays_countries (rows : DataFrame) (today : Date.t) (ss : list stay) :
  stays rows today = Ok ss -> map stay_country ss = map ENTERED rows.
Proof.
  revert ss. induction rows as [|r rest IH]; intros ss H; simpl in H.
  - now inversion H.
  - bind_inv H. destruct a as [ey ed]. bind_inv H. destruct a as [dy dd].
    bind_inv H. inversion H; subst. simpl. f_equal. now apply IH.
Qed.

Lemma built_snoc (ss : list stay) (s : stay) :
  built (ss ++ [s]) = visit_stay (built ss) s.
Proof. unfold built. now rewrite fold_left_app. Qed.

Lemma country2days_visit h c ey e dy d :
  country2days (visit h c ey e dy d) =
  Dict.set (snd (Dict.getitem_default 0 (country2days h) c)) c
           (get_or (country2days h) c 0 + Date.sub_days d e).
Proof.
  unfold visit. rewrite <- (fst_getitem_default 0 (country2days h) c).
  destruct (Dict.getitem_default 0 (country2days h) c). reflexivity.
Qed.

Lemma country2firstvisit_visit h c ey e dy d :
  country2firstvisit (visit h c ey e dy d) =
  if Dict.mem (country2firstvisit h) c then country2firstvisit h
  else Dict.set (country2firstvisit h) c e.
Proof.
  unfold visit. destruct (Dict.getitem_default 0 (country2days h) c). reflexivity.
Qed.

Lemma country2lastvisit_visit h c ey e dy d :
  country2lastvisit (visit h c ey e dy d) = Dict.set (country2lastvisit h) c d.
Proof.
  unfold visit. destruct (Dict.getitem_default 0 (country2days h) c). reflexivity.
Qed.

Lemma visityear2countries_visit h c ey e dy d :
  visityear2countries (visit h c ey e dy d) =
  add_year (add_year (visityear2countries h) ey c) dy c.
Proof.
  unfold visit. destruct (Dict.getitem_default 0 (country2days h) c). reflexivity.
Qed.

(** *** Day totals *)

Lemma intervals_of_snoc ss s c :
  intervals_of (ss ++ [s]) c =
  (intervals_of ss c ++ (if of_country c s then [delta_days s] else []))%list.
Proof.
  unfold intervals_of. rewrite filter_app, map_app. simpl.
  now destruct (of_country c s).
Qed.

Lemma built_days (ss : list stay) (c : string) :
  Dict.get (country2days (built ss)) c =
  if existsb (of_country c) ss then Some (Py.sum (intervals_of ss c)) else None.
Proof.
  induction ss as [|s ss IH] using rev_ind; [reflexivity|].
  rewrite built_snoc, existsb_app, intervals_of_snoc, sum_app. simpl.
  unfold visit_stay. rewrite country2days_visit, get_set.
  unfold of_country at 2 3.
  destruct (String.eqb_spec (stay_country s) c) as [->|Hc].
  - rewrite orb_true_r. f_equal. unfold get_or. rewrite IH.
    destruct (existsb (of_country c) ss) eqn:E.
    + rewrite sum_cons, sum_nil. unfold delta_days. lia.
    + unfold intervals_of. rewrite (existsb_false_filter _ _ E). simpl.
      rewrite sum_cons, !sum_nil. unfold delta_days. lia.
  - rewrite get_getitem_default.
    destruct (String.eqb_spec (stay_country s) c); [contradiction|].
    rewrite IH, orb_false_r, sum_nil, Z.add_0_r. reflexivity.
Qed.

Lemma built_days_wf (ss : list stay) : Dict.wf (country2days (built ss)).
Proof.
  induction ss as [|s ss IH] using rev_ind; [apply wf_empty|].
  rewrite built_snoc. unfold visit_stay. rewrite country2days_visit.
  apply wf_set, wf_getitem_default, IH.
Qed.

Lemma existsb_of_country (ss : list stay) (c : string) :
  existsb (of_country c) ss = true <-> In c (map stay_country ss).
Proof.
  rewrite existsb_exists, in_map_iff. unfold of_country.
  split; intros (s & H1 & H2).
  - apply String.eqb_eq in H2. eauto.
  - exists s. split; [assumption|]. now apply String.eqb_eq.
Qed.

(** *** First and last visit *)

Lemma built_first (ss : list stay) (c : string) :
  Dict.get (country2firstvisit (built ss)) c =
  option_map entry_date (find (of_country c) ss).
Proof.
  induction ss as [|s ss IH] using rev_ind; [reflexivity|].
  rewrite built_snoc, find_snoc. unfold visit_stay.
  rewrite country2firstvisit_visit. unfold Dict.mem.
  change (of_country c s) with (String.eqb (stay_country s) c).
  destruct (Dict.get (country2firstvisit (built ss)) (stay_country s)) eqn:E.
  - rewrite IH. destruct (find (of_country c) ss) eqn:F; [reflexivity|].
    destruct (String.eqb_spec (stay_country s) c) as [<-|]; [|reflexivity].
    rewrite IH in E. discriminate.
  - rewrite get_set, IH.
    destruct (String.eqb_spec (stay_country s) c) as [<-|]; [|now destruct (find _ ss)].
    destruct (find (of_country (stay_country s)) ss); [|reflexivity].
    rewrite IH in E. discriminate.
Qed.

Lemma built_last (ss : list stay) (c : string) :
  Dict.get (country2lastvisit (built ss)) c =
  option_map departure_date (find (of_country c) (rev ss)).
Proof.
  induction ss as [|s ss IH] using rev_ind; [reflexivity|].
  rewrite built_snoc, rev_app_distr. simpl. unfold visit_stay.
  rewrite country2lastvisit_visit, get_set.
  change (of_country c s) with (String.eqb (stay_country s) c).
  destruct (String.eqb_spec (stay_country s) c); [reflexivity | exact IH].
Qed.

(** *** The year index *)

Lemma year_list_add_year v y c y' :
  year_list (add_year v y c) y' =
  if String.eqb y y'
  then (if list_mem c (year_list v y) then year_list v y
        else (year_list v y ++ [c])%list)
  else year_list v y'.
Proof.
  unfold add_year, year_list, Dict.getitem_default.
  destruct (Dict.get v y) as [l|] eqn:E.
  - destruct (list_mem c l).
    + destruct (String.eqb_spec y y') as [<-|]; [now rewrite E | reflexivity].
    + rewrite get_set. now destruct (String.eqb y y').
  - simpl. rewrite !get_set. now destruct (String.eqb y y').
Qed.

Lemma add_year_listed v y c : In c (year_list (add_year v y c) y).
Proof.
  rewrite year_list_add_year, String.eqb_refl.
  destruct (list_mem c (year_list v y)) eqn:E.
  - now apply list_mem_In.
  - apply in_or_app. right. now left.
Qed.

Lemma add_year_mono v y c y' c' :
  In c' (year_list v y') -> In c' (year_list (add_year v y c) y').
Proof.
  intros H. rewrite year_list_add_year.
  destruct (String.eqb_spec y y') as [->|]; [|exact H].
  destruct (list_mem c (year_list v y')); [exact H|].
  apply in_or_app. now left.
Qed.

Lemma add_year_NoDup v y c :
  (forall y', NoDup (year_list v y')) ->
  forall y', NoDup (year_list (add_year v y c) y').
Proof.
  intros H y'. rewrite year_list_add_year.
  destruct (String.eqb_spec y y') as [->|]; [|apply H].
  destruct (list_mem c (year_list v y')) eqn:E; [apply H|].
  apply NoDup_app; [apply H | repeat constructor; simpl; tauto |].
  intros x Hx [<-|[]]. apply list_mem_In in Hx. congruence.
Qed.

Lemma wf_add_year v y c : Dict.wf v -> Dict.wf (add_year v y c).
Proof.
  intros H. unfold add_year.
  pose proof (wf_getitem_default [] v y H) as H1.
  destruct (Dict.getitem_default [] v y) as [l v1]. simpl in H1.
  destruct (list_mem c l); [exact H1 | now apply wf_set].
Qed.

Lemma built_years (ss : list stay) (s : stay) :
  In s ss ->
  In (stay_country s) (year_list (visityear2countries (built ss)) (entry_y s)) /\
  In (stay_country s) (year_list (visityear2countries (built ss)) (depart_y s)).
Proof.
  induction ss as [|s0 ss IH] using rev_ind; [intros []|].
  intros Hin. rewrite built_snoc. unfold visit_stay.
  rewrite visityear2countries_visit.
  apply in_app_or in Hin. destruct Hin as [Hin|[->|[]]].
  - destruct (IH Hin) as [H1 H2]. split; now do 2 apply add_year_mono.
  - split; [apply add_year_mono|]; apply add_year_listed.
Qed.

Lemma built_years_NoDup (ss : list stay) (y : string) :
  NoDup (year_list (visityear2countries (built ss)) y).
Proof.
  revert y. induction ss as [|s ss IH] using rev_ind; intros y.
  - unfold year_list. simpl. constructor.
  - rewrite built_snoc. unfold visit_stay. rewrite visityear2countries_visit.
    now do 2 apply add_year_NoDup.
Qed.

Lemma built_years_wf (ss : list stay) : Dict.wf (visityear2countries (built ss)).
Proof.
  induction ss as [|s ss IH] using rev_ind; [apply wf_empty|].
  rewrite built_snoc. unfold visit_stay. rewrite visityear2countries_visit.
  now do 2 apply wf_add_year.
Qed.

(** ** Dates: the order of dates is the order of their ordinals *)

Lemma valid_fields (x : Date.t) :
  Date.valid x ->
  1 <= Date.year x <= 9999 /\ 1 <= Date.month x <= 12 /\
  1 <= Date.day x <= Date.days_in_month (Date.year x) (Date.month x).
Proof.
  unfold Date.valid, Date.check_date_fields, Date.MINYEAR, Date.MAXYEAR.
  rewrite !andb_true_iff, !Z.leb_le. tauto.
Qed.

Lemma date_Ok_valid (y m d : Z) (x : Date.t) :
  Date.date y m d = Ok x -> Date.valid x /\ x = Date.mk y m d.
Proof.
  unfold Date.date, Date.valid.
  destruct (Date.fits_c_int y && Date.fits_c_int m && Date.fits_c_int d)%bool;
    [|discriminate].
  destruct (Date.check_date_fields y m d) eqn:E; [|discriminate].
  intros [= <-]. simpl. auto.
Qed.

Lemma month_cases (m : Z) :
  1 <= m <= 12 ->
  m = 1 \/ m = 2 \/ m = 3 \/ m = 4 \/ m = 5 \/ m = 6 \/
  m = 7 \/ m = 8 \/ m = 9 \/ m = 10 \/ m = 11 \/ m = 12.
Proof. lia. Qed.

Ltac split_month H :=
  apply month_cases in H;
  repeat (destruct H as [H|H]); subst.

Ltac month_tables :=
  cbv [Date.DAYS_IN_MONTH Date.DAYS_BEFORE_MONTH andb
       Z.eqb Z.ltb Z.compare Pos.eqb Pos.compare Pos.compare_cont].

Lemma days_before_year_succ (y : Z) :
  Date.days_before_year (y + 1) =
  Date.days_before_year y + (if Date.is_leap y then 366 else 365).
Proof.
  unfold Date.days_before_year, Date.is_leap.
  replace (y + 1 - 1) with y by lia.
  destruct (Z.eqb_spec (y mod 4) 0), (Z.eqb_spec (y mod 100) 0),
           (Z.eqb_spec (y mod 400) 0); simpl;
    Z.to_euclidean_division_equations; lia.
Qed.

Lemma days_before_year_mono (y y' : Z) :
  y <= y' -> Date.days_before_year y <= Date.days_before_year y'.
Proof.
  unfold Date.days_before_year. intros H.
  Z.to_euclidean_division_equations. lia.
Qed.

Lemma day_of_year_bounds (y m d : Z) :
  1 <= m <= 12 -> 1 <= d <= Date.days_in_month y m ->
  1 <= Date.days_before_month y m + d <= (if Date.is_leap y then 366 else 365).
Proof.
  intros Hm. unfold Date.days_in_month, Date.days_before_month.
  split_month Hm; destruct (Date.is_leap y); month_tables; lia.
Qed.

Lemma month_lt (y m1 d1 m2 d2 : Z) :
  1 <= m1 <= 12 -> 1 <= m2 <= 12 ->
  1 <= d1 <= Date.days_in_month y m1 -> 1 <= d2 <= Date.days_in_month y m2 ->
  m1 < m2 ->
  Date.days_before_month y m1 + d1 < Date.days_before_month y m2 + d2.
Proof.
  intros H1 H2. unfold Date.days_in_month, Date.days_before_month.
  split_month H1; split_month H2; destruct (Date.is_leap y); month_tables; lia.
Qed.

(** A date that comes strictly before another, field by field, has the
    smaller ordinal. *)
Lemma toordinal_lt (x y : Date.t) :
  Date.valid x -> Date.valid y ->
  Date.year x < Date.year y \/
  (Date.year x = Date.year y /\
   (Date.month x < Date.month y \/
    (Date.month x = Date.month y /\ Date.day x < Date.day y))) ->
  Date.toordinal x < Date.toordinal y.
Proof.
  intros Hx Hy. apply valid_fields in Hx, Hy.
  destruct x as [yx mx dx], y as [yy my dy]. simpl in *.
  unfold Date.toordinal, Date.ymd2ord. simpl.
  intros [H|[-> [H|[-> H]]]].
  - pose proof (day_of_year_bounds yx mx dx ltac:(lia) ltac:(lia)) as Bx.
    pose proof (day_of_year_bounds yy my dy ltac:(lia) ltac:(lia)) as By.
    pose proof (days_before_year_succ yx) as S.
    pose proof (days_before_year_mono (yx + 1) yy ltac:(lia)) as M.
    destruct (Date.is_leap yx); lia.
  - pose proof (month_lt yy mx dx my dy). lia.
  - lia.
Qed.

Lemma date_le_iff (x y : Date.t) :
  Date.valid x -> Date.valid y ->
  (Date.le x y <-> Date.toordinal x <= Date.toordinal y).
Proof.
  intros Hx Hy. unfold Date.le, Date.leb.
  rewrite orb_true_iff, andb_true_iff, orb_true_iff, andb_true_iff.
  rewrite !Z.ltb_lt, !Z.eqb_eq, Z.leb_le.
  split.
  - intros H.
    destruct (Z.eq_dec (Date.day x) (Date.day y)) as [Ed|Nd].
    + destruct H as [H|[Ey [H|[Em _]]]];
        try (apply Z.lt_le_incl, toordinal_lt; auto; tauto).
      unfold Date.toordinal. rewrite Ey, Em, Ed. lia.
    + apply Z.lt_le_incl, toordinal_lt; auto.
      destruct H as [H|[Ey [H|[Em H]]]]; [tauto | tauto |].
      right. split; [exact Ey|]. right. split; [exact Em | lia].
  - intros H.
    assert (~ Date.toordinal y < Date.toordinal x) as N by lia.
    assert (T := fun h => N (toordinal_lt y x Hy Hx h)).
    lia.
Qed.

Lemma date_le_trans (x y z : Date.t) :
  Date.le x y -> Date.le y z -> Date.le x z.
Proof.
  unfold Date.le, Date.leb.
  rewrite !orb_true_iff, !andb_true_iff, !orb_true_iff, !andb_true_iff.
  rewrite !Z.ltb_lt, !Z.eqb_eq, !Z.leb_le. lia.
Qed.

Lemma date_le_refl (x : Date.t) : Date.le x x.
Proof.
  unfold Date.le, Date.leb.
  rewrite !orb_true_iff, !andb_true_iff, !orb_true_iff, !andb_true_iff.
  rewrite !Z.ltb_lt, !Z.eqb_eq, !Z.leb_le. lia.
Qed.

(** ** Ranking *)

(** *** Counting *)

Lemma count_cons p (x : string * Z) l :
  count p (x :: l) = (if p (snd x) then 1 else 0) + count p l.
Proof.
  unfold count. cbn [filter]. destruct (p (snd x)); cbn [List.length]; lia.
Qed.

Lemma count_snoc p l (x : string * Z) :
  count p (l ++ [x]) = count p l + (if p (snd x) then 1 else 0).
Proof.
  induction l as [|y l IH]; simpl.
  - rewrite count_cons. unfold count. cbn [filter List.length]. lia.
  - rewrite !count_cons, IH. lia.
Qed.

Lemma count_nonneg p l : 0 <= count p l.
Proof. unfold count. lia. Qed.

Lemma count_gt_all n l :
  Forall (fun it : string * Z => n < snd it) l ->
  count_gt n l = Z.of_nat (List.length l) /\ count_eq n l = 0.
Proof.
  unfold count_gt, count_eq.
  induction 1 as [|x l Hx _ [IH1 IH2]]; [split; reflexivity|].
  rewrite !count_cons, IH1, IH2.
  destruct (Z.ltb_spec n (snd x)); [|lia].
  destruct (Z.eqb_spec (snd x) n); [lia|].
  simpl List.length. lia.
Qed.

Lemma count_ge_split m l :
  Forall (fun it : string * Z => m <= snd it) l ->
  count_gt m l + count_eq m l = Z.of_nat (List.length l).
Proof.
  unfold count_gt, count_eq.
  induction 1 as [|x l Hx _ IH]; [reflexivity|].
  rewrite !count_cons. simpl List.length.
  destruct (Z.ltb_spec m (snd x)), (Z.eqb_spec (snd x) m); lia.
Qed.

(** *** The stable descending sort *)

Lemma insert_desc_perm x l : Permutation (insert_desc x l) (x :: l).
Proof.
  induction l as [|y l IH]; simpl; [reflexivity|].
  destruct (snd x <? snd y); [|reflexivity].
  rewrite IH. apply perm_swap.
Qed.

Lemma sorted_desc_perm l : Permutation (sorted_desc l) l.
Proof.
  induction l as [|x l IH]; simpl; [reflexivity|].
  rewrite insert_desc_perm. now constructor.
Qed.

Lemma insert_desc_descending x l :
  descending l -> descending (insert_desc x l).
Proof.
  unfold descending.
  induction 1 as [|y l Hs IH Hy]; simpl.
  - repeat constructor.
  - destruct (Z.ltb_spec (snd x) (snd y)).
    + constructor; [exact IH|].
      rewrite (insert_desc_perm x l).
      constructor; [lia | exact Hy].
    + constructor; [now constructor|].
      constructor; [lia|].
      eapply Forall_impl; [|exact Hy]. simpl. intros; lia.
Qed.

Lemma sorted_desc_descending l : descending (sorted_desc l).
Proof.
  induction l as [|x l IH]; simpl; [constructor|].
  now apply insert_desc_descending.
Qed.

Lemma count_insert_desc p x l : count p (insert_desc x l) = count p (x :: l).
Proof.
  induction l as [|y l IH]; simpl; [reflexivity|].
  destruct (snd x <? snd y); [|reflexivity].
  rewrite (count_cons p y), IH, !count_cons. lia.
Qed.

Lemma count_sorted_desc p l : count p (sorted_desc l) = count p l.
Proof.
  induction l as [|x l IH]; simpl; [reflexivity|].
  now rewrite count_insert_desc, !count_cons, IH.
Qed.

Lemma descending_snoc l x :
  descending (l ++ [x]) ->
  descending l /\ Forall (fun y => snd x <= snd y) l.
Proof.
  unfold descending. induction l as [|y l IH]; simpl; intros H.
  - split; constructor.
  - inversion H as [|? ? Hs Hy]; subst.
    destruct (IH Hs) as [H1 H2]. split.
    + constructor; [exact H1|].
      apply Forall_app in Hy. tauto.
    + constructor; [|exact H2].
      apply Forall_app in Hy. destruct Hy as [_ Hx].
      now inversion Hx.
Qed.

(** *** The ranking loop *)

Lemma rank_step_inv P st x :
  descending (P ++ [x]) -> NoDup (map fst (P ++ [x])) ->
  rank_inv P st -> rank_inv (P ++ [x]) (rank_step st x).
Proof.
  intros Hd Hnd Hinv. right.
  apply descending_snoc in Hd. destruct Hd as [_ Hge].
  rewrite map_app in Hnd. simpl in Hnd.
  apply NoDup_remove_2 in Hnd. rewrite app_nil_r in Hnd.
  destruct x as [c n]. simpl in *.
  assert (Hfresh : forall c' n', In (c', n') P -> c <> c').
  { intros c' n' Hin ->. apply Hnd. apply (in_map fst) in Hin. exact Hin. }
  destruct Hinv as [[-> ->]|(m & c0 & Hin & Hmax & Hall & Hrank & Hdiff & Htab)].
  - exists n, c. simpl.
    assert (Hg : count_gt n [(c, n)] = 0).
    { unfold count_gt. rewrite count_cons. simpl. now rewrite Z.ltb_irrefl. }
    assert (He : count_eq n [(c, n)] = 1).
    { unfold count_eq. rewrite count_cons. simpl. now rewrite Z.eqb_refl. }
    rewrite Hg, He. repeat split; try reflexivity.
    + now left.
    + repeat constructor. simpl. lia.
    + intros c' n' [[= <- <-]|[]]. now rewrite String.eqb_refl, Hg.
  - assert (Hnm : n <= m).
    { rewrite Forall_forall in Hge. apply (Hge (c0, m) Hin). }
    unfold rank_step. rewrite Hmax. simpl.
    destruct (Z.ltb_spec n m) as [Hlt|Hnlt].
    + assert (Hbig : Forall (fun it : string * Z => n < snd it) P).
      { eapply Forall_impl; [|exact Hall]. simpl. intros; lia. }
      destruct (count_gt_all n P Hbig) as [Hgt Heq].
      pose proof (count_ge_split m P Hall) as Hsplit.
      exists n, c. simpl. repeat split.
      * apply in_or_app. right. now left.
      * apply Forall_app. split; [|repeat constructor; simpl; lia].
        eapply Forall_impl; [|exact Hbig]. simpl. intros; lia.
      * unfold count_gt. rewrite count_snoc. simpl. rewrite Z.ltb_irrefl.
        fold (count_gt n P). lia.
      * unfold count_eq. rewrite count_snoc. simpl. rewrite Z.eqb_refl.
        fold (count_eq n P). lia.
      * intros c' n' Hin'. apply in_app_or in Hin'.
        destruct Hin' as [Hin'|[[= <- <-]|[]]].
        -- rewrite get_set_other by (eapply Hfresh; eassumption).
           rewrite (Htab _ _ Hin'). unfold count_gt. rewrite count_snoc. simpl.
           rewrite Forall_forall in Hall. specialize (Hall _ Hin'). simpl in Hall.
           destruct (Z.ltb_spec n' n); [lia|]. now rewrite Z.add_0_r.
        -- rewrite get_set_same. f_equal.
           unfold count_gt. rewrite count_snoc. simpl. rewrite Z.ltb_irrefl.
           fold (count_gt n P). lia.
    + assert (n = m) as -> by lia.
      exists m, c. simpl. repeat split.
      * apply in_or_app. right. now left.
      * apply Forall_app. split; [exact Hall | repeat constructor; simpl; lia].
      * unfold count_gt. rewrite count_snoc. simpl. rewrite Z.ltb_irrefl.
        fold (count_gt m P). lia.
      * unfold count_eq. rewrite count_snoc. simpl. rewrite Z.eqb_refl.
        fold (count_eq m P). lia.
      * intros c' n' Hin'. apply in_app_or in Hin'.
        destruct Hin' as [Hin'|[[= <- <-]|[]]].
        -- rewrite get_set_other by (eapply Hfresh; eassumption).
           rewrite (Htab _ _ Hin'). unfold count_gt. rewrite count_snoc. simpl.
           rewrite Forall_forall in Hall. specialize (Hall _ Hin'). simpl in Hall.
           destruct (Z.ltb_spec n' m); [lia|]. now rewrite Z.add_0_r.
        -- rewrite get_set_same. f_equal.
           unfold count_gt. rewrite count_snoc. simpl. rewrite Z.ltb_irrefl.
           fold (count_gt m P). lia.
Qed.

Lemma rank_fold_inv L :
  descending L -> NoDup (map fst L) ->
  rank_inv L (fold_left rank_step L rank_init).
Proof.
  induction L as [|x L IH] using rev_ind; intros Hd Hnd.
  - left. split; reflexivity.
  - rewrite fold_left_app. simpl.
    apply rank_step_inv; [exact Hd | exact Hnd |].
    apply IH.
    + now apply descending_snoc in Hd.
    + rewrite map_app in Hnd. now apply NoDup_app_remove_r in Hnd.
Qed.

(** Every country is ranked one more than the number of countries with
    strictly more days. *)
Lemma rank_formula (d : Dict.t Z) (c : string) (n : Z) :
  Dict.wf d -> In (c, n) d ->
  Dict.get (create_country2rank d) c = Some (1 + count_gt n d).
Proof.
  intros Hwf Hin. unfold create_country2rank, Dict.items.
  pose proof (sorted_desc_perm d) as Hp.
  assert (Hnd : NoDup (map fst (sorted_desc d))).
  { eapply Permutation_NoDup; [|exact Hwf].
    apply Permutation_map. now symmetry. }
  destruct (rank_fold_inv _ (sorted_desc_descending d) Hnd)
    as [[E _]|(m & c0 & _ & _ & _ & _ & _ & Htab)].
  - rewrite E in Hp. apply Permutation_nil in Hp. subst d. destruct Hin.
  - rewrite (Htab c n).
    + unfold count_gt. now rewrite count_sorted_desc.
    + eapply Permutation_in; [symmetry; exact Hp | exact Hin].
Qed.

(** ** Percentages *)

Lemma percent_loop_ok (items : list (string * Z)) (total : Z)
    (acc : Dict.t float_text) :
  total <> 0 -> NoDup (map fst items) ->
  (forall k, In k (map fst items) -> Dict.get acc k = None) ->
  percent_loop items total acc = Ok (acc ++ map (percent_entry total) items)%list.
Proof.
  intros Ht. revert acc.
  induction items as [|[c n] items IH]; intros acc Hnd Hfresh; simpl.
  - now rewrite app_nil_r.
  - unfold percent_text, truediv.
    destruct (Z.eqb_spec total 0); [contradiction|]. simpl.
    inversion Hnd as [|? ? Hc Hnd']; subst.
    rewrite IH.
    + rewrite set_new by (apply Hfresh; now left).
      rewrite <- app_assoc. reflexivity.
    + exact Hnd'.
    + intros k Hk. rewrite get_set.
      destruct (String.eqb_spec c k) as [->|]; [contradiction|].
      apply Hfresh. now right.
Qed.

Lemma create_country2percent_ok (d : Dict.t Z) :
  Dict.wf d -> Py.sum (Dict.values d) <> 0 ->
  create_country2percent d = Ok (map (percent_entry (Py.sum (Dict.values d))) d).
Proof.
  intros Hwf Ht. unfold create_country2percent, Dict.items.
  rewrite percent_loop_ok; auto.
Qed.

Lemma Qsum_ratios (l : list Z) (t : Q) :
  ~ (t == 0)%Q ->
  (Qsum (map (fun n => inject_Z n / t) l) == inject_Z (Py.sum l) / t)%Q.
Proof.
  intros Ht. induction l as [|x l IH]; simpl.
  - unfold Py.sum. simpl. field. exact Ht.
  - rewrite IH, sum_cons, inject_Z_plus. field. exact Ht.
Qed.

Lemma Qsum_percent (d : Dict.t Z) (total : Z) :
  total <> 0 ->
  (Qsum (map (fun e => unrounded (ft_value (snd e))) (map (percent_entry total) d))
   == inject_Z (Py.sum (Dict.values d)) / inject_Z total * 100)%Q.
Proof.
  intros Ht.
  assert (Hq : ~ (inject_Z total == 0)%Q).
  { unfold Qeq. simpl. lia. }
  unfold Dict.values. induction d as [|[c n] d IH]; simpl.
  - unfold Py.sum. simpl. field. exact Hq.
  - rewrite IH, sum_cons, inject_Z_plus.
    change (inject_Z 100) with (100#1)%Q. field. exact Hq.
Qed.

(** ** The home/abroad roll-up *)

Lemma sum_home_abroad (d : Dict.t Z) (home : string) :
  Dict.wf d ->
  Py.sum (Dict.values d) = get_or d home 0 + sum_abroad d home.
Proof.
  unfold Dict.wf, Dict.keys, Dict.values, sum_abroad, Dict.items, get_or.
  induction d as [|[k v] d IH]; intros Hnd; simpl.
  - reflexivity.
  - inversion Hnd as [|? ? Hk Hnd']; subst.
    rewrite sum_cons, (IH Hnd').
    destruct (String.eqb_spec k home) as [->|]; simpl.
    + assert (Dict.get d home = None) as -> by now apply get_None_iff.
      lia.
    + rewrite sum_cons. lia.
Qed.

Lemma sum_abroad_app (d1 d2 : Dict.t Z) (home : string) :
  sum_abroad (d1 ++ d2)%list home = sum_abroad d1 home + sum_abroad d2 home.
Proof.
  unfold sum_abroad, Dict.items. now rewrite filter_app, map_app, sum_app.
Qed.

(** The look-up of the home code may add an entry, but it adds no days. *)
Lemma lookup_keeps_sums (d : Dict.t Z) (home : string) :
  let d' := snd (Dict.getitem_default 0 d home) in
  sum_abroad d' home = sum_abroad d home /\
  Py.sum (Dict.values d') = Py.sum (Dict.values d).
Proof.
  unfold Dict.getitem_default.
  destruct (Dict.get d home) eqn:E; simpl; [split; reflexivity|].
  rewrite (set_new _ _ _ E), sum_abroad_app. unfold Dict.values.
  rewrite map_app, sum_app. unfold sum_abroad, Dict.items. simpl.
  rewrite String.eqb_refl. simpl.
  change (Py.sum []) with 0. rewrite sum_cons. change (Py.sum []) with 0.
  split; lia.
Qed.

(** What [__init__] returns, attribute by attribute. *)
Lemma init_Ok_inv (cfg : Config) (df : DataFrame) (today : Date.t)
    (t : TravelDayCounter) :
  __init__ cfg df today = Ok t ->
  exists h c2p rp,
    create_visit_history df today = Ok h /\
    create_country2percent (country2days h) = Ok c2p /\
    day_count (residency_begin cfg) today = Ok rp /\
    t = mkTDC (snd (Dict.getitem_default 0 (country2days h) (home_code cfg)))
              c2p (create_country2rank (country2days h))
              (country2firstvisit h) (country2lastvisit h)
              (visityear2countries h) (Dict.len (country2days h))
              (get_or (country2days h) (home_code cfg) 0)
              (FRound (FDiv (get_or (country2days h) (home_code cfg) 0) 365) 1)
              (sum_abroad (snd (Dict.getitem_default 0 (country2days h) (home_code cfg)))
                          (home_code cfg))
              (FRound (FDiv (sum_abroad (snd (Dict.getitem_default 0 (country2days h)
                                                 (home_code cfg)))
                                        (home_code cfg)) 365) 1)
              rp.
Proof.
  unfold __init__. intros H.
  bind_inv H. rename a into h. bind_inv H. rename a into c2p.
  pose proof (fst_getitem_default 0 (country2days h) (home_code cfg)) as Hf.
  destruct (Dict.getitem_default 0 (country2days h) (home_code cfg))
    as [dh c2d] eqn:G.
  simpl in Hf. subst dh. unfold truediv in H. simpl in H.
  bind_inv H. rename a into rp. inversion H; subst.
  exists h, c2p, rp. rewrite G. simpl. repeat split; assumption.
Qed.

(** ** Parsing, and what the stays of a table look like *)

Lemma parse_date_Ok (s y : string) (d : Date.t) :
  parse_date s = Ok (y, d) -> Date.valid d /\ Py.int y = Ok (Date.year d).
Proof.
  unfold parse_date. intros H.
  bind_inv H. destruct a as [[y0 m0] d0]. simpl in H.
  bind_inv H. bind_inv H. bind_inv H. bind_inv H.
  inversion H; subst.
  apply date_Ok_valid in Ha3. destruct Ha3 as [Hv ->]. simpl. auto.
Qed.

Lemma int_error (s : string) (e : exn) : Py.int s = Raise e -> e = ValueError.
Proof.
  unfold Py.int. destruct (Py.digits _ 0 true); [|congruence].
  destruct (Py.MAX_STR_DIGITS <? _); [congruence | discriminate].
Qed.

(** A date that does not parse raises [ValueError], or [OverflowError]
    when its numbers do not fit the arguments of [date]. *)
Lemma parse_date_error (s : string) (e : exn) :
  parse_date s = Raise e -> e = ValueError \/ e = OverflowError.
Proof.
  unfold parse_date, Py.unpack3.
  destruct (Py.split "-" s) as [|a [|b [|c [|? ?]]]]; simpl;
    try (intros [= <-]; now left).
  destruct (Py.int a) eqn:Ea; simpl; [|intros [= <-]; left; eapply int_error; eauto].
  destruct (Py.int b) eqn:Eb; simpl; [|intros [= <-]; left; eapply int_error; eauto].
  destruct (Py.int c) eqn:Ec; simpl; [|intros [= <-]; left; eapply int_error; eauto].
  unfold Date.date.
  destruct (Date.fits_c_int _ && Date.fits_c_int _ && Date.fits_c_int _)%bool;
    [|simpl; intros [= <-]; now right].
  destruct (Date.check_date_fields _ _ _); simpl; [discriminate|].
  intros [= <-]. now left.
Qed.

(** [OverflowError] is raised exactly for a text of three numbers one of
    which does not fit a C [int]. *)
Lemma parse_date_overflow_iff (s : string) :
  parse_date s = Raise OverflowError <->
  exists a b c y m d,
    Py.split "-" s = [a; b; c] /\
    Py.int a = Ok y /\ Py.int b = Ok m /\ Py.int c = Ok d /\
    (Date.fits_c_int y && Date.fits_c_int m && Date.fits_c_int d)%bool = false.
Proof.
  unfold parse_date, Py.unpack3. split.
  - destruct (Py.split "-" s) as [|a [|b [|c [|? ?]]]]; simpl;
      try (intros H; discriminate H).
    destruct (Py.int a) as [y|e] eqn:Ea; simpl;
      [|intros [= ->]; apply int_error in Ea; discriminate Ea].
    destruct (Py.int b) as [m|e] eqn:Eb; simpl;
      [|intros [= ->]; apply int_error in Eb; discriminate Eb].
    destruct (Py.int c) as [d|e] eqn:Ec; simpl;
      [|intros [= ->]; apply int_error in Ec; discriminate Ec].
    unfold Date.date.
    destruct (Date.fits_c_int y && Date.fits_c_int m && Date.fits_c_int d)%bool
      eqn:F.
    + destruct (Date.check_date_fields y m d); simpl; intros H; discriminate H.
    + intros _. exists a, b, c, y, m, d. auto.
  - intros (a & b & c & y & m & d & Es & Ea & Eb & Ec & F).
    rewrite Es. simpl. rewrite Ea. simpl. rewrite Eb. simpl.
    rewrite Ec. simpl. unfold Date.date. rewrite F. reflexivity.
Qed.

(** What the embedding reads as a number or a date is ASCII text. *)
Lemma is_space_ascii (c : ascii) :
  Py.is_space c = true -> (nat_of_ascii c <? 128)%nat = true.
Proof.
  unfold Py.is_space. intros H. apply Nat.ltb_lt.
  apply orb_true_iff in H. destruct H as [H|H].
  - apply andb_true_iff in H. destruct H as [_ H]. apply Nat.leb_le in H. lia.
  - apply Nat.eqb_eq in H. lia.
Qed.

Lemma is_digit_ascii (c : ascii) :
  Py.is_digit c = true -> (nat_of_ascii c <? 128)%nat = true.
Proof.
  unfold Py.is_digit. intros H. apply Nat.ltb_lt.
  apply andb_true_iff in H. destruct H as [_ H]. apply Nat.leb_le in H. lia.
Qed.

Lemma isascii_lstrip (s : string) :
  Py.isascii (Py.lstrip s) = true -> Py.isascii s = true.
Proof.
  induction s as [|c s IH]; [reflexivity|]. cbn [Py.lstrip].
  destruct (Py.is_space c) eqn:E; [|exact (fun H => H)].
  intros H. cbn [Py.isascii]. now rewrite (is_space_ascii c E), IH.
Qed.

Lemma isascii_rstrip (s : string) :
  Py.isascii (Py.rstrip s) = true -> Py.isascii s = true.
Proof.
  induction s as [|c s IH]; [reflexivity|]. cbn [Py.rstrip].
  destruct (Py.rstrip s) as [|c' r] eqn:R.
  - destruct (Py.is_space c) eqn:E; cbn [Py.isascii]; intros H.
    + now rewrite (is_space_ascii c E), IH.
    + apply andb_true_iff in H. destruct H as [H _]. now rewrite H, IH.
  - cbn [Py.isascii]. intros H. apply andb_true_iff in H. destruct H as [H1 H2].
    rewrite H1. cbn [Py.isascii] in IH. now rewrite (IH H2).
Qed.

Lemma digits_isascii (s : string) (acc : Z) (after_us : bool) (n : Z) :
  Py.digits s acc after_us = Some n -> Py.isascii s = true.
Proof.
  revert acc after_us. induction s as [|c s IH]; intros acc after_us;
    [reflexivity|].
  cbn [Py.digits Py.isascii].
  destruct (Py.is_digit c) eqn:D.
  - intros H. now rewrite (is_digit_ascii c D), (IH _ _ H).
  - destruct (Ascii.eqb c "_") eqn:U; [|discriminate].
    apply Ascii.eqb_eq in U. subst c.
    destruct after_us; [discriminate|]. intros H. now rewrite (IH _ _ H).
Qed.

Lemma int_Ok_isascii (s : string) (n : Z) :
  Py.int s = Ok n -> Py.isascii s = true.
Proof.
  unfold Py.int. intros H. apply isascii_lstrip, isascii_rstrip.
  destruct (Py.rstrip (Py.lstrip s)) as [|c r] eqn:B;
    [reflexivity|].
  assert (A : forall t, Py.digits t 0 true <> None -> Py.isascii t = true).
  { intros t Ht. destruct (Py.digits t 0 true) eqn:E; [|congruence].
    eapply digits_isascii; eassumption. }
  assert (K : forall (sg : Z * string),
             match Py.digits (snd sg) 0 true with
             | Some n0 =>
                 if Py.MAX_STR_DIGITS <? Py.count_digits (snd sg)
                 then Raise ValueError else Ok (fst sg * n0)
             | None => Raise ValueError
             end = Ok n -> Py.isascii (snd sg) = true).
  { intros sg Hs. apply A. destruct (Py.digits (snd sg) 0 true);
      [discriminate | discriminate Hs]. }
  destruct (Ascii.eqb c "+") eqn:Ep.
  { apply Ascii.eqb_eq in Ep. subst c. apply K in H. simpl in H.
    cbn [Py.isascii]. now rewrite H. }
  destruct (Ascii.eqb c "-") eqn:Em.
  { apply Ascii.eqb_eq in Em. subst c. apply K in H. simpl in H.
    cbn [Py.isascii]. now rewrite H. }
  assert (S : match String c r with
              | String "+" r0 => (1, r0)
              | String "-" r0 => (-1, r0)
              | _ => (1, String c r)
              end = (1, String c r)).
  { apply Ascii.eqb_neq in Ep, Em.
    destruct c as [[] [] [] [] [] [] [] []]; try reflexivity; congruence. }
  rewrite S in H. apply K in H. exact H.
Qed.

Lemma split_isascii (sep : ascii) (s : string) :
  (nat_of_ascii sep <? 128)%nat = true ->
  Forall (fun p => Py.isascii p = true) (Py.split sep s) ->
  Py.isascii s = true.
Proof.
  intros Hsep. induction s as [|c s IH]; [reflexivity|].
  cbn [Py.split Py.isascii].
  destruct (Ascii.eqb c sep) eqn:E.
  - apply Ascii.eqb_eq in E. subst c. intros H. inversion H; subst.
    now rewrite Hsep, IH.
  - destruct (Py.split sep s) as [|h t].
    + intros H. inversion H as [|? ? H1 _]; subst.
      cbn [Py.isascii] in H1. apply andb_true_iff in H1. destruct H1 as [H1 _].
      rewrite H1. now rewrite IH.
    + intros H. inversion H as [|? ? H1 H2]; subst.
      cbn [Py.isascii] in H1. apply andb_true_iff in H1. destruct H1 as [H1 H3].
      rewrite H1. rewrite IH; [reflexivity|]. now constructor.
Qed.

Lemma parse_date_Ok_isascii (s : string) (p : string * Date.t) :
  parse_date s = Ok p -> Py.isascii s = true.
Proof.
  unfold parse_date, Py.unpack3. intros H.
  apply (split_isascii "-"); [reflexivity|].
  destruct (Py.split "-" s) as [|a [|b [|c [|? ?]]]]; simpl in H;
    try discriminate H.
  destruct (Py.int a) eqn:Ea; simpl in H; [|discriminate H].
  destruct (Py.int b) eqn:Eb; simpl in H; [|discriminate H].
  destruct (Py.int c) eqn:Ec; simpl in H; [|discriminate H].
  repeat constructor; eapply int_Ok_isascii; eassumption.
Qed.

(** A table whose dates all parse has its dates in ASCII text. *)
Lemma all_dates_parse_ascii (rows : DataFrame) :
  all_dates_parse rows -> ascii_dates rows.
Proof.
  unfold all_dates_parse, ascii_dates. intros H.
  eapply Forall_impl; [|exact H].
  intros r [p Hp]. eapply parse_date_Ok_isascii; eassumption.
Qed.

(** The builder fails only on a date that does not parse. *)
Lemma stays_error (rows : DataFrame) (today : Date.t) (e : exn) :
  stays rows today = Raise e -> e = ValueError \/ e = OverflowError.
Proof.
  induction rows as [|r rest IH]; simpl; [discriminate|].
  destruct (parse_date (DATE r)) as [[ey ed]|e0] eqn:E1; simpl;
    [|intros [= <-]; eapply parse_date_error; eauto].
  destruct rest as [|r' rest']; simpl.
  - discriminate.
  - destruct (parse_date (DATE r')) as [[dy dd]|e0] eqn:E2;
      [|simpl; intros [= <-]; eapply parse_date_error; eauto].
    simpl in IH. rewrite E2 in IH. simpl in IH. simpl.
    match goal with
    | |- context [bind ?x _] => destruct x eqn:E3
    end; simpl; [discriminate|].
    intros [= <-]. now apply IH.
Qed.

Lemma create_visit_history_error (rows : DataFrame) (today : Date.t) (e : exn) :
  create_visit_history rows today = Raise e -> e = ValueError \/ e = OverflowError.
Proof.
  rewrite create_visit_history_stays.
  destruct (stays rows today) eqn:E; simpl; [discriminate|].
  intros [= <-]. eapply stays_error; eauto.
Qed.

(** The builder raises the exception of the first date, in row order,
    that does not parse. *)
Lemma stays_Raise_iff (rows : DataFrame) (today : Date.t) (e : exn) :
  stays rows today = Raise e <->
  exists before r after,
    rows = before ++ r :: after /\ all_dates_parse before /\
    parse_date (DATE r) = Raise e.
Proof.
  unfold all_dates_parse. split.
  - induction rows as [|r rest IH]; [intros H; discriminate H|].
    cbn [stays].
    destruct (parse_date (DATE r)) as [[ey ed]|e0] eqn:E1; unfold bind at 1;
      cbv beta iota.
    + destruct rest as [|r' rest']; cbv beta iota.
      * intros H. discriminate H.
      * destruct (parse_date (DATE r')) as [[dy dd]|e0] eqn:E2;
          unfold bind at 1; cbv beta iota.
        -- destruct (stays (r' :: rest') today) as [ss|e1] eqn:E3;
             unfold bind at 1; cbv beta iota; intros H; [discriminate H|].
           injection H as ->.
           destruct (IH eq_refl) as (before & r0 & after & Hrows & Hp & Hr).
           exists (r :: before), r0, after. rewrite Hrows.
           split; [reflexivity|]. split; [|exact Hr].
           constructor; [eauto | exact Hp].
        -- intros [= <-]. exists [r], r', rest'.
           split; [reflexivity|]. split; [|exact E2].
           constructor; [eauto | constructor].
    + intros [= <-]. exists [], r, rest. repeat split; [constructor | exact E1].
  - intros (before & r & after & -> & Hp & Hr).
    induction Hp as [|b before [[ey ed] Hb] Hp IH].
    + cbn [app stays]. now rewrite Hr.
    + change ((b :: before) ++ r :: after) with (b :: (before ++ r :: after)).
      cbn [stays]. rewrite Hb, IH. unfold bind at 1. cbv beta iota.
      destruct before as [|b' before']; cbn [app]; cbv beta iota.
      * rewrite Hr. reflexivity.
      * inversion Hp as [|? ? [[dy dd] Hb'] _]; subst.
        rewrite Hb'. reflexivity.
Qed.

Lemma create_visit_history_Raise_iff (rows : DataFrame) (today : Date.t) (e : exn) :
  create_visit_history rows today = Raise e <->
  exists before r after,
    rows = before ++ r :: after /\ all_dates_parse before /\
    parse_date (DATE r) = Raise e.
Proof.
  rewrite <- (stays_Raise_iff rows today e), create_visit_history_stays.
  destruct (stays rows today); simpl; split; intros H;
    try discriminate H; injection H as ->; reflexivity.
Qed.

Lemma stays_head (r : Row) (rest : DataFrame) (today : Date.t) (ss : list stay) :
  stays (r :: rest) today = Ok ss ->
  exists s ss', ss = s :: ss' /\ stay_country s = ENTERED r /\
                parse_date (DATE r) = Ok (entry_y s, entry_date s) /\
                stays rest today = Ok ss' /\
                match rest with
                | [] => depart_y s = Py.str (Date.year today) /\
                        departure_date s = today
                | r' :: _ => parse_date (DATE r') = Ok (depart_y s, departure_date s)
                end.
Proof.
  simpl. intros H.
  bind_inv H. destruct a as [ey ed]. bind_inv H. destruct a as [dy dd].
  bind_inv H. inversion H; subst.
  eexists _, _. split; [reflexivity|]. simpl. repeat split; try assumption.
  destruct rest; [inversion Ha0; auto | exact Ha0].
Qed.

Lemma stays_chained (rows : DataFrame) (today : Date.t) (ss : list stay) :
  stays rows today = Ok ss -> chained ss today.
Proof.
  revert ss. induction rows as [|r rest IH]; intros ss H.
  - inversion H. exact I.
  - apply stays_head in H.
    destruct H as (s & ss' & -> & _ & _ & Hrest & Hdep).
    split; [|now apply IH].
    destruct rest as [|r' rest'].
    + inversion Hrest; subst. tauto.
    + apply stays_head in Hrest.
      destruct Hrest as (s' & ss'' & -> & _ & Hp & _ & _).
      rewrite Hp in Hdep. now inversion Hdep.
Qed.

(** [int(str(y))] is [y] for every year a date can have. *)
Lemma int_str_year (y : Z) : 1 <= y <= 9999 -> Py.int (Py.str y) = Ok y.
Proof.
  intros Hy.
  assert (Hall : forallb (fun n => match Py.int (Py.str (Z.of_nat n)) with
                                   | Ok z => z =? Z.of_nat n
                                   | Raise _ => false
                                   end) (seq 1 (Z.to_nat 9999)) = true)
    by (vm_compute; reflexivity).
  rewrite forallb_forall in Hall.
  specialize (Hall (Z.to_nat y)). rewrite Z2Nat.id in Hall by lia.
  assert (Hin : In (Z.to_nat y) (seq 1 (Z.to_nat 9999))) by (apply in_seq; lia).
  specialize (Hall Hin).
  destruct (Py.int (Py.str y)); [|discriminate].
  apply Z.eqb_eq in Hall. now subst.
Qed.

Lemma stays_ok (rows : DataFrame) (today : Date.t) (ss : list stay) :
  Date.valid today -> stays rows today = Ok ss -> Forall stay_ok ss.
Proof.
  intros Ht. revert ss. induction rows as [|r rest IH]; intros ss H.
  - inversion H. constructor.
  - apply stays_head in H.
    destruct H as (s & ss' & -> & _ & Hp & Hrest & Hdep).
    constructor; [|now apply IH].
    apply parse_date_Ok in Hp. destruct Hp as [Hv Hy].
    unfold stay_ok. destruct rest as [|r' rest'].
    + destruct Hdep as [-> ->]. repeat split; try assumption.
      apply int_str_year. apply valid_fields in Ht. lia.
    + apply parse_date_Ok in Hdep. tauto.
Qed.

(** When every date parses, the stays exist: the builder returns. *)
Lemma stays_total (rows : DataFrame) (today : Date.t) :
  all_dates_parse rows -> exists ss, stays rows today = Ok ss.
Proof.
  unfold all_dates_parse.
  induction 1 as [|r rest [[ey ed] Hr] Hrest [ss IH]]; simpl; [eauto|].
  rewrite Hr, IH. simpl.
  destruct Hrest as [|r' rest' [[dy dd] Hr'] _]; simpl; [eauto|].
  rewrite Hr'. simpl. eauto.
Qed.

Lemma create_visit_history_Ok (rows : DataFrame) (today : Date.t) (h : history) :
  create_visit_history rows today = Ok h ->
  exists ss, stays rows today = Ok ss /\ h = built ss.
Proof.
  rewrite create_visit_history_stays. intros H. bind_inv H.
  inversion H. eauto.
Qed.

(** ** Ascending input *)

Lemma ascending_stays (ss : list stay) (today : Date.t) :
  chained ss today -> ascending (map entry_date ss ++ [today]) ->
  Forall (fun s => Date.le (entry_date s) (departure_date s)) ss.
Proof.
  unfold ascending. induction ss as [|s ss IH]; simpl; intros Hc Hs.
  - constructor.
  - destruct Hc as [Hdep Hc]. inversion Hs as [|? ? Hs' Hall]; subst.
    constructor; [|now apply IH].
    rewrite Hdep. destruct ss as [|s' ss']; simpl in Hall; now inversion Hall.
Qed.

Lemma first_le_last (ss : list stay) (today : Date.t) (c : string) (s1 s2 : stay) :
  ascending (map entry_date ss ++ [today]) ->
  Forall (fun s => Date.le (entry_date s) (departure_date s)) ss ->
  find (of_country c) ss = Some s1 ->
  find (of_country c) (rev ss) = Some s2 ->
  Date.le (entry_date s1) (departure_date s2).
Proof.
  unfold ascending. induction ss as [|s ss IH]; simpl; [discriminate|].
  intros Hs Hle. inversion Hs as [|? ? Hs' Hall]; subst.
  inversion Hle as [|? ? Hle1 Hle']; subst.
  rewrite find_snoc.
  destruct (of_country c s) eqn:E.
  - intros [= <-]. destruct (find (of_country c) (rev ss)) eqn:F.
    + intros [= <-]. apply find_some in F. destruct F as [Hin _].
      apply in_rev in Hin.
      apply date_le_trans with (entry_date s0).
      * rewrite Forall_forall in Hall. apply Hall.
        apply in_or_app. left. now apply in_map.
      * rewrite Forall_forall in Hle'. now apply Hle'.
    + intros [= <-]. exact Hle1.
  - intros H1. destruct (find (of_country c) (rev ss)) eqn:F; [|discriminate].
    intros [= <-]. now apply IH.
Qed.

Lemma intervals_nonneg (ss : list stay) (c : string) :
  Forall stay_ok ss ->
  Forall (fun s => Date.le (entry_date s) (departure_date s)) ss ->
  Forall (fun n => 0 <= n) (intervals_of ss c).
Proof.
  unfold intervals_of. intros Hok Hle.
  apply Forall_forall. intros n Hn.
  apply in_map_iff in Hn. destruct Hn as (s & <- & Hs).
  apply filter_In in Hs. destruct Hs as [Hs _].
  rewrite Forall_forall in Hok, Hle.
  destruct (Hok s Hs) as (Hv1 & Hv2 & _).
  specialize (Hle s Hs). apply date_le_iff in Hle; [|assumption..].
  unfold delta_days, Date.sub_days. lia.
Qed.

Lemma find_of_country (ss : list stay) (c : string) :
  In c (map stay_country ss) -> exists s, find (of_country c) ss = Some s.
Proof.
  intros H. apply in_map_iff in H. destruct H as (s & E & Hin).
  destruct (find (of_country c) ss) eqn:F; [eauto|].
  apply (find_none _ _ F) in Hin. unfold of_country in Hin.
  rewrite E, String.eqb_refl in Hin. discriminate.
Qed.

Lemma built_keys (ss : list stay) (c : string) :
  In c (Dict.keys (country2days (built ss))) <-> In c (map stay_country ss).
Proof.
  rewrite <- existsb_of_country.
  pose proof (built_days ss c) as H.
  pose proof (get_None_iff (country2days (built ss)) c) as N.
  destruct (existsb (of_country c) ss).
  - split; [reflexivity|]. intros _.
    destruct (in_dec string_dec c (Dict.keys (country2days (built ss)))); [assumption|].
    rewrite H in N. assert (Some (Py.sum (intervals_of ss c)) = None) by tauto.
    discriminate.
  - split; [|discriminate]. intros Hin. exfalso. tauto.
Qed.

(** ** More on counting *)

Lemma count_next (d : list (string * Z)) (n1 n2 : Z) :
  n2 < n1 ->
  (forall c n, In (c, n) d -> ~ (n2 < n < n1)) ->
  count_gt n2 d = count_gt n1 d + count_eq n1 d.
Proof.
  intros Hlt. unfold count_gt, count_eq.
  induction d as [|[c n] d IH]; intros Hgap; [reflexivity|].
  rewrite !count_cons, IH by (intros c' n' Hin; apply (Hgap c' n'); now right).
  simpl.
  specialize (Hgap c n (or_introl eq_refl)).
  destruct (Z.ltb_spec n2 n), (Z.ltb_spec n1 n), (Z.eqb_spec n n1); lia.
Qed.

Lemma count_eq_pos (d : list (string * Z)) (c : string) (n : Z) :
  In (c, n) d -> 1 <= count_eq n d.
Proof.
  unfold count_eq. induction d as [|x d IH]; [intros []|].
  rewrite count_cons. intros [->|H].
  - simpl. rewrite Z.eqb_refl. pose proof (count_nonneg (fun m => m =? n) d). lia.
  - specialize (IH H). destruct (snd x =? n); lia.
Qed.

Lemma get_percent_entries (d : Dict.t Z) (total : Z) (c : string) :
  Dict.get (map (percent_entry total) d) c =
  option_map (fun n => snd (percent_entry total (c, n))) (Dict.get d c).
Proof.
  induction d as [|[k v] d IH]; simpl; [reflexivity|].
  destruct (String.eqb_spec k c); [reflexivity | exact IH].
Qed.

(** What the roll-up leaves alone: the first-visit, last-visit and year
    tables always, and the day totals when the home code was visited. *)
Lemma init_frame (cfg : Config) (df : DataFrame) (today : Date.t)
    (t : TravelDayCounter) (h : history) :
  __init__ cfg df today = Ok t -> create_visit_history df today = Ok h ->
  self_country2firstvisit t = country2firstvisit h /\
  self_country2lastvisit t = country2lastvisit h /\
  self_visityear2countries t = visityear2countries h /\
  (Dict.mem (country2days h) (home_code cfg) = true ->
   self_country2days t = country2days h).
Proof.
  intros H Hh. apply init_Ok_inv in H.
  destruct H as (h' & c2p & rp & Hh' & _ & _ & ->).
  rewrite Hh in Hh'. inversion Hh'; subst h'. simpl.
  repeat split. unfold Dict.mem, Dict.getitem_default.
  destruct (Dict.get (country2days h) (home_code cfg)); [reflexivity|discriminate].
Qed.

(* ================================================================== *)
(** * Part III: the claims *)
(* ================================================================== *)

Ltac nodup_keys :=
  unfold Dict.wf, Dict.keys; simpl;
  repeat (constructor; [simpl; intuition discriminate|]); constructor.

(** C1. On the records (2020-01-01, A), (2020-06-01, B), (2020-12-01, A)
    with today fixed at 2021-01-01, the builder counts the intervals 152
    and 31 for A and 183 for B, so that the day totals are A: 183 and
    B: 183, and the ranking gives both countries rank 1. *)
Theorem C1_sample_history :
  exists ss h,
    stays sample_rows sample_today = Ok ss /\
    create_visit_history sample_rows sample_today = Ok h /\
    intervals_of ss "A" = [152; 31] /\
    intervals_of ss "B" = [183] /\
    country2days h = [("A", 183); ("B", 183)] /\
    create_country2rank (country2days h) = [("A", 1); ("B", 1)].
Proof.
  do 2 eexists.
  split; [vm_compute; reflexivity|].
  split; [vm_compute; reflexivity|].
  repeat split; vm_compute; reflexivity.
Qed.

(** C2. For every table of day totals, [create_country2rank] gives each
    country a rank that is a positive integer, namely one more than the
    number of countries with strictly more days (rank 1 is the most
    days); two countries with equal totals get equal ranks; and when
    [n2] is the next smaller total below [n1], the rank of [n2] is the
    rank of [n1] plus the size of the tie group of [n1], so that the
    group's size minus one ranks are skipped. *)
Theorem C2_competition_ranking (d : Dict.t Z) :
  Dict.wf d ->
  (forall c n, In (c, n) d ->
     exists r, Dict.get (create_country2rank d) c = Some r /\
               1 <= r /\ r = 1 + count_gt n d) /\
  (forall c1 c2 n, In (c1, n) d -> In (c2, n) d ->
     Dict.get (create_country2rank d) c1 = Dict.get (create_country2rank d) c2) /\
  (forall c1 n1 c2 n2,
     In (c1, n1) d -> In (c2, n2) d -> n2 < n1 ->
     (forall c n, In (c, n) d -> ~ (n2 < n < n1)) ->
     exists r1 k,
       Dict.get (create_country2rank d) c1 = Some r1 /\
       k = count_eq n1 d /\ 1 <= k /\
       Dict.get (create_country2rank d) c2 = Some (r1 + k)).
Proof.
  intros Hwf. repeat split.
  - intros c n Hin. exists (1 + count_gt n d).
    split; [now apply rank_formula|].
    pose proof (count_nonneg (fun m => n <? m) d). unfold count_gt. lia.
  - intros c1 c2 n H1 H2.
    now rewrite (rank_formula d c1 n), (rank_formula d c2 n).
  - intros c1 n1 c2 n2 H1 H2 Hlt Hgap.
    exists (1 + count_gt n1 d), (count_eq n1 d).
    split; [now apply rank_formula|].
    split; [reflexivity|].
    split; [eapply count_eq_pos; eassumption|].
    rewrite (rank_formula d c2 n2) by assumption.
    rewrite (count_next d n1 n2) by assumption. f_equal. lia.
Qed.

Lemma C2_competition_ranking_witness :
  Dict.wf sample_totals /\
  (forall c n, In (c, n) sample_totals ->
     exists r, Dict.get (create_country2rank sample_totals) c = Some r /\
               1 <= r /\ r = 1 + count_gt n sample_totals) /\
  (forall c1 c2 n, In (c1, n) sample_totals -> In (c2, n) sample_totals ->
     Dict.get (create_country2rank sample_totals) c1 =
     Dict.get (create_country2rank sample_totals) c2) /\
  (forall c1 n1 c2 n2,
     In (c1, n1) sample_totals -> In (c2, n2) sample_totals -> n2 < n1 ->
     (forall c n, In (c, n) sample_totals -> ~ (n2 < n < n1)) ->
     exists r1 k,
       Dict.get (create_country2rank sample_totals) c1 = Some r1 /\
       k = count_eq n1 sample_totals /\ 1 <= k /\
       Dict.get (create_country2rank sample_totals) c2 = Some (r1 + k)).
Proof.
  assert (W : Dict.wf sample_totals) by (unfold sample_totals; nodup_keys).
  split; [exact W|].
  exact (C2_competition_ranking sample_totals W).
Defined.

(** C4. Whenever the constructor returns, the sum of all day totals is
    exactly days_home + days_abroad, where days_home is the total looked
    up under the home code (0 if absent) and days_abroad is the sum of
    the totals of all other countries; this holds for the totals the
    builder returned and for the attribute [country2days]. *)
Theorem C4_home_abroad_split (cfg : Config) (df : DataFrame) (today : Date.t)
    (t : TravelDayCounter) :
  __init__ cfg df today = Ok t ->
  exists h,
    create_visit_history df today = Ok h /\
    self_days_home t = get_or (country2days h) (home_code cfg) 0 /\
    self_days_abroad t = sum_abroad (country2days h) (home_code cfg) /\
    Py.sum (Dict.values (country2days h)) = self_days_home t + self_days_abroad t /\
    Py.sum (Dict.values (self_country2days t)) = self_days_home t + self_days_abroad t.
Proof.
  intros H. apply init_Ok_inv in H.
  destruct H as (h & c2p & rp & Hh & _ & _ & ->). exists h. simpl.
  destruct (lookup_keeps_sums (country2days h) (home_code cfg)) as [E1 E2].
  simpl in E1, E2. rewrite E1, E2.
  apply create_visit_history_Ok in Hh as Hss. destruct Hss as (ss & _ & ->).
  repeat split; try assumption; apply sum_home_abroad, built_days_wf.
Qed.

Lemma C4_home_abroad_split_witness :
  exists t,
    __init__ config_home_B sample_rows sample_today = Ok t /\
    exists h,
      create_visit_history sample_rows sample_today = Ok h /\
      self_days_home t = get_or (country2days h) (home_code config_home_B) 0 /\
      self_days_abroad t = sum_abroad (country2days h) (home_code config_home_B) /\
      Py.sum (Dict.values (country2days h)) = self_days_home t + self_days_abroad t /\
      Py.sum (Dict.values (self_country2days t)) = self_days_home t + self_days_abroad t.
Proof.
  eexists. split; [vm_compute; reflexivity|].
  apply (C4_home_abroad_split config_home_B sample_rows sample_today).
  vm_compute. reflexivity.
Defined.

(** C8. When the home code occurs nowhere in the table, the constructor
    yields days_home = 0 and days_abroad equal to the sum of all day
    totals of the visited countries. *)
Theorem C8_unknown_home (cfg : Config) (df : DataFrame) (today : Date.t)
    (t : TravelDayCounter) :
  __init__ cfg df today = Ok t ->
  ~ In (home_code cfg) (map ENTERED df) ->
  self_days_home t = 0 /\
  exists h, create_visit_history df today = Ok h /\
            self_days_abroad t = Py.sum (Dict.values (country2days h)).
Proof.
  intros H Hhome. apply init_Ok_inv in H.
  destruct H as (h & c2p & rp & Hh & _ & _ & ->). simpl.
  apply create_visit_history_Ok in Hh as Hss. destruct Hss as (ss & Hss & ->).
  assert (E : Dict.get (country2days (built ss)) (home_code cfg) = None).
  { apply get_None_iff. rewrite built_keys, (stays_countries _ _ _ Hss).
    exact Hhome. }
  assert (E0 : get_or (country2days (built ss)) (home_code cfg) 0 = 0).
  { unfold get_or. now rewrite E. }
  split; [exact E0|].
  exists (built ss). split; [exact Hh|].
  destruct (lookup_keeps_sums (country2days (built ss)) (home_code cfg)) as [E1 _].
  simpl in E1. rewrite E1.
  rewrite (sum_home_abroad _ (home_code cfg) (built_days_wf ss)), E0. lia.
Qed.

Lemma C8_unknown_home_witness :
  exists t,
    __init__ config_home_C sample_rows sample_today = Ok t /\
    ~ In (home_code config_home_C) (map ENTERED sample_rows) /\
    self_days_home t = 0 /\
    exists h, create_visit_history sample_rows sample_today = Ok h /\
              self_days_abroad t = Py.sum (Dict.values (country2days h)).
Proof.
  assert (N : ~ In (home_code config_home_C) (map ENTERED sample_rows)).
  { simpl. intuition discriminate. }
  eexists. split; [vm_compute; reflexivity|].
  split; [exact N|].
  apply (C8_unknown_home config_home_C sample_rows sample_today); [|exact N].
  vm_compute. reflexivity.
Defined.

(** C3 (as the code has it). Whenever the builder returns day totals
    whose sum is not zero, the percent table has one entry per country of
    the day totals, in the same order, and the entry of a country is the
    text [str(round((days / total) * 100, 1)) + '%'], a formatted
    percentage and not a numeric ratio; before rounding these percentages
    add up to 100, the ratios [days / total] to 1. *)
Theorem C3_percent_table (rows : DataFrame) (today : Date.t) (h : history) :
  create_visit_history rows today = Ok h ->
  Py.sum (Dict.values (country2days h)) <> 0 ->
  let d := country2days h in
  let total := Py.sum (Dict.values d) in
  exists tbl,
    create_country2percent d = Ok tbl /\
    tbl = map (percent_entry total) d /\
    (forall c, Dict.get tbl c =
               option_map (fun n => FloatText (FRound (FMul (FDiv n total) 100) 1) "%")
                          (Dict.get d c)) /\
    (Qsum (map (fun e => unrounded (ft_value (snd e))) tbl) == 100)%Q /\
    (Qsum (map (fun n => inject_Z n / inject_Z total) (Dict.values d)) == 1)%Q.
Proof.
  intros Hh Ht d total.
  apply create_visit_history_Ok in Hh. destruct Hh as (ss & _ & ->).
  assert (Hq : ~ (inject_Z total == 0)%Q).
  { unfold Qeq. simpl. subst total d. lia. }
  exists (map (percent_entry total) d). repeat split.
  - apply create_country2percent_ok; [apply built_days_wf | exact Ht].
  - intros c. apply get_percent_entries.
  - rewrite Qsum_percent by exact Ht. fold total. field. exact Hq.
  - rewrite Qsum_ratios by exact Hq. fold total. field. exact Hq.
Qed.

Lemma C3_percent_table_witness :
  exists h,
    create_visit_history sample_rows sample_today = Ok h /\
    Py.sum (Dict.values (country2days h)) <> 0 /\
    let d := country2days h in
    let total := Py.sum (Dict.values d) in
    exists tbl,
      create_country2percent d = Ok tbl /\
      tbl = map (percent_entry total) d /\
      (forall c, Dict.get tbl c =
                 option_map (fun n => FloatText (FRound (FMul (FDiv n total) 100) 1) "%")
                            (Dict.get d c)) /\
      (Qsum (map (fun e => unrounded (ft_value (snd e))) tbl) == 100)%Q /\
      (Qsum (map (fun n => inject_Z n / inject_Z total) (Dict.values d)) == 1)%Q.
Proof.
  eexists. split; [vm_compute; reflexivity|].
  split; [vm_compute; discriminate|].
  apply (C3_percent_table sample_rows sample_today).
  - vm_compute. reflexivity.
  - vm_compute. discriminate.
Defined.

(** C3, as stated, fails: a table that is not empty can have day totals
    that sum to zero (its only record dated today), and then the
    derivation raises [ZeroDivisionError] instead of producing a table;
    and on the sample table the entry stored for A is the text of the
    percentage round((183/366)*100, 1) followed by '%', not the ratio. *)
Lemma C3_counterexample :
  (exists h,
     create_visit_history same_day_rows sample_today = Ok h /\
     country2days h = [("A", 0)] /\
     create_country2percent (country2days h) = Raise ZeroDivisionError) /\
  (exists h tbl,
     create_visit_history sample_rows sample_today = Ok h /\
     create_country2percent (country2days h) = Ok tbl /\
     Dict.get tbl "A" = Some (FloatText (FRound (FMul (FDiv 183 366) 100) 1) "%")).
Proof.
  split.
  - eexists. split; [vm_compute; reflexivity|]. split; vm_compute; reflexivity.
  - do 2 eexists. split; [vm_compute; reflexivity|].
    split; vm_compute; reflexivity.
Qed.

(** C5 (as the code has it). A table with no records is not rejected:
    the builder returns empty tables, the percent table is built empty
    without any division, the rank table is empty, and the constructor
    goes on to the roll-up with days_home = days_abroad = 0; it fails
    only if the residency date does not parse, and never with
    [ZeroDivisionError]. *)
Theorem C5_empty_input (cfg : Config) (today : Date.t) :
  create_visit_history [] today = Ok empty_history /\
  create_country2percent (country2days empty_history) = Ok Dict.empty /\
  create_country2rank (country2days empty_history) = Dict.empty /\
  __init__ cfg [] today =
    (rp <- day_count (residency_begin cfg) today ;;
     Ok (mkTDC [(home_code cfg, 0)] Dict.empty Dict.empty Dict.empty Dict.empty
               Dict.empty 0 0 (FRound (FDiv 0 365) 1) 0 (FRound (FDiv 0 365) 1) rp)) /\
  __init__ cfg [] today <> Raise ZeroDivisionError.
Proof.
  assert (E : __init__ cfg [] today =
    (rp <- day_count (residency_begin cfg) today ;;
     Ok (mkTDC [(home_code cfg, 0)] Dict.empty Dict.empty Dict.empty Dict.empty
               Dict.empty 0 0 (FRound (FDiv 0 365) 1) 0 (FRound (FDiv 0 365) 1) rp))).
  { unfold __init__. simpl. unfold sum_abroad. simpl.
    rewrite String.eqb_refl. reflexivity. }
  repeat split; try reflexivity; [exact E|].
  rewrite E. unfold day_count.
  destruct (parse_date (residency_begin cfg)) as [[y d]|e] eqn:P; simpl.
  - discriminate.
  - intros [= ->]. apply parse_date_error in P. destruct P; discriminate.
Qed.

(** C5, as stated, fails: on the empty table the constructor returns an
    object with empty tables; nothing rejects the input. *)
Lemma C5_counterexample :
  create_country2percent (@Dict.empty Z) = Ok Dict.empty /\
  __init__ config_home_B [] sample_today =
    Ok (mkTDC [("B", 0)] Dict.empty Dict.empty Dict.empty Dict.empty Dict.empty
              0 0 (FRound (FDiv 0 365) 1) 0 (FRound (FDiv 0 365) 1) 731).
Proof. split; vm_compute; reflexivity. Qed.

(** C6 (as the code has it). The builder has no check on the order of
    the dates: on a table of ASCII dates it fails only on a date that does
    not parse, with the [ValueError] or [OverflowError] of that date;
    when all dates parse it returns, and the length of every interval,
    negative ones included, is among the lengths summed into the total of
    its country. *)
Theorem C6_no_order_check (rows : DataFrame) (today : Date.t) :
  (ascii_dates rows ->
   forall e, create_visit_history rows today = Raise e ->
     (e = ValueError \/ e = OverflowError) /\
     exists r, In r rows /\ parse_date (DATE r) = Raise e) /\
  (all_dates_parse rows ->
   exists ss h,
     stays rows today = Ok ss /\
     create_visit_history rows today = Ok h /\
     forall s, In s ss ->
       In (delta_days s) (intervals_of ss (stay_country s)) /\
       Dict.get (country2days h) (stay_country s) =
         Some (Py.sum (intervals_of ss (stay_country s)))).
Proof.
  split.
  { intros _ e E. split; [eapply create_visit_history_error; eassumption|].
    apply create_visit_history_Raise_iff in E.
    destruct E as (before & r & after & -> & _ & Hr).
    exists r. split; [apply in_or_app; right; now left | exact Hr]. }
  intros Hp. destruct (stays_total rows today Hp) as [ss Hss].
  exists ss, (built ss). split; [exact Hss|].
  split; [rewrite create_visit_history_stays, Hss; reflexivity|].
  intros s Hs. split.
  - unfold intervals_of. apply in_map, filter_In.
    split; [exact Hs | apply String.eqb_refl].
  - rewrite built_days.
    assert (existsb (of_country (stay_country s)) ss = true) as ->; [|reflexivity].
    apply existsb_exists. exists s. split; [exact Hs | apply String.eqb_refl].
Qed.

Lemma C6_no_order_check_witness :
  ascii_dates backwards_rows /\
  all_dates_parse backwards_rows /\
  (forall e, create_visit_history backwards_rows sample_today = Raise e ->
     (e = ValueError \/ e = OverflowError) /\
     exists r, In r backwards_rows /\ parse_date (DATE r) = Raise e) /\
  exists ss h,
    stays backwards_rows sample_today = Ok ss /\
    create_visit_history backwards_rows sample_today = Ok h /\
    forall s, In s ss ->
      In (delta_days s) (intervals_of ss (stay_country s)) /\
      Dict.get (country2days h) (stay_country s) =
        Some (Py.sum (intervals_of ss (stay_country s))).
Proof.
  assert (A : ascii_dates backwards_rows) by (repeat constructor).
  assert (P : all_dates_parse backwards_rows).
  { repeat constructor; eexists; vm_compute; reflexivity. }
  split; [exact A|]. split; [exact P|]. split.
  - exact (proj1 (C6_no_order_check backwards_rows sample_today) A).
  - exact (proj2 (C6_no_order_check backwards_rows sample_today) P).
Defined.

(** C6, as stated, fails: on a table whose second record is dated before
    the first, the builder returns normally and the total of A is the
    negative number -152. *)
Lemma C6_counterexample :
  exists h,
    stays backwards_rows sample_today = Ok backwards_stays /\
    intervals_of backwards_stays "A" = [-152] /\
    create_visit_history backwards_rows sample_today = Ok h /\
    country2days h = [("A", -152); ("B", 366)].
Proof.
  eexists. split; [vm_compute; reflexivity|]. split; [vm_compute; reflexivity|].
  split; vm_compute; reflexivity.
Qed.

(** C7. For every record whose entry and departure dates lie in
    different calendar years, the two year keys differ, the record's
    country is in the list of both years, each list holds it at most once
    (no list has a repeated entry), and the country's day total is the
    sum over the other records of that country plus the length of this
    interval once. *)
Theorem C7_year_boundary (rows : DataFrame) (today : Date.t)
    (ss1 ss2 : list stay) (s : stay) :
  Date.valid today ->
  stays rows today = Ok (ss1 ++ s :: ss2) ->
  Date.year (entry_date s) <> Date.year (departure_date s) ->
  exists h,
    create_visit_history rows today = Ok h /\
    entry_y s <> depart_y s /\
    In (stay_country s) (year_list (visityear2countries h) (entry_y s)) /\
    In (stay_country s) (year_list (visityear2countries h) (depart_y s)) /\
    NoDup (year_list (visityear2countries h) (entry_y s)) /\
    NoDup (year_list (visityear2countries h) (depart_y s)) /\
    Dict.get (country2days h) (stay_country s) =
      Some (Py.sum (intervals_of ss1 (stay_country s)) + delta_days s +
            Py.sum (intervals_of ss2 (stay_country s))).
Proof.
  intros Ht Hss Hy. exists (built (ss1 ++ s :: ss2)).
  assert (Hin : In s (ss1 ++ s :: ss2)) by (apply in_or_app; right; now left).
  split; [rewrite create_visit_history_stays, Hss; reflexivity|].
  split.
  - intros E. pose proof (stays_ok _ _ _ Ht Hss) as Hok.
    rewrite Forall_forall in Hok. destruct (Hok s Hin) as (_ & _ & H1 & H2).
    rewrite E in H1. rewrite H1 in H2. inversion H2. contradiction.
  - destruct (built_years _ _ Hin) as [H1 H2].
    repeat split; try assumption; try apply built_years_NoDup.
    rewrite built_days.
    assert (existsb (of_country (stay_country s)) (ss1 ++ s :: ss2) = true) as ->.
    { apply existsb_exists. exists s. split; [exact Hin | apply String.eqb_refl]. }
    f_equal. unfold intervals_of. rewrite filter_app. simpl.
    unfold of_country at 2. rewrite String.eqb_refl.
    rewrite map_app, sum_app. simpl. rewrite sum_cons. lia.
Qed.

Lemma C7_year_boundary_witness :
  let s := mkStay "A" "2020" (Date.mk 2020 12 1) "2021" (Date.mk 2021 1 1) in
  let ss1 := [mkStay "A" "2020" (Date.mk 2020 1 1) "2020" (Date.mk 2020 6 1);
              mkStay "B" "2020" (Date.mk 2020 6 1) "2020" (Date.mk 2020 12 1)] in
  Date.valid sample_today /\
  stays sample_rows sample_today = Ok (ss1 ++ s :: []) /\
  Date.year (entry_date s) <> Date.year (departure_date s) /\
  exists h,
    create_visit_history sample_rows sample_today = Ok h /\
    entry_y s <> depart_y s /\
    In (stay_country s) (year_list (visityear2countries h) (entry_y s)) /\
    In (stay_country s) (year_list (visityear2countries h) (depart_y s)) /\
    NoDup (year_list (visityear2countries h) (entry_y s)) /\
    NoDup (year_list (visityear2countries h) (depart_y s)) /\
    Dict.get (country2days h) (stay_country s) =
      Some (Py.sum (intervals_of ss1 (stay_country s)) + delta_days s +
            Py.sum (intervals_of [] (stay_country s))).
Proof.
  intros s ss1.
  assert (V : Date.valid sample_today) by reflexivity.
  assert (E : stays sample_rows sample_today = Ok (ss1 ++ s :: []))
    by (vm_compute; reflexivity).
  assert (Y : Date.year (entry_date s) <> Date.year (departure_date s))
    by (simpl; lia).
  split; [exact V|]. split; [exact E|]. split; [exact Y|].
  exact (C7_year_boundary sample_rows sample_today ss1 [] s V E Y).
Defined.

(** C9, on a concrete run: with home code "C", which the sample table
    never enters, the day totals that the object holds after [__init__]
    are not the ones the builder returned: the look-up of the home code
    has added the entry C: 0.  The number of visited countries, the
    percent table and the rank table were computed before and have no
    entry for C, so that looking C up in the percent table raises
    [KeyError]. *)
Theorem C9_home_lookup_adds_entry :
  exists h t,
    create_visit_history sample_rows sample_today = Ok h /\
    __init__ config_home_C sample_rows sample_today = Ok t /\
    country2days h = [("A", 183); ("B", 183)] /\
    self_country2days t = [("A", 183); ("B", 183); ("C", 0)] /\
    self_country2days t <> country2days h /\
    self_num_visited_countries t = 2 /\
    Dict.len (self_country2days t) = 3 /\
    Dict.getitem (self_country2percent t) "C" = Raise KeyError /\
    Dict.getitem (self_country2rank t) "C" = Raise KeyError.
Proof.
  do 2 eexists.
  split; [vm_compute; reflexivity|].
  split; [vm_compute; reflexivity|].
  repeat split; try (vm_compute; reflexivity).
  vm_compute. discriminate.
Qed.

(** C10 (as the code has it). For every table sorted ascending by date
    whose last date is not after today, the builder returns, and for
    every country in the result the first visit is not after the last
    visit, every interval counted for the country is non-negative, and
    the country's day total is the sum of these intervals. *)
Theorem C10_sorted_input (rows : DataFrame) (today : Date.t) (ss : list stay) :
  Date.valid today ->
  stays rows today = Ok ss ->
  ascending (map entry_date ss ++ [today]) ->
  exists h,
    create_visit_history rows today = Ok h /\
    forall c, In c (Dict.keys (country2days h)) ->
      exists f l,
        Dict.get (country2firstvisit h) c = Some f /\
        Dict.get (country2lastvisit h) c = Some l /\
        Date.le f l /\
        Forall (fun n => 0 <= n) (intervals_of ss c) /\
        Dict.get (country2days h) c = Some (Py.sum (intervals_of ss c)) /\
        0 <= Py.sum (intervals_of ss c).
Proof.
  intros Ht Hss Hasc. exists (built ss).
  split; [rewrite create_visit_history_stays, Hss; reflexivity|].
  intros c Hc. apply built_keys in Hc.
  pose proof (ascending_stays ss today (stays_chained _ _ _ Hss) Hasc) as Hle.
  pose proof (intervals_nonneg ss c (stays_ok _ _ _ Ht Hss) Hle) as Hnn.
  destruct (find_of_country ss c Hc) as [s1 F1].
  assert (Hc' : In c (map stay_country (rev ss))).
  { rewrite map_rev. now apply in_rev in Hc. }
  destruct (find_of_country (rev ss) c Hc') as [s2 F2].
  exists (entry_date s1), (departure_date s2).
  rewrite built_first, built_last, F1, F2, built_days.
  apply existsb_of_country in Hc. rewrite Hc.
  repeat split; try assumption.
  - eapply first_le_last; eassumption.
  - now apply sum_nonneg.
Qed.

Lemma C10_sorted_input_witness :
  Date.valid sample_today /\
  stays sample_rows sample_today = Ok sample_stays /\
  ascending (map entry_date sample_stays ++ [sample_today]) /\
  exists h,
    create_visit_history sample_rows sample_today = Ok h /\
    forall c, In c (Dict.keys (country2days h)) ->
      exists f l,
        Dict.get (country2firstvisit h) c = Some f /\
        Dict.get (country2lastvisit h) c = Some l /\
        Date.le f l /\
        Forall (fun n => 0 <= n) (intervals_of sample_stays c) /\
        Dict.get (country2days h) c = Some (Py.sum (intervals_of sample_stays c)) /\
        0 <= Py.sum (intervals_of sample_stays c).
Proof.
  assert (V : Date.valid sample_today) by reflexivity.
  assert (E : stays sample_rows sample_today = Ok sample_stays)
    by (vm_compute; reflexivity).
  assert (A : ascending (map entry_date sample_stays ++ [sample_today])).
  { unfold ascending. simpl. repeat constructor. }
  split; [exact V|]. split; [exact E|]. split; [exact A|].
  exact (C10_sorted_input sample_rows sample_today sample_stays V E A).
Defined.

(** C10, as stated, fails: a table with the single record
    (2030-01-01, A) is sorted, yet with today at 2021-01-01 the first
    visit of A (2030-01-01) is after its last visit (2021-01-01) and its
    day total is the negative interval -3287. *)
Lemma C10_counterexample :
  exists ss h,
    stays future_rows sample_today = Ok ss /\
    ascending (map entry_date ss) /\
    create_visit_history future_rows sample_today = Ok h /\
    Dict.get (country2firstvisit h) "A" = Some (Date.mk 2030 1 1) /\
    Dict.get (country2lastvisit h) "A" = Some (Date.mk 2021 1 1) /\
    Date.leb (Date.mk 2030 1 1) (Date.mk 2021 1 1) = false /\
    intervals_of ss "A" = [-3287] /\
    Dict.get (country2days h) "A" = Some (-3287).
Proof.
  do 2 eexists.
  split; [vm_compute; reflexivity|].
  split; [repeat constructor|].
  split; [vm_compute; reflexivity|].
  repeat split; vm_compute; reflexivity.
Qed.

(* ================================================================== *)
(** * Part IV: further properties of the code *)
(* ================================================================== *)

(** ** More on dictionaries *)

Lemma keys_set {V : Type} (d : Dict.t V) (k : string) (v : V) :
  Dict.keys (Dict.set d k v) =
  if Dict.mem d k then Dict.keys d else Dict.keys d ++ [k].
Proof.
  unfold Dict.mem. destruct (Dict.get d k) as [v0|] eqn:E.
  - now apply keys_set_old with v0.
  - rewrite (set_new _ _ _ E). unfold Dict.keys. now rewrite map_app.
Qed.

Lemma mem_set {V : Type} (d : Dict.t V) (k k' : string) (v : V) :
  Dict.mem (Dict.set d k v) k' = (String.eqb k k' || Dict.mem d k')%bool.
Proof.
  unfold Dict.mem. rewrite get_set. now destruct (String.eqb k k').
Qed.

Lemma mem_list_mem {V : Type} (d : Dict.t V) (k : string) :
  Dict.mem d k = list_mem k (Dict.keys d).
Proof.
  destruct (list_mem k (Dict.keys d)) eqn:E.
  - apply mem_true_iff. now apply list_mem_In.
  - destruct (Dict.mem d k) eqn:M; [|reflexivity].
    apply mem_true_iff, list_mem_In in M. congruence.
Qed.

(** Touching a key (a [defaultdict] look-up followed by an assignment)
    appends the key when it is new and keeps the keys otherwise. *)
Lemma keys_touch {V : Type} (dflt : V) (d : Dict.t V) (k : string) (v : V) :
  Dict.keys (Dict.set (snd (Dict.getitem_default dflt d k)) k v) =
  if Dict.mem d k then Dict.keys d else Dict.keys d ++ [k].
Proof.
  unfold Dict.getitem_default, Dict.mem.
  destruct (Dict.get d k) as [v0|] eqn:E; simpl.
  - now apply keys_set_old with v0.
  - rewrite keys_set, mem_set, String.eqb_refl. simpl.
    rewrite (set_new _ _ _ E). unfold Dict.keys. now rewrite map_app.
Qed.

(** Two dictionaries with the same keys in the same order and the same
    value under every key are the same dictionary. *)
Lemma dict_ext {V : Type} (d1 d2 : Dict.t V) :
  Dict.wf d1 -> Dict.keys d1 = Dict.keys d2 ->
  (forall k, In k (Dict.keys d1) -> Dict.get d1 k = Dict.get d2 k) ->
  d1 = d2.
Proof.
  unfold Dict.wf, Dict.keys. revert d2.
  induction d1 as [|[k v] d1 IH]; intros [|[k2 v2] d2] Hnd Hk Hg;
    simpl in *; try discriminate; [reflexivity|].
  injection Hk as <- Hk. inversion Hnd as [|? ? Hnot Hnd']; subst.
  pose proof (Hg k (or_introl eq_refl)) as H0.
  rewrite String.eqb_refl in H0. injection H0 as <-.
  f_equal. apply IH; [exact Hnd' | exact Hk |].
  intros k' Hin. specialize (Hg k' (or_intror Hin)).
  destruct (String.eqb_spec k k') as [->|]; [contradiction | exact Hg].
Qed.

(** ** [distinct] *)

Lemma distinct_snoc (l : list string) (c : string) :
  distinct (l ++ [c]) =
  if list_mem c (distinct l) then distinct l else distinct l ++ [c].
Proof. unfold distinct. now rewrite fold_left_app. Qed.

Lemma distinct_In (l : list string) (c : string) :
  In c (distinct l) <-> In c l.
Proof.
  revert c. induction l as [|x l IH] using rev_ind; intros c; [reflexivity|].
  rewrite distinct_snoc, in_app_iff. simpl.
  destruct (list_mem x (distinct l)) eqn:E.
  - apply list_mem_In, IH in E. rewrite IH.
    split; [tauto|]. intros [H|[<-|[]]]; assumption.
  - rewrite in_app_iff, IH. simpl. tauto.
Qed.

Lemma distinct_NoDup (l : list string) : NoDup (distinct l).
Proof.
  induction l as [|x l IH] using rev_ind; [constructor|].
  rewrite distinct_snoc. destruct (list_mem x (distinct l)) eqn:E; [exact IH|].
  apply NoDup_app; [exact IH | repeat constructor; simpl; tauto|].
  intros y Hy [<-|[]]. apply list_mem_In in Hy. congruence.
Qed.

(** ** The builder: when it returns, and the keys of its tables *)

Lemma stays_Ok_parse (rows : DataFrame) (today : Date.t) (ss : list stay) :
  stays rows today = Ok ss -> all_dates_parse rows.
Proof.
  unfold all_dates_parse. revert ss.
  induction rows as [|r rest IH]; intros ss H; [constructor|].
  apply stays_head in H. destruct H as (s & ss' & _ & _ & Hp & Hrest & _).
  constructor; [eauto | eapply IH; eassumption].
Qed.

Lemma created_iff_parse (rows : DataFrame) (today : Date.t) :
  all_dates_parse rows <-> exists h, create_visit_history rows today = Ok h.
Proof.
  split.
  - intros Hp. destruct (stays_total rows today Hp) as [ss Hss].
    exists (built ss). now rewrite create_visit_history_stays, Hss.
  - intros [h Hh]. apply create_visit_history_Ok in Hh.
    destruct Hh as (ss & Hss & _). eapply stays_Ok_parse; eassumption.
Qed.

(** X1. On a table of ASCII dates the builder returns exactly when every
    date parses.  Otherwise it raises the exception of the first date, in
    row order, that does not parse, which is a [ValueError] or, when a
    number of the date does not fit the arguments of [date], an
    [OverflowError]. *)
Theorem builder_returns_iff (rows : DataFrame) (today : Date.t) :
  ascii_dates rows ->
  (all_dates_parse rows <-> exists h, create_visit_history rows today = Ok h) /\
  (forall e, create_visit_history rows today = Raise e <->
     exists before r after,
       rows = before ++ r :: after /\ all_dates_parse before /\
       parse_date (DATE r) = Raise e) /\
  (forall e, create_visit_history rows today = Raise e ->
             e = ValueError \/ e = OverflowError).
Proof.
  intros _. split; [apply created_iff_parse|]. split.
  - intros e. apply create_visit_history_Raise_iff.
  - intros e E. apply create_visit_history_Raise_iff in E.
    destruct E as (before & r & after & _ & _ & Hr).
    eapply parse_date_error; eassumption.
Qed.

(** On [overflow_rows] the second date is the first that does not parse:
    the builder raises its [OverflowError], not the [ValueError] of the
    third. *)
Lemma builder_returns_iff_witness :
  ascii_dates overflow_rows /\
  create_visit_history overflow_rows sample_today = Raise OverflowError.
Proof.
  assert (A : ascii_dates overflow_rows) by (repeat constructor).
  split; [exact A|].
  apply (proj1 (proj2 (builder_returns_iff overflow_rows sample_today A))).
  exists [mkRow "2020-01-01" "A"], (mkRow "2147483648-01-01" "B"),
         [mkRow "2020-xx-01" "A"].
  split; [reflexivity|]. split; [|reflexivity].
  repeat constructor. eexists. vm_compute. reflexivity.
Defined.

Lemma built_keys_distinct (ss : list stay) :
  Dict.keys (country2days (built ss)) = distinct (map stay_country ss) /\
  Dict.keys (country2firstvisit (built ss)) = distinct (map stay_country ss) /\
  Dict.keys (country2lastvisit (built ss)) = distinct (map stay_country ss).
Proof.
  induction ss as [|s ss (IH1 & IH2 & IH3)] using rev_ind; [repeat split|].
  rewrite built_snoc, map_app. cbn [map]. rewrite distinct_snoc. unfold visit_stay.
  rewrite country2days_visit, country2firstvisit_visit, country2lastvisit_visit.
  rewrite keys_touch, keys_set, !mem_list_mem, IH1, IH3.
  repeat split.
  destruct (list_mem (stay_country s) (Dict.keys (country2firstvisit (built ss))))
    eqn:E; rewrite IH2 in E; rewrite E; [exact IH2|].
  rewrite keys_set, mem_list_mem, IH2, E. reflexivity.
Qed.

Lemma created_keys (rows : DataFrame) (today : Date.t) (h : history) :
  create_visit_history rows today = Ok h ->
  Dict.keys (country2days h) = distinct (map ENTERED rows) /\
  Dict.keys (country2firstvisit h) = distinct (map ENTERED rows) /\
  Dict.keys (country2lastvisit h) = distinct (map ENTERED rows) /\
  Dict.wf (country2days h).
Proof.
  intros H. apply create_visit_history_Ok in H. destruct H as (ss & Hss & ->).
  rewrite <- (stays_countries _ _ _ Hss).
  destruct (built_keys_distinct ss) as (H1 & H2 & H3).
  repeat split; try assumption. apply built_days_wf.
Qed.

(** X2. The three tables of the builder have the same keys: the distinct
    countries of the table, in the order in which they first occur. *)
Theorem builder_keys (rows : DataFrame) (today : Date.t) (h : history) :
  create_visit_history rows today = Ok h ->
  Dict.keys (country2days h) = distinct (map ENTERED rows) /\
  Dict.keys (country2firstvisit h) = distinct (map ENTERED rows) /\
  Dict.keys (country2lastvisit h) = distinct (map ENTERED rows) /\
  Dict.wf (country2days h).
Proof.
  intros H. apply create_visit_history_Ok in H. destruct H as (ss & Hss & ->).
  rewrite <- (stays_countries _ _ _ Hss).
  destruct (built_keys_distinct ss) as (H1 & H2 & H3).
  repeat split; try assumption. apply built_days_wf.
Qed.

Lemma builder_keys_witness :
  exists h,
    create_visit_history sample_rows sample_today = Ok h /\
    Dict.keys (country2days h) = distinct (map ENTERED sample_rows) /\
    Dict.keys (country2firstvisit h) = distinct (map ENTERED sample_rows) /\
    Dict.keys (country2lastvisit h) = distinct (map ENTERED sample_rows) /\
    Dict.wf (country2days h).
Proof.
  eexists. split; [vm_compute; reflexivity|].
  apply (builder_keys sample_rows sample_today). vm_compute. reflexivity.
Defined.

(** X3. The first visit of a country is the entry date of the first row
    that enters it; its last visit is the departure date of the last row
    that enters it (the date of the row after it, or today); a country
    that no row enters has neither. *)
Theorem builder_first_last (rows : DataFrame) (today : Date.t)
    (ss : list stay) (h : history) (c : string) :
  stays rows today = Ok ss ->
  create_visit_history rows today = Ok h ->
  Dict.get (country2firstvisit h) c =
    option_map entry_date (find (of_country c) ss) /\
  Dict.get (country2lastvisit h) c =
    option_map departure_date (find (of_country c) (rev ss)).
Proof.
  intros Hss Hh. rewrite create_visit_history_stays, Hss in Hh.
  inversion Hh; subst. split; [apply built_first | apply built_last].
Qed.

Lemma builder_first_last_witness :
  stays sample_rows sample_today = Ok sample_stays /\
  exists h,
    create_visit_history sample_rows sample_today = Ok h /\
    Dict.get (country2firstvisit h) "A" =
      option_map entry_date (find (of_country "A") sample_stays) /\
    Dict.get (country2lastvisit h) "A" =
      option_map departure_date (find (of_country "A") (rev sample_stays)).
Proof.
  assert (E : stays sample_rows sample_today = Ok sample_stays)
    by (vm_compute; reflexivity).
  split; [exact E|]. eexists. split; [vm_compute; reflexivity|].
  apply (builder_first_last sample_rows sample_today sample_stays _ "A" E).
  vm_compute. reflexivity.
Defined.

(** ** The builder: the sum of all day totals *)

Lemma sum_values_set_old (d : Dict.t Z) (k : string) (v0 v : Z) :
  Dict.get d k = Some v0 ->
  Py.sum (Dict.values (Dict.set d k v)) = Py.sum (Dict.values d) - v0 + v.
Proof.
  unfold Dict.values. induction d as [|[k1 v1] d IH]; simpl; [discriminate|].
  destruct (String.eqb_spec k1 k); simpl.
  - intros [= ->]. rewrite !sum_cons. lia.
  - intros H. rewrite !sum_cons, (IH H). lia.
Qed.

Lemma sum_values_touch (d : Dict.t Z) (k : string) (x : Z) :
  Py.sum (Dict.values (Dict.set (snd (Dict.getitem_default 0 d k)) k
                                (get_or d k 0 + x))) =
  Py.sum (Dict.values d) + x.
Proof.
  unfold Dict.getitem_default, get_or.
  destruct (Dict.get d k) as [v0|] eqn:E; simpl.
  - rewrite (sum_values_set_old _ _ v0) by exact E. lia.
  - rewrite (sum_values_set_old _ _ 0) by apply get_set_same.
    rewrite (set_new _ _ _ E). unfold Dict.values.
    rewrite map_app, sum_app. simpl. rewrite sum_cons. change (Py.sum []) with 0.
    lia.
Qed.

Lemma built_total (ss : list stay) :
  Py.sum (Dict.values (country2days (built ss))) = Py.sum (map delta_days ss).
Proof.
  induction ss as [|s ss IH] using rev_ind; [reflexivity|].
  rewrite built_snoc, map_app, sum_app. unfold visit_stay.
  rewrite country2days_visit, sum_values_touch, IH. simpl.
  rewrite sum_cons. change (Py.sum []) with 0. unfold delta_days. lia.
Qed.

(** The intervals of a table follow one another, so their lengths add up
    to the span from the first entry to today. *)
Lemma chained_sum (ss : list stay) (today : Date.t) (s : stay) :
  chained (s :: ss) today ->
  Py.sum (map delta_days (s :: ss)) = Date.sub_days today (entry_date s).
Proof.
  revert s. induction ss as [|s' ss IH]; intros s [Hd Hc]; simpl map.
  - rewrite sum_cons. change (Py.sum []) with 0.
    unfold delta_days. rewrite Hd. lia.
  - rewrite sum_cons. change (delta_days s' :: map delta_days ss)
      with (map delta_days (s' :: ss)).
    rewrite (IH s' Hc). unfold delta_days, Date.sub_days. rewrite Hd. lia.
Qed.

Lemma created_total (r : Row) (rest : DataFrame) (today : Date.t)
    (h : history) (y : string) (d0 : Date.t) :
  parse_date (DATE r) = Ok (y, d0) ->
  create_visit_history (r :: rest) today = Ok h ->
  Py.sum (Dict.values (country2days h)) = Date.sub_days today d0.
Proof.
  intros Hp Hh. apply create_visit_history_Ok in Hh.
  destruct Hh as (ss & Hss & ->).
  pose proof (stays_chained _ _ _ Hss) as Hc.
  apply stays_head in Hss. destruct Hss as (s & ss' & -> & _ & Hp' & _ & _).
  rewrite Hp in Hp'. inversion Hp'; subst.
  rewrite built_total. now apply chained_sum.
Qed.

(** X4. Whatever the order of the rows, the day totals of all countries
    add up to the number of days from the date of the first row to
    today. *)
Theorem builder_total_span (r : Row) (rest : DataFrame) (today : Date.t)
    (h : history) (y : string) (d0 : Date.t) :
  parse_date (DATE r) = Ok (y, d0) ->
  create_visit_history (r :: rest) today = Ok h ->
  Py.sum (Dict.values (country2days h)) = Date.sub_days today d0.
Proof.
  intros Hp Hh. apply create_visit_history_Ok in Hh.
  destruct Hh as (ss & Hss & ->).
  pose proof (stays_chained _ _ _ Hss) as Hc.
  apply stays_head in Hss. destruct Hss as (s & ss' & -> & _ & Hp' & _ & _).
  rewrite Hp in Hp'. inversion Hp'; subst.
  rewrite built_total. now apply chained_sum.
Qed.

Lemma builder_total_span_witness :
  parse_date (DATE (mkRow "2020-06-01" "A")) = Ok ("2020", Date.mk 2020 6 1) /\
  exists h,
    create_visit_history backwards_rows sample_today = Ok h /\
    Py.sum (Dict.values (country2days h)) =
      Date.sub_days sample_today (Date.mk 2020 6 1).
Proof.
  assert (P : parse_date (DATE (mkRow "2020-06-01" "A")) =
              Ok ("2020", Date.mk 2020 6 1)) by reflexivity.
  split; [exact P|]. eexists. split; [vm_compute; reflexivity|].
  apply (builder_total_span (mkRow "2020-06-01" "A")
           [mkRow "2020-01-01" "B"] sample_today _ "2020" _ P).
  vm_compute. reflexivity.
Defined.

(** ** The year index, exactly *)

Lemma year_list_add_year_inv v y0 c0 y c :
  In c (year_list (add_year v y0 c0) y) ->
  In c (year_list v y) \/ (c = c0 /\ y0 = y).
Proof.
  rewrite year_list_add_year.
  destruct (String.eqb_spec y0 y) as [->|]; [|tauto].
  destruct (list_mem c0 (year_list v y)); [tauto|].
  intros H. apply in_app_or in H. destruct H as [H|[<-|[]]]; tauto.
Qed.

Lemma get_add_year v y c y' :
  Dict.get (add_year v y c) y' =
  if String.eqb y y'
  then Some (if list_mem c (year_list v y) then year_list v y
             else year_list v y ++ [c])
  else Dict.get v y'.
Proof.
  unfold add_year, year_list, Dict.getitem_default.
  destruct (Dict.get v y) as [l|] eqn:E.
  - destruct (list_mem c l).
    + destruct (String.eqb_spec y y') as [<-|]; [exact E | reflexivity].
    + apply get_set.
  - simpl. rewrite !get_set. now destruct (String.eqb y y').
Qed.

Lemma add_year_nonempty v y c :
  (forall y' l, Dict.get v y' = Some l -> l <> []) ->
  forall y' l, Dict.get (add_year v y c) y' = Some l -> l <> [].
Proof.
  intros H y' l. rewrite get_add_year.
  destruct (String.eqb y y'); [|apply H].
  destruct (list_mem c (year_list v y)) eqn:E; intros [= <-].
  - apply list_mem_In in E. intros N. rewrite N in E. destruct E.
  - intros N. apply app_eq_nil in N. destruct N as [_ N]. discriminate.
Qed.

Lemma built_years_nonempty (ss : list stay) (y : string) (l : list string) :
  Dict.get (visityear2countries (built ss)) y = Some l -> l <> [].
Proof.
  revert y l. induction ss as [|s ss IH] using rev_ind; intros y l.
  - discriminate.
  - rewrite built_snoc. unfold visit_stay. rewrite visityear2countries_visit.
    now do 2 apply add_year_nonempty.
Qed.

Lemma built_years_iff (ss : list stay) (y c : string) :
  In c (year_list (visityear2countries (built ss)) y) <->
  exists s, In s ss /\ stay_country s = c /\ (entry_y s = y \/ depart_y s = y).
Proof.
  split.
  - induction ss as [|s ss IH] using rev_ind; [intros []|].
    rewrite built_snoc. unfold visit_stay. rewrite visityear2countries_visit.
    intros H. apply year_list_add_year_inv in H.
    destruct H as [H|[-> <-]].
    + apply year_list_add_year_inv in H. destruct H as [H|[-> <-]].
      * destruct (IH H) as (s0 & Hin & Hs0). exists s0.
        split; [apply in_or_app; now left | exact Hs0].
      * exists s. split; [apply in_or_app; right; now left | tauto].
    + exists s. split; [apply in_or_app; right; now left | tauto].
  - intros (s & Hin & <- & [<-|<-]); now apply built_years.
Qed.

(** X5. The year index lists a country under a year text exactly when
    some row entering that country has that text as the year of its
    entry date or of its departure date (so a stay that spans several
    years is listed under its first and last year only); no list repeats
    a country, no key is stored with an empty list, and no key occurs
    twice. *)
Theorem year_index_exact (rows : DataFrame) (today : Date.t)
    (ss : list stay) (h : history) :
  stays rows today = Ok ss ->
  create_visit_history rows today = Ok h ->
  (forall y c,
     In c (year_list (visityear2countries h) y) <->
     exists s, In s ss /\ stay_country s = c /\
               (entry_y s = y \/ depart_y s = y)) /\
  (forall y, NoDup (year_list (visityear2countries h) y)) /\
  (forall y l, Dict.get (visityear2countries h) y = Some l -> l <> []) /\
  Dict.wf (visityear2countries h).
Proof.
  intros Hss Hh. rewrite create_visit_history_stays, Hss in Hh.
  inversion Hh; subst. repeat split.
  - apply built_years_iff.
  - apply built_years_iff.
  - apply built_years_NoDup.
  - apply built_years_nonempty.
  - apply built_years_wf.
Qed.

Lemma year_index_exact_witness :
  stays sample_rows sample_today = Ok sample_stays /\
  exists h,
    create_visit_history sample_rows sample_today = Ok h /\
    (forall y c,
       In c (year_list (visityear2countries h) y) <->
       exists s, In s sample_stays /\ stay_country s = c /\
                 (entry_y s = y \/ depart_y s = y)) /\
    (forall y, NoDup (year_list (visityear2countries h) y)) /\
    (forall y l, Dict.get (visityear2countries h) y = Some l -> l <> []) /\
    Dict.wf (visityear2countries h).
Proof.
  assert (E : stays sample_rows sample_today = Ok sample_stays)
    by (vm_compute; reflexivity).
  split; [exact E|]. eexists. split; [vm_compute; reflexivity|].
  apply (year_index_exact sample_rows sample_today sample_stays _ E).
  vm_compute. reflexivity.
Defined.

(** ** [create_country2percent]: when it fails *)

Lemma percent_loop_nonzero (items : list (string * Z)) (total : Z)
    (acc : Dict.t float_text) :
  total <> 0 -> exists tbl, percent_loop items total acc = Ok tbl.
Proof.
  intros Ht. revert acc. induction items as [|[c n] items IH]; intros acc; simpl.
  - eauto.
  - unfold percent_text, truediv.
    destruct (Z.eqb_spec total 0); [contradiction|]. simpl. apply IH.
Qed.

Lemma percent_Raise_iff (d : Dict.t Z) (e : exn) :
  create_country2percent d = Raise e <->
  e = ZeroDivisionError /\ d <> [] /\ Py.sum (Dict.values d) = 0.
Proof.
  unfold create_country2percent, Dict.items. split.
  - destruct (Z.eq_dec (Py.sum (Dict.values d)) 0) as [E|N].
    + rewrite E. destruct d as [|[c n] d]; simpl; [discriminate|].
      intros [= <-]. repeat split. discriminate.
    + destruct (percent_loop_nonzero d _ Dict.empty N) as [tbl ->].
      discriminate.
  - intros (-> & Hne & ->).
    destruct d as [|[c n] d]; [contradiction | reflexivity].
Qed.

(** X6. The percentage derivation fails exactly when there is at least
    one country and the day totals sum to zero, and then with
    [ZeroDivisionError]; it raises nothing else. *)
Theorem percent_fails_iff (d : Dict.t Z) :
  (create_country2percent d = Raise ZeroDivisionError <->
   d <> [] /\ Py.sum (Dict.values d) = 0) /\
  (forall e, create_country2percent d = Raise e -> e = ZeroDivisionError).
Proof.
  split.
  - rewrite percent_Raise_iff. tauto.
  - intros e E. apply percent_Raise_iff in E. tauto.
Qed.

(** ** [create_country2rank]: the whole table *)

Lemma rank_fold_keys (P : list (string * Z)) :
  NoDup (map fst P) ->
  Dict.keys (country2rank (fold_left rank_step P rank_init)) = map fst P.
Proof.
  induction P as [|[c n] P IH] using rev_ind; intros Hnd; [reflexivity|].
  rewrite fold_left_app, map_app in *. simpl.
  pose proof (NoDup_remove_2 _ _ _ Hnd) as Hc. rewrite app_nil_r in Hc.
  apply NoDup_app_remove_r in Hnd. specialize (IH Hnd).
  assert (M : Dict.mem (country2rank (fold_left rank_step P rank_init)) c = false).
  { rewrite mem_list_mem, IH. destruct (list_mem c (map fst P)) eqn:E; [|reflexivity].
    apply list_mem_In in E. contradiction. }
  set (st := fold_left rank_step P rank_init) in *.
  unfold rank_step.
  destruct (int_lt n (current_max_days st));
    cbn [country2rank]; rewrite keys_set, M, IH; reflexivity.
Qed.

Lemma get_rank_table (d : Dict.t Z) (c : string) (n : Z) :
  Dict.wf d -> In (c, n) d ->
  Dict.get (rank_table d) c = Some (1 + count_gt n d).
Proof.
  intros Hwf Hin. unfold rank_table.
  pose proof (sorted_desc_perm d) as Hp.
  assert (Hnd : NoDup (map fst (sorted_desc d))).
  { eapply Permutation_NoDup; [|exact Hwf]. apply Permutation_map. now symmetry. }
  assert (Hin' : In (c, n) (sorted_desc d))
    by (eapply Permutation_in; [symmetry; exact Hp | exact Hin]).
  revert Hnd Hin'. generalize (sorted_desc d) as L.
  induction L as [|[k v] L IH]; simpl; [tauto|].
  intros Hnd [[= -> ->]|H].
  - now rewrite String.eqb_refl.
  - inversion Hnd as [|? ? Hk Hnd']; subst.
    destruct (String.eqb_spec k c) as [->|]; [|now apply IH].
    exfalso. apply Hk. apply (in_map fst) in H. exact H.
Qed.

Lemma rank_keys (d : Dict.t Z) :
  Dict.wf d -> Dict.keys (create_country2rank d) = map fst (sorted_desc d).
Proof.
  intros Hwf. unfold create_country2rank, Dict.items. apply rank_fold_keys.
  eapply Permutation_NoDup; [|exact Hwf].
  apply Permutation_map. symmetry. apply sorted_desc_perm.
Qed.

(** X7. On day totals with distinct keys the rank table is, entry for
    entry, the list of the countries in descending order of days
    (countries with equal days in their original order), each with one
    more than the number of countries that have strictly more days. *)
Theorem rank_table_correct (d : Dict.t Z) :
  Dict.wf d -> create_country2rank d = rank_table d.
Proof.
  intros Hwf.
  pose proof (sorted_desc_perm d) as Hp.
  assert (Hnd : NoDup (map fst (sorted_desc d))).
  { eapply Permutation_NoDup; [|exact Hwf]. apply Permutation_map. now symmetry. }
  assert (Hk : Dict.keys (create_country2rank d) = map fst (sorted_desc d)).
  { unfold create_country2rank, Dict.items. now apply rank_fold_keys. }
  apply dict_ext.
  - unfold Dict.wf. now rewrite Hk.
  - rewrite Hk. unfold rank_table, Dict.keys. rewrite map_map. reflexivity.
  - intros k Hin. rewrite Hk in Hin. apply in_map_iff in Hin.
    destruct Hin as ([c n] & <- & Hin). simpl.
    assert (Hd : In (c, n) d) by (eapply Permutation_in; eassumption).
    rewrite (rank_formula d c n Hwf Hd), (get_rank_table d c n Hwf Hd).
    reflexivity.
Qed.

Lemma rank_table_correct_witness :
  Dict.wf sample_totals /\ create_country2rank sample_totals = rank_table sample_totals.
Proof.
  assert (W : Dict.wf sample_totals) by (unfold sample_totals; nodup_keys).
  split; [exact W | exact (rank_table_correct sample_totals W)].
Defined.

Lemma count_gt_length (d : list (string * Z)) (c : string) (n : Z) :
  In (c, n) d -> 1 + count_gt n d <= Z.of_nat (List.length d).
Proof.
  unfold count_gt. induction d as [|x d IH]; [intros []|].
  rewrite count_cons. cbn [List.length]. intros [->|H].
  - simpl. rewrite Z.ltb_irrefl.
    assert (count (fun m => n <? m) d <= Z.of_nat (List.length d)).
    { unfold count. pose proof (filter_length_le (fun it : string * Z => n <? snd it) d).
      lia. }
    lia.
  - specialize (IH H). destruct (n <? snd x); lia.
Qed.

Lemma count_gt_antitone (d : list (string * Z)) (n1 n2 : Z) :
  n2 < n1 -> count_gt n1 d + count_eq n1 d <= count_gt n2 d.
Proof.
  intros Hlt. unfold count_gt, count_eq.
  induction d as [|x d IH]; [reflexivity|].
  rewrite !count_cons.
  destruct (Z.ltb_spec n1 (snd x)), (Z.eqb_spec (snd x) n1), (Z.ltb_spec n2 (snd x)); lia.
Qed.

(** X8. Ranks follow the days: of two countries the one with strictly
    more days has the strictly smaller rank, equal ranks mean equal days,
    every rank lies between 1 and the number of countries, and a country
    has rank 1 exactly when no country has more days. *)
Theorem rank_order (d : Dict.t Z) (c1 c2 : string) (n1 n2 : Z) :
  Dict.wf d -> In (c1, n1) d -> In (c2, n2) d ->
  exists r1 r2,
    Dict.get (create_country2rank d) c1 = Some r1 /\
    Dict.get (create_country2rank d) c2 = Some r2 /\
    (n2 < n1 <-> r1 < r2) /\
    (n1 = n2 <-> r1 = r2) /\
    1 <= r1 <= Dict.len d /\
    (r1 = 1 <-> forall c n, In (c, n) d -> n <= n1).
Proof.
  intros Hwf H1 H2.
  exists (1 + count_gt n1 d), (1 + count_gt n2 d).
  split; [now apply rank_formula|]. split; [now apply rank_formula|].
  pose proof (count_eq_pos d c1 n1 H1) as P1.
  pose proof (count_eq_pos d c2 n2 H2) as P2.
  assert (A : n2 < n1 -> count_gt n1 d < count_gt n2 d).
  { intros L. pose proof (count_gt_antitone d n1 n2 L). lia. }
  assert (B : n1 < n2 -> count_gt n2 d < count_gt n1 d).
  { intros L. pose proof (count_gt_antitone d n2 n1 L). lia. }
  split; [|split; [|split]].
  - split; [intros L; specialize (A L); lia|].
    intros L. destruct (Z.lt_trichotomy n1 n2) as [T|[T|T]];
      [specialize (B T); lia | subst; lia | exact T].
  - split; [now intros -> |].
    intros E. destruct (Z.lt_trichotomy n1 n2) as [T|[T|T]];
      [specialize (B T); lia | exact T | specialize (A T); lia].
  - pose proof (count_gt_length d c1 n1 H1).
    pose proof (count_nonneg (fun m => n1 <? m) d). unfold count_gt in *.
    unfold Dict.len. lia.
  - split.
    + intros E c n Hin. destruct (Z.le_gt_cases n n1) as [L|G]; [exact L|].
      pose proof (count_gt_antitone d n n1 G) as M.
      pose proof (count_eq_pos d c n Hin).
      pose proof (count_nonneg (fun m => n <? m) d). unfold count_gt in *. lia.
    + intros Hmax. assert (Z0 : count_gt n1 d = 0); [|lia].
      unfold count_gt, count.
      rewrite (existsb_false_filter (fun it : string * Z => n1 <? snd it) d);
        [reflexivity|].
      destruct (existsb (fun it : string * Z => n1 <? snd it) d) eqn:E; [|reflexivity].
      apply existsb_exists in E. destruct E as ([c n] & Hin & L).
      simpl in L. apply Z.ltb_lt in L. specialize (Hmax c n Hin). lia.
Qed.

Lemma rank_order_witness :
  Dict.wf sample_totals /\ In ("b", 7) sample_totals /\ In ("a", 5) sample_totals /\
  exists r1 r2,
    Dict.get (create_country2rank sample_totals) "b" = Some r1 /\
    Dict.get (create_country2rank sample_totals) "a" = Some r2 /\
    (5 < 7 <-> r1 < r2) /\
    (7 = 5 <-> r1 = r2) /\
    1 <= r1 <= Dict.len sample_totals /\
    (r1 = 1 <-> forall c n, In (c, n) sample_totals -> n <= 7).
Proof.
  assert (W : Dict.wf sample_totals) by (unfold sample_totals; nodup_keys).
  assert (I1 : In ("b", 7) sample_totals) by (simpl; tauto).
  assert (I2 : In ("a", 5) sample_totals) by (simpl; tauto).
  split; [exact W|]. split; [exact I1|]. split; [exact I2|].
  exact (rank_order sample_totals "b" "a" 7 5 W I1 I2).
Defined.

(** ** The sort of the ranking *)

Lemma filter_insert_desc (n : Z) (x : string * Z) (l : list (string * Z)) :
  filter (fun it => snd it =? n) (insert_desc x l) =
  filter (fun it => snd it =? n) (x :: l).
Proof.
  induction l as [|y l IH]; [reflexivity|].
  simpl insert_desc. destruct (Z.ltb_spec (snd x) (snd y)); [|reflexivity].
  cbn [filter] in *. rewrite IH.
  destruct (Z.eqb_spec (snd x) n), (Z.eqb_spec (snd y) n); try reflexivity. lia.
Qed.

(** X9. The sort used for the ranking returns the same items, in
    descending order of days, and is stable: the items with a given
    number of days keep the order they had. *)
Theorem sorted_desc_stable_sort (l : list (string * Z)) :
  Permutation (sorted_desc l) l /\
  descending (sorted_desc l) /\
  forall n, filter (fun it => snd it =? n) (sorted_desc l) =
            filter (fun it => snd it =? n) l.
Proof.
  split; [apply sorted_desc_perm|]. split; [apply sorted_desc_descending|].
  intros n. induction l as [|x l IH]; [reflexivity|].
  simpl sorted_desc. rewrite filter_insert_desc. cbn [filter]. now rewrite IH.
Qed.

(** ** [shortened_table] *)

Lemma sum_threshold_split (th : Z) (d : Dict.t Z) :
  Py.sum (Dict.values (filter (fun it : string * Z => th <=? snd it) d)) +
  Py.sum (filter (fun day => day <? th) (Dict.values d)) =
  Py.sum (Dict.values d).
Proof.
  unfold Dict.values. induction d as [|[c n] d IH]; [reflexivity|].
  cbn [filter map snd]. rewrite sum_cons.
  destruct (Z.leb_spec th n), (Z.ltb_spec n th); try lia;
    cbn [map snd]; rewrite ?sum_cons; lia.
Qed.

Lemma shortened_table_cases (d : Dict.t Z) (threshold : Z) :
  (Py.sum (Dict.values d) = 0 ->
   shortened_table d threshold = Raise ZeroDivisionError) /\
  (Py.sum (Dict.values d) <> 0 ->
   exists rest_days rest_percent,
     shortened_table d threshold =
       Ok (filter (fun it : string * Z => threshold <=? snd it) d,
           rest_days, rest_percent)).
Proof.
  unfold shortened_table, Dict.items, truediv.
  destruct (Z.eqb_spec (Py.sum (Dict.values d)) 0) as [E|N]; simpl.
  - split; [reflexivity | contradiction].
  - split; [contradiction | eauto].
Qed.

(** X10. The shortened table fails, with [ZeroDivisionError], exactly
    when the day totals sum to zero (an empty table included).  Otherwise
    it keeps exactly the countries with at least [threshold] days, in
    their order, [rest_days] is the sum of the other totals, so that the
    kept totals and [rest_days] add up to the sum of all totals, and the
    rest percentage is computed from [rest_days] over that sum. *)
Theorem shortened_table_spec (d : Dict.t Z) (threshold : Z) :
  let total := Py.sum (Dict.values d) in
  (shortened_table d threshold = Raise ZeroDivisionError <-> total = 0) /\
  (total <> 0 ->
   exists kept rest_days,
     shortened_table d threshold =
       Ok (kept, rest_days, FloatText (FRound (FMul (FDiv rest_days total) 100) 1) "%") /\
     (forall c n, In (c, n) kept <-> In (c, n) d /\ threshold <= n) /\
     (exists dropped, Permutation d (kept ++ dropped) /\
                      Forall (fun it => snd it < threshold) dropped /\
                      rest_days = Py.sum (Dict.values dropped)) /\
     Py.sum (Dict.values kept) + rest_days = total).
Proof.
  intros total. unfold shortened_table, Dict.items, truediv. fold total.
  destruct (Z.eqb_spec total 0) as [E|N]; simpl.
  - split; [tauto | contradiction].
  - split; [split; [discriminate | contradiction]|].
    intros _. do 2 eexists. split; [reflexivity|]. split; [|split].
    + intros c n. rewrite filter_In. simpl. rewrite Z.leb_le. reflexivity.
    + exists (filter (fun it : string * Z => snd it <? threshold) d).
      split; [|split].
      * clear. induction d as [|[c n] d IH]; [constructor|].
        cbn [filter snd]. destruct (Z.leb_spec threshold n), (Z.ltb_spec n threshold);
          try lia.
        -- simpl. now constructor.
        -- rewrite <- Permutation_middle. now constructor.
      * apply Forall_forall. intros it Hit. apply filter_In in Hit.
        now apply Z.ltb_lt.
      * unfold Dict.values. clear. induction d as [|[c n] d IH]; [reflexivity|].
        cbn [filter map snd]. destruct (n <? threshold); cbn [map snd];
          rewrite ?sum_cons, IH; reflexivity.
    + apply sum_threshold_split.
Qed.

(** ** [day_count] *)

Lemma toordinal_inj (x y : Date.t) :
  Date.valid x -> Date.valid y -> Date.toordinal x = Date.toordinal y -> x = y.
Proof.
  intros Hx Hy E.
  pose proof (toordinal_lt x y Hx Hy) as L1.
  pose proof (toordinal_lt y x Hy Hx) as L2.
  destruct x as [a b c], y as [a' b' c']. simpl in *.
  assert (a = a' /\ b = b' /\ c = c') as (-> & -> & ->) by lia.
  reflexivity.
Qed.

(** X11. On an ASCII start date [day_count] fails exactly when the date
    does not parse, with the exception of the parse: a [ValueError], or
    an [OverflowError], the latter exactly when the text is three numbers
    one of which does not fit the arguments of [date].  When it returns,
    the result is the number of days from the start date to today, which
    is non-negative exactly when the start date is not after today and
    zero exactly when it is today. *)
Theorem day_count_spec (start_date : string) (today : Date.t) :
  Date.valid today ->
  (Py.isascii start_date = true ->
   (forall e, day_count start_date today = Raise e <->
              parse_date start_date = Raise e) /\
   (forall e, day_count start_date today = Raise e ->
              e = ValueError \/ e = OverflowError) /\
   (day_count start_date today = Raise OverflowError <->
      exists a b c y m d,
        Py.split "-" start_date = [a; b; c] /\
        Py.int a = Ok y /\ Py.int b = Ok m /\ Py.int c = Ok d /\
        (Date.fits_c_int y && Date.fits_c_int m && Date.fits_c_int d)%bool
        = false)) /\
  (forall n, day_count start_date today = Ok n ->
     exists y d,
       parse_date start_date = Ok (y, d) /\
       n = Date.toordinal today - Date.toordinal d /\
       (0 <= n <-> Date.le d today) /\
       (n = 0 <-> d = today)).
Proof.
  intros Ht.
  assert (R : forall e, day_count start_date today = Raise e <->
                        parse_date start_date = Raise e).
  { intros e. unfold day_count.
    destruct (parse_date start_date) as [[y d]|e0]; simpl;
      split; intros H; try discriminate H; injection H as ->; reflexivity. }
  split.
  - intros _. split; [exact R|]. split.
    + intros e E. apply R in E. eapply parse_date_error; eassumption.
    + rewrite R. apply parse_date_overflow_iff.
  - unfold day_count.
    destruct (parse_date start_date) as [[y d]|e0] eqn:P; simpl;
      [|intros n H; discriminate H].
    intros n [= <-]. exists y, d. apply parse_date_Ok in P as [Hv _].
    split; [reflexivity|]. split; [reflexivity|].
    unfold Date.sub_days. split.
    + rewrite (date_le_iff d today Hv Ht). lia.
    + split; [|intros ->; lia].
      intros E. apply toordinal_inj; [assumption..|lia].
Qed.

Lemma day_count_spec_witness :
  Date.valid sample_today /\
  Py.isascii "99999999999-01-01" = true /\
  day_count "99999999999-01-01" sample_today = Raise OverflowError /\
  (forall n, day_count "2019-01-01" sample_today = Ok n ->
     exists y d,
       parse_date "2019-01-01" = Ok (y, d) /\
       n = Date.toordinal sample_today - Date.toordinal d /\
       (0 <= n <-> Date.le d sample_today) /\
       (n = 0 <-> d = sample_today)).
Proof.
  assert (V : Date.valid sample_today) by reflexivity.
  assert (A : Py.isascii "99999999999-01-01" = true) by reflexivity.
  split; [exact V|]. split; [exact A|]. split.
  - apply (proj2 (proj2 (proj1 (day_count_spec "99999999999-01-01"
                                  sample_today V) A))).
    exists "99999999999", "01", "01", 99999999999, 1, 1.
    repeat split; reflexivity.
  - exact (proj2 (day_count_spec "2019-01-01" sample_today V)).
Defined.

(** ** The constructor: when it returns, and what its tables hold *)

Lemma init_cases (cfg : Config) (df : DataFrame) (today : Date.t) :
  match __init__ cfg df today with
  | Ok _ =>
      exists h c2p rp,
        create_visit_history df today = Ok h /\
        create_country2percent (country2days h) = Ok c2p /\
        day_count (residency_begin cfg) today = Ok rp
  | Raise e =>
      create_visit_history df today = Raise e \/
      (exists h, create_visit_history df today = Ok h /\
                 create_country2percent (country2days h) = Raise e) \/
      (exists h c2p, create_visit_history df today = Ok h /\
                     create_country2percent (country2days h) = Ok c2p /\
                     day_count (residency_begin cfg) today = Raise e)
  end.
Proof.
  unfold __init__.
  destruct (create_visit_history df today) as [h|e]; simpl; [|now left].
  destruct (create_country2percent (country2days h)) as [c2p|e] eqn:P; simpl;
    [|right; left; eauto].
  destruct (Dict.getitem_default 0 (country2days h) (home_code cfg)) as [dh c2d].
  unfold truediv. simpl.
  destruct (day_count (residency_begin cfg) today) as [rp|e]; simpl.
  - exists h, c2p, rp. auto.
  - right. right. exists h, c2p. auto.
Qed.

(** The day totals of a table that is not empty are not empty. *)
Lemma built_nonempty (rows : DataFrame) (today : Date.t) (h : history) :
  create_visit_history rows today = Ok h ->
  (country2days h = [] <-> rows = []).
Proof.
  intros H. pose proof (created_keys _ _ _ H) as (K & _).
  split.
  - intros E. rewrite E in K. simpl in K.
    destruct rows as [|r rest]; [reflexivity|]. exfalso.
    assert (In (ENTERED r) (distinct (map ENTERED (r :: rest))))
      by (apply distinct_In; now left).
    rewrite <- K in H0. destruct H0.
  - intros ->. inversion H. reflexivity.
Qed.

(** X12. On ASCII dates, in the table and for the residency: with the
    dates of the table parsing, the constructor raises
    [ZeroDivisionError] exactly when the table is not empty and the date
    of its first row is today; it returns exactly when, moreover, that is
    not the case and the residency date parses.  Every other failure is
    the [ValueError] or [OverflowError] of a date that does not parse:
    the one the builder raises, or, when the first two steps pass, the
    one the residency date raises. *)
Theorem init_returns_iff (cfg : Config) (df : DataFrame) (today : Date.t) :
  Date.valid today ->
  ascii_dates df -> Py.isascii (residency_begin cfg) = true ->
  let first_is_today :=
    exists r rest y, df = r :: rest /\ parse_date (DATE r) = Ok (y, today) in
  (__init__ cfg df today = Raise ZeroDivisionError <->
   all_dates_parse df /\ first_is_today) /\
  ((exists t, __init__ cfg df today = Ok t) <->
   all_dates_parse df /\ ~ first_is_today /\
   exists p, parse_date (residency_begin cfg) = Ok p) /\
  (forall e, __init__ cfg df today = Raise e ->
             e = ValueError \/ e = OverflowError \/ e = ZeroDivisionError) /\
  (forall e, e <> ZeroDivisionError ->
     (__init__ cfg df today = Raise e <->
      create_visit_history df today = Raise e \/
      (all_dates_parse df /\ ~ first_is_today /\
       parse_date (residency_begin cfg) = Raise e))).
Proof.
  intros Ht _ _ first_is_today.
  pose proof (created_iff_parse df today) as Hret.
  (* what the percentage step does once the builder has returned *)
  assert (Hpct : forall h, create_visit_history df today = Ok h ->
            (create_country2percent (country2days h) = Raise ZeroDivisionError <->
             first_is_today) /\
            (forall e, create_country2percent (country2days h) = Raise e ->
                       e = ZeroDivisionError)).
  { intros h Hh.
    split; [|intros e E; apply percent_Raise_iff in E; tauto].
    rewrite percent_Raise_iff, (built_nonempty _ _ _ Hh).
    assert (forall P : Prop, (ZeroDivisionError = ZeroDivisionError /\ P) <-> P)
      as -> by tauto.
    split.
    - intros [Hne Hsum]. destruct df as [|r rest]; [contradiction|].
      assert (Hp : all_dates_parse (r :: rest)) by (apply Hret; eauto).
      inversion Hp as [|? ? [[y d] Hr] _]; subst.
      rewrite (created_total _ _ _ _ _ _ Hr Hh) in Hsum.
      apply parse_date_Ok in Hr as Hv. destruct Hv as [Hv _].
      assert (d = today) as ->.
      { apply toordinal_inj; [assumption..|]. unfold Date.sub_days in Hsum. lia. }
      exists r, rest, y. auto.
    - intros (r & rest & y & -> & Hr). split; [discriminate|].
      rewrite (created_total _ _ _ _ _ _ Hr Hh).
      unfold Date.sub_days. lia. }
  assert (Hres : forall e, day_count (residency_begin cfg) today = Raise e ->
                           parse_date (residency_begin cfg) = Raise e).
  { intros e E. unfold day_count in E.
    destruct (parse_date (residency_begin cfg)) as [[y d]|e0] eqn:P;
      simpl in E; [discriminate|].
    injection E as <-. reflexivity. }
  pose proof (init_cases cfg df today) as C.
  split; [|split; [|split]].
  - split.
    + intros E. rewrite E in C.
      destruct C as [C|[(h & Hh & C)|(h & c2p & Hh & _ & C)]].
      * apply create_visit_history_error in C. destruct C; discriminate.
      * split; [apply Hret; eauto | now apply (Hpct h Hh)].
      * apply Hres, parse_date_error in C. destruct C; discriminate.
    + intros [Hp Hf]. apply Hret in Hp. destruct Hp as [h Hh].
      apply (Hpct h Hh) in Hf.
      unfold __init__. rewrite Hh. simpl. rewrite Hf. reflexivity.
  - split.
    + intros [t E]. rewrite E in C. destruct C as (h & c2p & rp & Hh & Hp & Hd).
      split; [apply Hret; eauto|]. split.
      * intros Hf. apply (Hpct h Hh) in Hf. congruence.
      * unfold day_count in Hd.
        destruct (parse_date (residency_begin cfg)) as [p|]; [eauto|discriminate].
    + intros (Hp & Hnf & [[y d] Hr]). apply Hret in Hp. destruct Hp as [h Hh].
      destruct (create_country2percent (country2days h)) as [c2p|e] eqn:P.
      * unfold __init__. rewrite Hh. simpl. rewrite P. simpl.
        destruct (Dict.getitem_default 0 (country2days h) (home_code cfg)).
        unfold truediv, day_count. simpl. rewrite Hr. simpl. eauto.
      * exfalso. apply Hnf. apply (Hpct h Hh).
        rewrite P. f_equal. exact (proj2 (Hpct h Hh) e P).
  - intros e E. rewrite E in C.
    destruct C as [C|[(h & Hh & C)|(h & c2p & Hh & _ & C)]].
    + apply create_visit_history_error in C. tauto.
    + right. right. now apply (Hpct h Hh).
    + apply Hres, parse_date_error in C. tauto.
  - intros e Hne. split.
    + intros E. rewrite E in C.
      destruct C as [C|[(h & Hh & C)|(h & c2p & Hh & Hp & C)]].
      * now left.
      * exfalso. apply Hne. now apply (Hpct h Hh).
      * right. split; [apply Hret; eauto|]. split; [|now apply Hres].
        intros Hf. apply (Hpct h Hh) in Hf. congruence.
    + intros [E|(Hp & Hnf & Hr)].
      * unfold __init__. rewrite E. reflexivity.
      * apply Hret in Hp. destruct Hp as [h Hh].
        destruct (create_country2percent (country2days h)) as [c2p|e1] eqn:P.
        -- unfold __init__. rewrite Hh. simpl. rewrite P. simpl.
           destruct (Dict.getitem_default 0 (country2days h) (home_code cfg)).
           unfold truediv, day_count. simpl. rewrite Hr. reflexivity.
        -- exfalso. apply Hnf. apply (Hpct h Hh).
           rewrite P. f_equal. exact (proj2 (Hpct h Hh) e1 P).
Qed.

Lemma init_returns_iff_witness :
  Date.valid sample_today /\
  ascii_dates same_day_rows /\
  Py.isascii (residency_begin config_home_B) = true /\
  (__init__ config_home_B same_day_rows sample_today = Raise ZeroDivisionError <->
   all_dates_parse same_day_rows /\
   exists r rest y, same_day_rows = r :: rest /\
                    parse_date (DATE r) = Ok (y, sample_today)).
Proof.
  assert (V : Date.valid sample_today) by reflexivity.
  assert (A : ascii_dates same_day_rows) by (repeat constructor).
  assert (B : Py.isascii (residency_begin config_home_B) = true) by reflexivity.
  split; [exact V|]. split; [exact A|]. split; [exact B|].
  exact (proj1 (init_returns_iff config_home_B same_day_rows sample_today V A B)).
Defined.

Lemma percent_keys (d : Dict.t Z) (tbl : Dict.t float_text) :
  Dict.wf d -> create_country2percent d = Ok tbl -> Dict.keys tbl = Dict.keys d.
Proof.
  intros Hwf H.
  destruct (Z.eq_dec (Py.sum (Dict.values d)) 0) as [E|N].
  - destruct d as [|x d]; [now inversion H|].
    assert (create_country2percent (x :: d) = Raise ZeroDivisionError).
    { apply percent_Raise_iff. repeat split; [discriminate | exact E]. }
    congruence.
  - rewrite (create_country2percent_ok d Hwf N) in H. inversion H.
    unfold Dict.keys. rewrite map_map. reflexivity.
Qed.

Lemma init_keys (cfg : Config) (df : DataFrame) (today : Date.t)
    (t : TravelDayCounter) :
  __init__ cfg df today = Ok t ->
  let countries := distinct (map ENTERED df) in
  Dict.keys (self_country2percent t) = countries /\
  Permutation (Dict.keys (self_country2rank t)) countries /\
  self_num_visited_countries t = Z.of_nat (List.length countries) /\
  Dict.keys (self_country2firstvisit t) = countries /\
  Dict.keys (self_country2lastvisit t) = countries /\
  Dict.keys (self_country2days t) =
    (if list_mem (home_code cfg) (map ENTERED df) then countries
     else countries ++ [home_code cfg]).
Proof.
  intros H countries. apply init_Ok_inv in H.
  destruct H as (h & c2p & rp & Hh & Hp & _ & ->). simpl.
  destruct (created_keys _ _ _ Hh) as (K1 & K2 & K3 & Hwf).
  fold countries in K1, K2, K3.
  split; [rewrite <- K1; now apply percent_keys|].
  split.
  { rewrite (rank_keys _ Hwf), <- K1. unfold Dict.keys.
    apply Permutation_map, sorted_desc_perm. }
  split; [unfold Dict.len; rewrite <- K1; unfold Dict.keys; now rewrite length_map|].
  split; [exact K2|]. split; [exact K3|].
  unfold Dict.getitem_default.
  assert (M : Dict.mem (country2days h) (home_code cfg) =
              list_mem (home_code cfg) (map ENTERED df)).
  { rewrite mem_list_mem, K1.
    destruct (list_mem (home_code cfg) (map ENTERED df)) eqn:E.
    - apply list_mem_In. apply distinct_In. now apply list_mem_In.
    - destruct (list_mem (home_code cfg) countries) eqn:E'; [|reflexivity].
      apply list_mem_In in E'. unfold countries in E'.
      rewrite distinct_In in E'. apply list_mem_In in E'. congruence. }
  unfold Dict.mem in M. rewrite <- M.
  destruct (Dict.get (country2days h) (home_code cfg)) eqn:G; simpl.
  - exact K1.
  - rewrite (set_new _ _ _ G). unfold Dict.keys in *. rewrite map_app, K1.
    reflexivity.
Qed.

(** X13. After the constructor has returned, the percent table has the
    keys of the builder's day totals (the distinct countries of the
    table in order of first entry) and the rank table the same keys in
    descending order of days, and [num_visited_countries] is their
    number; the attribute [country2days] has these keys, followed by the
    home code when no row enters it, so that it then has one entry more
    than [num_visited_countries] says. *)
Theorem init_table_keys (cfg : Config) (df : DataFrame) (today : Date.t)
    (t : TravelDayCounter) :
  __init__ cfg df today = Ok t ->
  let countries := distinct (map ENTERED df) in
  let visited := list_mem (home_code cfg) (map ENTERED df) in
  Dict.keys (self_country2percent t) = countries /\
  Permutation (Dict.keys (self_country2rank t)) countries /\
  self_num_visited_countries t = Z.of_nat (List.length countries) /\
  Dict.keys (self_country2firstvisit t) = countries /\
  Dict.keys (self_country2lastvisit t) = countries /\
  Dict.keys (self_country2days t) =
    (if visited then countries else countries ++ [home_code cfg]) /\
  Dict.len (self_country2days t) =
    self_num_visited_countries t + (if visited then 0 else 1).
Proof.
  intros H countries visited.
  destruct (init_keys _ _ _ _ H) as (K1 & K2 & K3 & K4 & K5 & K6).
  fold countries in K1, K2, K3, K4, K5, K6. fold visited in K6.
  repeat split; try assumption.
  rewrite K3. unfold Dict.len.
  replace (List.length (self_country2days t))
    with (List.length (Dict.keys (self_country2days t)))
    by (unfold Dict.keys; apply length_map).
  rewrite K6. destruct visited; [lia|].
  rewrite length_app. simpl. lia.
Qed.

Lemma init_table_keys_witness :
  exists t,
    __init__ config_home_C sample_rows sample_today = Ok t /\
    let countries := distinct (map ENTERED sample_rows) in
    let visited := list_mem (home_code config_home_C) (map ENTERED sample_rows) in
    Dict.keys (self_country2percent t) = countries /\
    Permutation (Dict.keys (self_country2rank t)) countries /\
    self_num_visited_countries t = Z.of_nat (List.length countries) /\
    Dict.keys (self_country2firstvisit t) = countries /\
    Dict.keys (self_country2lastvisit t) = countries /\
    Dict.keys (self_country2days t) =
      (if visited then countries else countries ++ [home_code config_home_C]) /\
    Dict.len (self_country2days t) =
      self_num_visited_countries t + (if visited then 0 else 1).
Proof.
  eexists. split; [vm_compute; reflexivity|].
  apply (init_table_keys config_home_C sample_rows sample_today).
  vm_compute. reflexivity.
Defined.

(** ** Printing: sequences of lines *)

Lemma out_seq_lines_l (ls : list text) (b : out) :
  out_seq (out_lines ls) b = (ls ++ fst b, snd b).
Proof. reflexivity. Qed.

Lemma snd_out_seq (a b : out) :
  snd (out_seq a b) = match snd a with Some e => Some e | None => snd b end.
Proof. unfold out_seq. now destruct a as [la [e|]]. Qed.

Lemma print_each_ok {A : Type} (f : A -> result text) (l : list A) :
  (forall x, In x l -> exists line, f x = Ok line) ->
  snd (print_each f l) = None /\
  List.length (fst (print_each f l)) = List.length l.
Proof.
  induction l as [|x l IH]; intros H; [split; reflexivity|].
  destruct (H x (or_introl eq_refl)) as [line E]. simpl. rewrite E.
  destruct IH as [IH1 IH2]; [intros y Hy; apply H; now right|].
  rewrite out_seq_lines_l. simpl. now rewrite IH1, IH2.
Qed.

Lemma print_each_fail {A : Type} (f : A -> result text) (l : list A) (x : A)
    (e : exn) :
  In x l -> f x = Raise e ->
  (forall y e', In y l -> f y = Raise e' -> e' = e) ->
  snd (print_each f l) = Some e.
Proof.
  induction l as [|y l IH]; intros Hin Hx Hall; [destruct Hin|].
  simpl. destruct (f y) as [line|e'] eqn:E.
  - rewrite out_seq_lines_l. simpl. destruct Hin as [->|Hin]; [congruence|].
    apply IH; [assumption..|]. intros z e'' Hz. apply Hall. now right.
  - simpl. f_equal. apply (Hall y); [now left | exact E].
Qed.

Lemma print_each_error {A : Type} (f : A -> result text) (l : list A) (e : exn) :
  snd (print_each f l) = Some e -> exists x, In x l /\ f x = Raise e.
Proof.
  induction l as [|y l IH]; simpl; [discriminate|].
  destruct (f y) as [line|e'] eqn:E.
  - rewrite out_seq_lines_l. simpl. intros H.
    destruct (IH H) as (x & Hx & Ex). eauto.
  - simpl. intros [= <-]. eauto.
Qed.

(** ** Printing the table *)

Lemma getitem_Ok_iff {V : Type} (d : Dict.t V) (k : string) :
  (exists v, Dict.getitem d k = Ok v) <-> In k (Dict.keys d).
Proof.
  unfold Dict.getitem. rewrite <- mem_true_iff. unfold Dict.mem.
  destruct (Dict.get d k); split; intros H; eauto; try discriminate.
  destruct H as [v H]. discriminate.
Qed.

Lemma getitem_error {V : Type} (d : Dict.t V) (k : string) (e : exn) :
  Dict.getitem d k = Raise e -> e = KeyError /\ ~ In k (Dict.keys d).
Proof.
  unfold Dict.getitem. destruct (Dict.get d k) eqn:E; [discriminate|].
  intros [= <-]. split; [reflexivity | now apply get_None_iff].
Qed.

(** A row can be printed exactly when the country is in all four tables;
    otherwise the look-up raises [KeyError]. *)
Lemma table_row_cases (t : TravelDayCounter) (suffix : string) (c : string) (n : Z) :
  (In c (Dict.keys (self_country2percent t)) ->
   In c (Dict.keys (self_country2rank t)) ->
   In c (Dict.keys (self_country2firstvisit t)) ->
   In c (Dict.keys (self_country2lastvisit t)) ->
   exists line, table_row t suffix (c, n) = Ok line) /\
  (~ In c (Dict.keys (self_country2percent t)) ->
   table_row t suffix (c, n) = Raise KeyError) /\
  (forall e, table_row t suffix (c, n) = Raise e -> e = KeyError).
Proof.
  unfold table_row. split; [|split].
  - intros H1 H2 H3 H4.
    apply getitem_Ok_iff in H1, H2, H3, H4.
    destruct H1 as [p ->], H2 as [r ->], H3 as [f ->], H4 as [l ->].
    simpl. eauto.
  - intros H. unfold Dict.getitem.
    apply get_None_iff in H. now rewrite H.
  - intros e.
    destruct (Dict.getitem (self_country2percent t) c) eqn:E1; simpl;
      [|intros [= <-]; now apply getitem_error in E1].
    destruct (Dict.getitem (self_country2rank t) c) eqn:E2; simpl;
      [|intros [= <-]; now apply getitem_error in E2].
    destruct (Dict.getitem (self_country2firstvisit t) c) eqn:E3; simpl;
      [|intros [= <-]; now apply getitem_error in E3].
    destruct (Dict.getitem (self_country2lastvisit t) c) eqn:E4; simpl;
      [discriminate | intros [= <-]; now apply getitem_error in E4].
Qed.

Lemma print_table_known (disp : Display) (t : TravelDayCounter) :
  known_lang (lang disp) = true ->
  exists header suffix other,
    print_table disp t = print_table_in disp t header suffix other.
Proof.
  unfold known_lang, print_table.
  destruct (String.eqb (lang disp) "en"); [eauto|].
  destruct (String.eqb (lang disp) "ko"); [eauto|].
  destruct (String.eqb (lang disp) "ko-hanja"); [eauto|].
  destruct (String.eqb (lang disp) "zh"); [eauto|discriminate].
Qed.

Lemma print_table_unknown (disp : Display) (t : TravelDayCounter) :
  known_lang (lang disp) = false -> print_table disp t = out_lines [].
Proof.
  unfold known_lang, print_table.
  destruct (String.eqb (lang disp) "en"); [discriminate|].
  destruct (String.eqb (lang disp) "ko"); [discriminate|].
  destruct (String.eqb (lang disp) "ko-hanja"); [discriminate|].
  destruct (String.eqb (lang disp) "zh"); [discriminate|reflexivity].
Qed.

(** The keys of the tables of a constructed object, as sets. *)
Lemma init_keys_In (cfg : Config) (df : DataFrame) (today : Date.t)
    (t : TravelDayCounter) (c : string) :
  __init__ cfg df today = Ok t ->
  (In c (Dict.keys (self_country2percent t)) <-> In c (map ENTERED df)) /\
  (In c (Dict.keys (self_country2rank t)) <-> In c (map ENTERED df)) /\
  (In c (Dict.keys (self_country2firstvisit t)) <-> In c (map ENTERED df)) /\
  (In c (Dict.keys (self_country2lastvisit t)) <-> In c (map ENTERED df)) /\
  (In c (Dict.keys (self_country2days t)) <->
   In c (map ENTERED df) \/ c = home_code cfg).
Proof.
  intros H. destruct (init_keys _ _ _ _ H) as (K1 & K2 & _ & K3 & K4 & K5).
  rewrite K1, K3, K4, K5.
  repeat split; try (apply distinct_In); try (intros; now apply distinct_In).
  - intros Hc. apply distinct_In. eapply Permutation_in; eassumption.
  - intros Hc. apply distinct_In in Hc.
    eapply Permutation_in; [symmetry; eassumption | assumption].
  - destruct (list_mem (home_code cfg) (map ENTERED df)) eqn:E.
    + intros Hc. left. now apply distinct_In.
    + intros Hc. apply in_app_or in Hc. destruct Hc as [Hc|[<-|[]]]; [|now right].
      left. now apply distinct_In.
  - destruct (list_mem (home_code cfg) (map ENTERED df)) eqn:E.
    + intros [Hc| ->]; apply distinct_In; [assumption|]. now apply list_mem_In.
    + intros [Hc| ->]; apply in_or_app; [left; now apply distinct_In|].
      right. now left.
Qed.

Lemma init_totals (cfg : Config) (df : DataFrame) (today : Date.t)
    (t : TravelDayCounter) :
  __init__ cfg df today = Ok t ->
  Py.sum (Dict.values (self_country2days t)) = self_days_home t + self_days_abroad t /\
  (self_days_home t + self_days_abroad t = 0 <-> df = []) /\
  (forall c n, In (c, n) (self_country2days t) -> In c (map ENTERED df) \/ n = 0).
Proof.
  intros H. apply init_Ok_inv in H.
  destruct H as (h & c2p & rp & Hh & Hp & _ & ->). simpl.
  destruct (lookup_keeps_sums (country2days h) (home_code cfg)) as [E1 E2].
  simpl in E1, E2. rewrite E1, E2.
  destruct (created_keys _ _ _ Hh) as (K & _ & _ & Hwf).
  pose proof (sum_home_abroad (country2days h) (home_code cfg) Hwf) as S.
  split; [exact S|]. split.
  - rewrite <- S, <- (built_nonempty _ _ _ Hh). split.
    + intros Z0. destruct (country2days h) as [|x d] eqn:D; [reflexivity|].
      assert (create_country2percent (x :: d) = Raise ZeroDivisionError).
      { apply percent_Raise_iff. repeat split; [discriminate | exact Z0]. }
      congruence.
    + intros ->. reflexivity.
  - intros c n. unfold Dict.getitem_default.
    destruct (Dict.get (country2days h) (home_code cfg)) eqn:G; simpl.
    + intros Hin. left. apply (in_map fst) in Hin. simpl in Hin.
      fold (Dict.keys (country2days h)) in Hin. rewrite K in Hin.
      now apply distinct_In.
    + rewrite (set_new _ _ _ G). intros Hin. apply in_app_or in Hin.
      destruct Hin as [Hin|[[= <- <-]|[]]]; [|now right].
      left. apply (in_map fst) in Hin. simpl in Hin.
      fold (Dict.keys (country2days h)) in Hin. rewrite K in Hin.
      now apply distinct_In.
Qed.

Lemma table_full_cases (cfg : Config) (disp : Display) (df : DataFrame)
    (today : Date.t) (t : TravelDayCounter) :
  __init__ cfg df today = Ok t ->
  known_lang (lang disp) = true ->
  table_style disp = "full" ->
  (snd (print_table disp t) = Some KeyError <->
   ~ In (home_code cfg) (map ENTERED df)) /\
  (In (home_code cfg) (map ENTERED df) ->
   snd (print_table disp t) = None /\
   List.length (fst (print_table disp t)) =
     S (List.length (distinct (map ENTERED df)))) /\
  (forall e, snd (print_table disp t) = Some e -> e = KeyError).
Proof.
  intros Hi Hk Hs.
  destruct (print_table_known disp t Hk) as (header & suffix & other & ->).
  unfold print_table_in. rewrite Hs. simpl String.eqb. cbv iota.
  rewrite out_seq_lines_l. unfold Dict.items. simpl fst. simpl snd.
  set (rows := sorted_desc (self_country2days t)).
  assert (Hrows : forall x, In x rows <-> In x (self_country2days t)).
  { intros x. unfold rows. split; apply Permutation_in;
      [apply sorted_desc_perm | symmetry; apply sorted_desc_perm]. }
  assert (Hlen : List.length rows = List.length (self_country2days t)).
  { apply Permutation_length, sorted_desc_perm. }
  assert (Herr : forall e, snd (print_each (table_row t suffix) rows) = Some e ->
                           e = KeyError).
  { intros e E. apply print_each_error in E. destruct E as ([c n] & _ & E).
    now apply (table_row_cases t suffix c n). }
  assert (Hvis : In (home_code cfg) (map ENTERED df) ->
            snd (print_each (table_row t suffix) rows) = None /\
            List.length (fst (print_each (table_row t suffix) rows)) =
              List.length (distinct (map ENTERED df))).
  { intros Hv.
    destruct (print_each_ok (table_row t suffix) rows) as [O1 O2].
    - intros [c n] Hx. apply Hrows in Hx. apply (in_map fst) in Hx. simpl in Hx.
      fold (Dict.keys (self_country2days t)) in Hx.
      apply (init_keys_In _ _ _ _ c Hi) in Hx.
      assert (Hc : In c (map ENTERED df)) by (destruct Hx as [Hx| ->]; assumption).
      apply (table_row_cases t suffix c n); now apply (init_keys_In _ _ _ _ c Hi).
    - split; [exact O1|]. rewrite O2, Hlen.
      destruct (init_keys _ _ _ _ Hi) as (_ & _ & _ & _ & _ & K5).
      apply list_mem_In in Hv. rewrite Hv in K5.
      rewrite <- K5. unfold Dict.keys. now rewrite length_map. }
  split; [split|split].
  - intros E Hv. destruct (Hvis Hv) as [O _]. congruence.
  - intros Hn.
    assert (Hin : In (home_code cfg) (Dict.keys (self_country2days t))).
    { apply (init_keys_In _ _ _ _ _ Hi). now right. }
    apply in_map_iff in Hin. destruct Hin as ([c n] & Ec & Hin). simpl in Ec. subst c.
    apply (print_each_fail _ _ (home_code cfg, n)).
    + now apply Hrows.
    + apply (table_row_cases t suffix). intros Hp.
      apply (init_keys_In _ _ _ _ _ Hi) in Hp. contradiction.
    + intros [c' n'] e' _. apply (table_row_cases t suffix c' n').
  - intros Hv. destruct (Hvis Hv) as [O1 O2]. split; [exact O1|].
    simpl. now rewrite O2.
  - exact Herr.
Qed.

(** X14. After a successful construction, in a known language and with
    the full table style, [print_table] fails exactly when no row enters
    the home code, and then with [KeyError] (the home code is in
    [country2days] but not in the percent table); when the home code is
    visited it prints the header and one row per country. *)
Theorem print_table_full (cfg : Config) (disp : Display) (df : DataFrame)
    (today : Date.t) (t : TravelDayCounter) :
  __init__ cfg df today = Ok t ->
  known_lang (lang disp) = true ->
  table_style disp = "full" ->
  (snd (print_table disp t) = Some KeyError <->
   ~ In (home_code cfg) (map ENTERED df)) /\
  (In (home_code cfg) (map ENTERED df) ->
   snd (print_table disp t) = None /\
   List.length (fst (print_table disp t)) =
     S (List.length (distinct (map ENTERED df)))) /\
  (forall e, snd (print_table disp t) = Some e -> e = KeyError).
Proof.
  intros Hi Hk Hs.
  destruct (table_full_cases cfg disp df today t Hi Hk Hs) as (A & B & C).
  split; [exact A|]. split; [exact B | exact C].
Qed.

Lemma print_table_full_witness :
  exists t,
    __init__ config_home_C sample_rows sample_today = Ok t /\
    known_lang (lang sample_display) = true /\
    table_style sample_display = "full" /\
    (snd (print_table sample_display t) = Some KeyError <->
     ~ In (home_code config_home_C) (map ENTERED sample_rows)).
Proof.
  eexists. split; [vm_compute; reflexivity|].
  split; [reflexivity|]. split; [reflexivity|].
  apply (print_table_full config_home_C sample_display sample_rows sample_today);
    [vm_compute; reflexivity | reflexivity | reflexivity].
Defined.

Lemma table_short_cases (cfg : Config) (disp : Display) (df : DataFrame)
    (today : Date.t) (t : TravelDayCounter) :
  __init__ cfg df today = Ok t ->
  known_lang (lang disp) = true ->
  table_style disp = "short" ->
  (snd (print_table disp t) = Some ZeroDivisionError <-> df = []) /\
  (df <> [] ->
   snd (print_table disp t) = None /\
   Z.of_nat (List.length (fst (print_table disp t))) =
     2 + count (fun n => 7 <=? n) (self_country2days t)) /\
  (forall e, snd (print_table disp t) = Some e -> e = ZeroDivisionError).
Proof.
  intros Hi Hk Hs.
  destruct (print_table_known disp t Hk) as (header & suffix & other & ->).
  unfold print_table_in. rewrite Hs. simpl String.eqb. cbv iota.
  rewrite out_seq_lines_l. simpl fst. simpl snd.
  destruct (init_totals _ _ _ _ Hi) as (Hsum & Hzero & Hitems).
  destruct (shortened_table_cases (self_country2days t) 7) as [Hz Hnz].
  rewrite Hsum in Hz, Hnz.
  destruct (Z.eq_dec (self_days_home t + self_days_abroad t) 0) as [Z0|NZ].
  - (* no rows *)
    assert (Hdf : df = []) by now apply Hzero.
    rewrite (Hz Z0). simpl.
    split; [tauto|]. split; [contradiction|]. now intros e [= <-].
  - assert (Hdf : df <> []) by (intros E; apply NZ, Hzero, E).
    destruct (Hnz NZ) as (rest_days & rest_percent & E).
    rewrite E. unfold Dict.items.
    set (kept := filter (fun it : string * Z => 7 <=? snd it) (self_country2days t)).
    assert (Ek : kept = filter (fun it : string * Z => 7 <=? snd it)
                               (self_country2days t)) by reflexivity.
    assert (Hkept : forall c n, In (c, n) kept <->
                                In (c, n) (self_country2days t) /\ 7 <= n).
    { intros c n. unfold kept. rewrite filter_In. simpl. now rewrite Z.leb_le. }
    destruct (print_each_ok (table_row t suffix) (sorted_desc kept)) as [O1 O2].
    { intros [c n] Hx.
      assert (Hin : In (c, n) kept)
        by (eapply Permutation_in; [apply sorted_desc_perm | exact Hx]).
      apply Hkept in Hin. destruct Hin as [Hin Hn].
      destruct (Hitems c n Hin) as [Hc|Hc]; [|lia].
      apply (table_row_cases t suffix c n); now apply (init_keys_In _ _ _ _ c Hi). }
    cbv beta iota. unfold out_seq, out_lines. rewrite O1. cbn [fst snd].
    split; [|split].
    + split; [discriminate | contradiction].
    + intros _. split; [reflexivity|].
      cbn [List.length app]. rewrite ?length_app, O2. cbn [List.length].
      rewrite (Permutation_length (sorted_desc_perm kept)), Ek.
      unfold count. lia.
    + discriminate.
Qed.

(** X15. After a successful construction, in a known language and with
    the short table style, [print_table] fails exactly when the table has
    no rows, and then with [ZeroDivisionError]; otherwise it prints the
    header, one row for each country with at least 7 days, and the line
    for the rest.  It never raises [KeyError]: a home code that no row
    enters has 0 days and is not among the rows. *)
Theorem print_table_short (cfg : Config) (disp : Display) (df : DataFrame)
    (today : Date.t) (t : TravelDayCounter) :
  __init__ cfg df today = Ok t ->
  known_lang (lang disp) = true ->
  table_style disp = "short" ->
  (snd (print_table disp t) = Some ZeroDivisionError <-> df = []) /\
  (df <> [] ->
   snd (print_table disp t) = None /\
   Z.of_nat (List.length (fst (print_table disp t))) =
     2 + count (fun n => 7 <=? n) (self_country2days t)) /\
  (forall e, snd (print_table disp t) = Some e -> e = ZeroDivisionError).
Proof.
  intros Hi Hk Hs.
  destruct (table_short_cases cfg disp df today t Hi Hk Hs) as (A & B & C).
  split; [exact A|]. split; [exact B | exact C].
Qed.

Lemma print_table_short_witness :
  exists t,
    __init__ config_home_C sample_rows sample_today = Ok t /\
    known_lang "ko" = true /\
    table_style (mkDisplay "ko" true "" true "G" "short" "chrono") = "short" /\
    (sample_rows <> [] ->
     snd (print_table (mkDisplay "ko" true "" true "G" "short" "chrono") t) = None /\
     Z.of_nat (List.length
                 (fst (print_table (mkDisplay "ko" true "" true "G" "short" "chrono") t))) =
       2 + count (fun n => 7 <=? n) (self_country2days t)).
Proof.
  eexists. split; [vm_compute; reflexivity|].
  split; [reflexivity|]. split; [reflexivity|].
  apply (print_table_short config_home_C
           (mkDisplay "ko" true "" true "G" "short" "chrono")
           sample_rows sample_today);
    [vm_compute; reflexivity | reflexivity | reflexivity].
Defined.

(** ** Printing the home/abroad lines *)

Lemma in_n_out_lines_cases (cfg : Config) (disp : Display) (t : TravelDayCounter)
    line inside outside :
  (self_days_home t + self_days_abroad t = 0 ->
   in_n_out_lines cfg disp t line inside outside = ([], Some ZeroDivisionError)) /\
  (self_days_home t + self_days_abroad t <> 0 ->
   snd (in_n_out_lines cfg disp t line inside outside) = None /\
   List.length (fst (in_n_out_lines cfg disp t line inside outside)) = 2%nat).
Proof.
  unfold in_n_out_lines, share_text, truediv.
  destruct (Z.eqb_spec (self_days_home t + self_days_abroad t) 0) as [E|N]; simpl.
  - split; [reflexivity | contradiction].
  - split; [contradiction | intros _; split; reflexivity].
Qed.

Lemma in_n_out_cases (cfg : Config) (disp : Display) (df : DataFrame)
    (today : Date.t) (t : TravelDayCounter) :
  __init__ cfg df today = Ok t ->
  known_lang (lang disp) = true ->
  (df = [] -> print_in_n_out_stats cfg disp t = ([], Some ZeroDivisionError)) /\
  (df <> [] ->
   snd (print_in_n_out_stats cfg disp t) = None /\
   List.length (fst (print_in_n_out_stats cfg disp t)) = 2%nat).
Proof.
  intros Hi Hk. destruct (init_totals _ _ _ _ Hi) as (_ & Hzero & _).
  assert (Hc : exists line inside outside,
             print_in_n_out_stats cfg disp t =
             in_n_out_lines cfg disp t line inside outside).
  { unfold known_lang in Hk. unfold print_in_n_out_stats.
    destruct (String.eqb (lang disp) "en"); [eauto|].
    destruct (String.eqb (lang disp) "ko"); [eauto|].
    destruct (String.eqb (lang disp) "ko-hanja"); [eauto|].
    destruct (String.eqb (lang disp) "zh"); [eauto|discriminate]. }
  destruct Hc as (line & inside & outside & ->).
  destruct (in_n_out_lines_cases cfg disp t line inside outside) as [C0 C1].
  split.
  - intros E. apply C0, Hzero, E.
  - intros N. apply C1. intros Z0. apply N, Hzero, Z0.
Qed.

(** X16. After a successful construction and in a known language,
    [print_in_n_out_stats] fails exactly when the table has no rows: it
    divides by days_home + days_abroad, which is then zero, and raises
    [ZeroDivisionError] before printing anything; otherwise it prints
    its two lines. *)
Theorem print_in_n_out_stats_spec (cfg : Config) (disp : Display) (df : DataFrame)
    (today : Date.t) (t : TravelDayCounter) :
  __init__ cfg df today = Ok t ->
  known_lang (lang disp) = true ->
  (df = [] -> print_in_n_out_stats cfg disp t = ([], Some ZeroDivisionError)) /\
  (df <> [] ->
   snd (print_in_n_out_stats cfg disp t) = None /\
   List.length (fst (print_in_n_out_stats cfg disp t)) = 2%nat).
Proof.
  intros Hi Hk.
  destruct (in_n_out_cases cfg disp df today t Hi Hk) as [A B].
  split; [exact A | exact B].
Qed.

Lemma print_in_n_out_stats_spec_witness :
  exists t,
    __init__ config_home_B [] sample_today = Ok t /\
    known_lang (lang sample_display) = true /\
    (@nil Row = [] ->
     print_in_n_out_stats config_home_B sample_display t = ([], Some ZeroDivisionError)).
Proof.
  eexists. split; [vm_compute; reflexivity|]. split; [reflexivity|].
  apply (print_in_n_out_stats_spec config_home_B sample_display [] sample_today);
    [vm_compute; reflexivity | reflexivity].
Defined.

(** ** The chronological report *)

Lemma insert_asc_perm x l : Permutation (insert_asc x l) (x :: l).
Proof.
  induction l as [|y l IH]; simpl; [reflexivity|].
  destruct (item_ltb x y); [reflexivity|].
  rewrite IH. apply perm_swap.
Qed.

Lemma sorted_asc_perm l : Permutation (sorted_asc l) l.
Proof.
  induction l as [|x l IH]; simpl; [reflexivity|].
  rewrite insert_asc_perm. now constructor.
Qed.

(** An item that does not come before another has no smaller year. *)
Lemma item_ltb_false (a b : string * list string) :
  item_ltb a b = false -> String.compare (fst b) (fst a) <> Gt.
Proof.
  unfold item_ltb. rewrite (String.compare_antisym (fst a) (fst b)).
  destruct (String.compare (fst b) (fst a)); simpl; congruence.
Qed.

Lemma item_ltb_true (a b : string * list string) :
  item_ltb a b = true -> String.compare (fst a) (fst b) <> Gt.
Proof.
  unfold item_ltb. destruct (String.compare (fst a) (fst b)); congruence.
Qed.

Lemma insert_asc_sorted x l : ascending_years l -> ascending_years (insert_asc x l).
Proof.
  unfold ascending_years. induction 1 as [|y l Hs IH Hy]; simpl.
  - repeat constructor.
  - destruct (item_ltb x y) eqn:E.
    + constructor; [now constructor|]. constructor. now apply item_ltb_true.
    + constructor; [exact IH|].
      destruct l as [|z l]; simpl.
      * constructor. now apply item_ltb_false.
      * destruct (item_ltb x z); constructor;
          [now apply item_ltb_false | now inversion Hy].
Qed.

Lemma sorted_asc_sorted l : ascending_years (sorted_asc l).
Proof.
  induction l as [|x l IH]; simpl; [constructor|].
  now apply insert_asc_sorted.
Qed.

(** The bookkeeping of the loop ([all_visited_countries] and
    [new_countries]) marks a country exactly when no earlier list has
    it. *)
Lemma report_lines_marked (years : list (string * list string))
    (seen before : list string) :
  (forall c, list_mem c seen = list_mem c before) ->
  report_lines years seen = report_marked years before.
Proof.
  revert seen before. induction years as [|[year cl] years IH];
    intros seen before Hm; [reflexivity|].
  assert (Emap :
    map (fun c => if list_mem c (filter (fun c0 => negb (list_mem c0 seen)) cl)
                  then bold c else c) cl =
    map (fun c => if list_mem c before then c else bold c) cl).
  { apply map_ext_in. intros c Hc.
    assert (E : list_mem c (filter (fun c0 => negb (list_mem c0 seen)) cl) =
                negb (list_mem c before)).
    { rewrite <- Hm. destruct (list_mem c seen) eqn:S; simpl.
      - destruct (list_mem c (filter _ cl)) eqn:F; [|reflexivity].
        apply list_mem_In, filter_In in F. destruct F as [_ F].
        rewrite S in F. discriminate.
      - apply list_mem_In, filter_In. now rewrite S. }
    rewrite E. now destruct (list_mem c before). }
  cbn [report_lines report_marked]. rewrite Emap. f_equal.
  apply IH. intros c.
  destruct (list_mem c (before ++ cl)) eqn:B.
    + apply list_mem_In. apply list_mem_In, in_app_or in B.
      apply in_or_app. destruct (list_mem c seen) eqn:S.
      * left. now apply list_mem_In.
      * destruct B as [B|B]; [apply list_mem_In in B; rewrite <- Hm in B; congruence|].
        right. apply filter_In. now rewrite S.
    + destruct (list_mem c (seen ++ filter (fun c0 => negb (list_mem c0 seen)) cl))
        eqn:S; [|reflexivity].
      apply list_mem_In, in_app_or in S.
      assert (In c (before ++ cl)); [|apply list_mem_In in H; congruence].
      apply in_or_app. destruct S as [S|S].
      * left. apply list_mem_In. rewrite <- Hm. now apply list_mem_In.
      * right. now apply filter_In in S.
Qed.

Lemma length_report_marked years before :
  List.length (report_marked years before) = List.length years.
Proof.
  revert before. induction years as [|[y cl] years IH]; intros before;
    [reflexivity|]. simpl. now rewrite IH.
Qed.

(** X17. [print_report] never raises.  With the report style [chrono]
    it prints, after the title line of a known language, one line per
    year of the year index, in ascending order of the year texts, and in
    each line a country is bold exactly when no earlier line lists it;
    with another report style it prints nothing. *)
Theorem print_report_spec (disp : Display) (t : TravelDayCounter) :
  snd (print_report disp t) = None /\
  (report_style disp <> "chrono" -> fst (print_report disp t) = []) /\
  (report_style disp = "chrono" ->
   exists title years,
     fst (print_report disp t) = title ++ report_marked years [] /\
     List.length title = (if known_lang (lang disp) then 1 else 0)%nat /\
     years = sorted_asc (Dict.items (self_visityear2countries t)) /\
     Permutation years (self_visityear2countries t) /\
     ascending_years years /\
     List.length (report_marked years []) =
       List.length (self_visityear2countries t)).
Proof.
  unfold print_report.
  destruct (String.eqb_spec (report_style disp) "chrono") as [E|N].
  - set (years := sorted_asc (Dict.items (self_visityear2countries t))).
    assert (Hl : out_lines (report_lines years []) = out_lines (report_marked years []))
      by (f_equal; now apply report_lines_marked).
    rewrite Hl.
    assert (Hp : Permutation years (self_visityear2countries t))
      by apply sorted_asc_perm.
    assert (Hn : List.length (report_marked years []) =
                 List.length (self_visityear2countries t))
      by (rewrite length_report_marked; now apply Permutation_length).
    unfold known_lang.
    destruct (String.eqb (lang disp) "en");
      [|destruct (String.eqb (lang disp) "ko");
        [|destruct (String.eqb (lang disp) "ko-hanja");
          [|destruct (String.eqb (lang disp) "zh")]]];
      (split; [reflexivity|]; split; [contradiction|]; intros _;
       eexists _, years; split; [reflexivity|];
       repeat split; try assumption; apply sorted_asc_sorted).
  - split; [reflexivity|]. split; [reflexivity | contradiction].
Qed.

(** ** The whole output *)

Lemma print_header_never_raises disp t today : snd (print_header disp t today) = None.
Proof.
  unfold print_header.
  destruct (String.eqb (lang disp) "en"); [reflexivity|].
  destruct (String.eqb (lang disp) "ko"); [reflexivity|].
  destruct (String.eqb (lang disp) "ko-hanja"); [reflexivity|].
  destruct (String.eqb (lang disp) "zh"); reflexivity.
Qed.

Lemma print_residency_never_raises disp t : snd (print_residency_stats disp t) = None.
Proof.
  unfold print_residency_stats.
  destruct (String.eqb (lang disp) "en"); [reflexivity|].
  destruct (String.eqb (lang disp) "ko"); [reflexivity|].
  destruct (String.eqb (lang disp) "ko-hanja"); [reflexivity|].
  destruct (String.eqb (lang disp) "zh"); reflexivity.
Qed.

Lemma print_report_never_raises disp t : snd (print_report disp t) = None.
Proof.
  unfold print_report.
  destruct (String.eqb (report_style disp) "chrono"); [|reflexivity].
  destruct (String.eqb (lang disp) "en"); [reflexivity|].
  destruct (String.eqb (lang disp) "ko"); [reflexivity|].
  destruct (String.eqb (lang disp) "ko-hanja"); [reflexivity|].
  destruct (String.eqb (lang disp) "zh"); reflexivity.
Qed.

Lemma in_n_out_unknown cfg disp t :
  known_lang (lang disp) = false -> print_in_n_out_stats cfg disp t = out_lines [].
Proof.
  unfold known_lang, print_in_n_out_stats.
  destruct (String.eqb (lang disp) "en"); [discriminate|].
  destruct (String.eqb (lang disp) "ko"); [discriminate|].
  destruct (String.eqb (lang disp) "ko-hanja"); [discriminate|].
  destruct (String.eqb (lang disp) "zh"); [discriminate|reflexivity].
Qed.

(** When the home/abroad lines fail. *)
Lemma in_n_out_fails_iff (cfg : Config) (disp : Display) (df : DataFrame)
    (today : Date.t) (t : TravelDayCounter) :
  __init__ cfg df today = Ok t ->
  (snd (print_in_n_out_stats cfg disp t) <> None <->
   known_lang (lang disp) = true /\ df = []) /\
  (forall e, snd (print_in_n_out_stats cfg disp t) = Some e -> e = ZeroDivisionError).
Proof.
  intros Hi. destruct (known_lang (lang disp)) eqn:K.
  - destruct (in_n_out_cases cfg disp df today t Hi K) as [A B].
    destruct df as [|r rest].
    + rewrite (A eq_refl). simpl. split; [split; [auto | discriminate]|].
      now intros e [= <-].
    + destruct B as [B _]; [discriminate|]. rewrite B.
      split; [|discriminate]. split; [congruence|]. intros [_ E]. discriminate.
  - rewrite (in_n_out_unknown cfg disp t K). simpl.
    split; [|discriminate]. split; [congruence|]. intros [E _]. discriminate.
Qed.

(** When the table fails. *)
Lemma table_fails_iff (cfg : Config) (disp : Display) (df : DataFrame)
    (today : Date.t) (t : TravelDayCounter) :
  __init__ cfg df today = Ok t ->
  (snd (print_table disp t) <> None <->
   known_lang (lang disp) = true /\
   ((table_style disp = "full" /\ ~ In (home_code cfg) (map ENTERED df)) \/
    (table_style disp = "short" /\ df = []))) /\
  (forall e, snd (print_table disp t) = Some e ->
             e = ZeroDivisionError \/ e = KeyError).
Proof.
  intros Hi. destruct (known_lang (lang disp)) eqn:K.
  - destruct (String.eqb_spec (table_style disp) "full") as [F|NF].
    + destruct (table_full_cases cfg disp df today t Hi K F) as (A & B & C).
      split; [|intros e E; right; now apply C].
      destruct (in_dec string_dec (home_code cfg) (map ENTERED df)) as [V|NV].
      * destruct (B V) as [B1 _]. rewrite B1. split; [congruence|].
        intros [_ [[_ N]|[S _]]]; [contradiction|].
        rewrite F in S. discriminate.
      * apply A in NV. rewrite NV. split; [|discriminate].
        intros _. split; [reflexivity|]. left. split; [exact F|].
        now apply A.
    + destruct (String.eqb_spec (table_style disp) "short") as [S|NS].
      * destruct (table_short_cases cfg disp df today t Hi K S) as (A & B & C).
        split; [|intros e E; left; now apply C].
        destruct df as [|r rest].
        -- rewrite (proj2 A eq_refl). split; [|discriminate].
           intros _. split; [reflexivity|]. right. auto.
        -- destruct B as [B _]; [discriminate|]. rewrite B.
           split; [congruence|].
           intros [_ [[F _]|[_ E]]]; [contradiction | discriminate].
      * destruct (print_table_known disp t K) as (header & suffix & other & ->).
        unfold print_table_in.
        destruct (String.eqb_spec (table_style disp) "full"); [contradiction|].
        destruct (String.eqb_spec (table_style disp) "short"); [contradiction|].
        simpl. split; [|discriminate]. split; [congruence|].
        intros [_ [[F _]|[S _]]]; contradiction.
  - rewrite (print_table_unknown disp t K). simpl.
    split; [|discriminate]. split; [congruence|]. intros [E _]. discriminate.
Qed.

(** X18. After a successful construction, [output] ends with an
    exception exactly when the language is a known one and either the
    home statistics are on while the table has no rows, or the table
    style is [full] and no row enters the home code, or the table style
    is [short] and the table has no rows; the exception is then
    [ZeroDivisionError] or [KeyError]. *)
Theorem output_fails_iff (cfg : Config) (disp : Display) (df : DataFrame)
    (today : Date.t) (t : TravelDayCounter) :
  __init__ cfg df today = Ok t ->
  (snd (output cfg disp t today) <> None <->
   known_lang (lang disp) = true /\
   ((track_home disp = true /\ df = []) \/
    (table_style disp = "full" /\ ~ In (home_code cfg) (map ENTERED df)) \/
    (table_style disp = "short" /\ df = []))) /\
  (forall e, snd (output cfg disp t today) = Some e ->
             e = ZeroDivisionError \/ e = KeyError).
Proof.
  intros Hi.
  destruct (in_n_out_fails_iff cfg disp df today t Hi) as [I1 I2].
  destruct (table_fails_iff cfg disp df today t Hi) as [T1 T2].
  assert (E : snd (output cfg disp t today) =
              match (if track_home disp then snd (print_in_n_out_stats cfg disp t)
                     else None) with
              | Some e => Some e
              | None => snd (print_table disp t)
              end).
  { unfold output. rewrite !snd_out_seq.
    rewrite print_header_never_raises, print_report_never_raises.
    pose proof (print_residency_never_raises disp t) as R.
    destruct (track_home disp), (track_residency disp); rewrite ?R; simpl;
      destruct (snd (print_in_n_out_stats cfg disp t));
      destruct (snd (print_table disp t)); reflexivity. }
  rewrite E. clear E.
  destruct (track_home disp) eqn:H.
  - destruct (snd (print_in_n_out_stats cfg disp t)) as [e|] eqn:E.
    + split; [|intros e' [= <-]; left; now apply I2].
      split; [|discriminate]. intros _.
      destruct (proj1 I1 ltac:(discriminate)) as [K D]. auto.
    + destruct (snd (print_table disp t)) as [e|] eqn:E'.
      * split; [|intros e' [= <-]; now apply T2].
        split; [|discriminate]. intros _.
        destruct (proj1 T1 ltac:(discriminate)) as [K D]. split; [exact K|].
        right. exact D.
      * split; [|discriminate]. split; [congruence|].
        intros [K [[_ D]|D]].
        -- apply I1; auto.
        -- apply T1; auto.
  - destruct (snd (print_table disp t)) as [e|] eqn:E'.
    + split; [|intros e' [= <-]; now apply T2].
      split; [|discriminate]. intros _.
      destruct (proj1 T1 ltac:(discriminate)) as [K D]. split; [exact K|].
      right. exact D.
    + split; [|discriminate]. split; [congruence|].
      intros [K [[D _]|D]]; [discriminate|].
      apply T1; auto.
Qed.

Lemma output_fails_iff_witness :
  exists t,
    __init__ config_home_C sample_rows sample_today = Ok t /\
    (snd (output config_home_C sample_display t sample_today) <> None <->
     known_lang (lang sample_display) = true /\
     ((track_home sample_display = true /\ sample_rows = []) \/
      (table_style sample_display = "full" /\
       ~ In (home_code config_home_C) (map ENTERED sample_rows)) \/
      (table_style sample_display = "short" /\ sample_rows = []))).
Proof.
  eexists. split; [vm_compute; reflexivity|].
  apply (output_fails_iff config_home_C sample_display sample_rows sample_today).
  vm_compute. reflexivity.
Defined.

(** ** Dates as text: what is printed can be read back *)

Lemma split_no_dash (s : string) : no_dash s = true -> Py.split "-" s = [s].
Proof.
  induction s as [|c s IH]; simpl; [reflexivity|].
  destruct (Ascii.eqb c "-"); simpl; [discriminate|].
  intros H. now rewrite (IH H).
Qed.

Lemma split_dash_app (s1 s2 : string) :
  no_dash s1 = true ->
  Py.split "-" (s1 ++ String "-" s2)%string = s1 :: Py.split "-" s2.
Proof.
  induction s1 as [|c s1 IH]; simpl; [reflexivity|].
  destruct (Ascii.eqb c "-"); simpl; [discriminate|].
  intros H. now rewrite (IH H).
Qed.

(** The zero-padded text of a number in a range reads back as the
    number and has no dash; checked for all numbers of the range. *)
Lemma zfill_reads_back (width : nat) (bound : Z) (n : Z) :
  forallb (fun k => match Py.int (zfill width (Py.str (Z.of_nat k))) with
                    | Ok z => (z =? Z.of_nat k) && no_dash (zfill width (Py.str (Z.of_nat k)))
                    | Raise _ => false
                    end) (seq 1 (Z.to_nat bound)) = true ->
  1 <= n <= bound ->
  Py.int (zfill width (Py.str n)) = Ok n /\ no_dash (zfill width (Py.str n)) = true.
Proof.
  intros Hall Hn. rewrite forallb_forall in Hall.
  specialize (Hall (Z.to_nat n)). rewrite Z2Nat.id in Hall by lia.
  assert (Hin : In (Z.to_nat n) (seq 1 (Z.to_nat bound))) by (apply in_seq; lia).
  specialize (Hall Hin).
  destruct (Py.int (zfill width (Py.str n))); [|discriminate].
  apply andb_true_iff in Hall. destruct Hall as [E D].
  apply Z.eqb_eq in E. subst. auto.
Qed.

Lemma days_in_month_le_31 (y m : Z) : Date.days_in_month y m <= 31.
Proof.
  unfold Date.days_in_month. destruct ((m =? 2) && Date.is_leap y)%bool; [lia|].
  unfold Date.DAYS_IN_MONTH.
  destruct m as [|p|p]; try lia.
  do 4 (destruct p as [p|p|]; try lia).
Qed.

Lemma split_three (a b c : string) :
  no_dash a = true -> no_dash b = true -> no_dash c = true ->
  Py.split "-" (a ++ "-" ++ b ++ "-" ++ c)%string = [a; b; c].
Proof.
  intros Ha Hb Hc.
  change (a ++ "-" ++ b ++ "-" ++ c)%string
    with (a ++ String "-" (b ++ String "-" c))%string.
  now rewrite (split_dash_app _ _ Ha), (split_dash_app _ _ Hb), (split_no_dash _ Hc).
Qed.

Lemma parse_isoformat (d : Date.t) :
  Date.valid d ->
  parse_date (isoformat d) = Ok (zfill 4 (Py.str (Date.year d)), d).
Proof.
  intros Hv. pose proof (valid_fields d Hv) as (Hy & Hm & Hd).
  pose proof (days_in_month_le_31 (Date.year d) (Date.month d)) as H31.
  destruct (zfill_reads_back 4 9999 (Date.year d)) as [Iy Ny];
    [vm_compute; reflexivity | lia |].
  destruct (zfill_reads_back 2 31 (Date.month d)) as [Im Nm];
    [vm_compute; reflexivity | lia |].
  destruct (zfill_reads_back 2 31 (Date.day d)) as [Id Nd];
    [vm_compute; reflexivity | lia |].
  unfold parse_date, isoformat.
  rewrite (split_three _ _ _ Ny Nm Nd).
  simpl Py.unpack3. cbn [bind]. rewrite Iy. cbn [bind]. rewrite Im. cbn [bind].
  rewrite Id. cbn [bind].
  assert (F : (Date.fits_c_int (Date.year d) && Date.fits_c_int (Date.month d)
               && Date.fits_c_int (Date.day d))%bool = true).
  { unfold Date.fits_c_int.
    repeat (apply andb_true_intro; split); apply Z.leb_le; lia. }
  unfold Date.date. rewrite F. unfold Date.valid in Hv. rewrite Hv. cbn [bind].
  now destruct d.
Qed.

(** X19. The text that the report prints for a date reads back as that
    date: [isoformat] followed by the parsing of the builder is the
    identity on valid dates, and [day_count] of the printed text of a
    date is the number of days from that date to today. *)
Theorem isoformat_roundtrip (d today : Date.t) :
  Date.valid d ->
  parse_date (isoformat d) = Ok (zfill 4 (Py.str (Date.year d)), d) /\
  day_count (isoformat d) today = Ok (Date.sub_days today d) /\
  day_count (isoformat d) d = Ok 0.
Proof.
  intros Hv. pose proof (parse_isoformat d Hv) as P.
  split; [exact P|]. unfold day_count. rewrite P. simpl.
  split; [reflexivity|]. unfold Date.sub_days. f_equal. lia.
Qed.

Lemma isoformat_roundtrip_witness :
  Date.valid (Date.mk 2020 2 29) /\
  parse_date (isoformat (Date.mk 2020 2 29)) =
    Ok (zfill 4 (Py.str (Date.year (Date.mk 2020 2 29))), Date.mk 2020 2 29).
Proof.
  assert (V : Date.valid (Date.mk 2020 2 29)) by reflexivity.
  split; [exact V|].
  exact (proj1 (isoformat_roundtrip (Date.mk 2020 2 29) sample_today V)).
Defined.

(** ** What the roll-up changes *)

(** X20. The roll-up of the constructor leaves the builder's first-visit,
    last-visit and year tables as they are.  It leaves the day totals as
    they are exactly when some row enters the home code; otherwise the
    day totals end with a new entry for the home code, with 0 days. *)
Theorem rollup_frame (cfg : Config) (df : DataFrame) (today : Date.t)
    (t : TravelDayCounter) (h : history) :
  __init__ cfg df today = Ok t -> create_visit_history df today = Ok h ->
  self_country2firstvisit t = country2firstvisit h /\
  self_country2lastvisit t = country2lastvisit h /\
  self_visityear2countries t = visityear2countries h /\
  (self_country2days t = country2days h <-> In (home_code cfg) (map ENTERED df)) /\
  (~ In (home_code cfg) (map ENTERED df) ->
   self_country2days t = country2days h ++ [(home_code cfg, 0)]).
Proof.
  intros H Hh. apply init_Ok_inv in H.
  destruct H as (h' & c2p & rp & Hh' & _ & _ & ->).
  rewrite Hh in Hh'. inversion Hh'; subst h'. simpl.
  destruct (created_keys _ _ _ Hh) as (K & _).
  assert (Hmem : Dict.get (country2days h) (home_code cfg) = None <->
                 ~ In (home_code cfg) (map ENTERED df)).
  { rewrite get_None_iff, K, distinct_In. reflexivity. }
  unfold Dict.getitem_default.
  destruct (Dict.get (country2days h) (home_code cfg)) as [v|] eqn:G; simpl.
  - assert (V : In (home_code cfg) (map ENTERED df)).
    { destruct (in_dec string_dec (home_code cfg) (map ENTERED df)); [assumption|].
      apply Hmem in n. discriminate. }
    repeat split; try reflexivity; [intros _; exact V | contradiction].
  - assert (NV : ~ In (home_code cfg) (map ENTERED df)) by now apply Hmem.
    rewrite (set_new _ _ _ G).
    repeat split; try reflexivity; [|contradiction].
    intros E. exfalso.
    apply (f_equal (@List.length _)) in E. rewrite length_app in E. simpl in E. lia.
Qed.

Lemma rollup_frame_witness :
  exists t h,
    __init__ config_home_C sample_rows sample_today = Ok t /\
    create_visit_history sample_rows sample_today = Ok h /\
    self_country2firstvisit t = country2firstvisit h /\
    self_country2lastvisit t = country2lastvisit h /\
    self_visityear2countries t = visityear2countries h /\
    (self_country2days t = country2days h <->
     In (home_code config_home_C) (map ENTERED sample_rows)) /\
    (~ In (home_code config_home_C) (map ENTERED sample_rows) ->
     self_country2days t = country2days h ++ [(home_code config_home_C, 0)]).
Proof.
  do 2 eexists. split; [vm_compute; reflexivity|].
  split; [vm_compute; reflexivity|].
  apply (rollup_frame config_home_C sample_rows sample_today);
    vm_compute; reflexivity.
Defined.
